(** * RitualGrowthDash: the calculation engine of [src/Dashboard.jsx]

    A shallow embedding of the three product-margin helpers,
    [calcTierEconomics] and [projectScenario], and of the pure parts of
    the component around them, followed by the properties the
    specification states about them.

    Numbers.  A JavaScript number is a binary64 double, and the engine is
    embedded twice.

    - The module [Double] is the engine on doubles: every addition,
      subtraction, multiplication and division returns the double nearest
      to the exact result, overflow gives an infinity, NaN propagates,
      and [Math.round] acts on the double it is given.  Every statement
      about the value a number takes (the recurrence of the active
      partners, the cohort counts, the roundings of the tier economics
      and of the monthly and cumulative figures, the year totals) is made
      on [Double].
    - The definitions at top level are the same code on exact rationals
      ([Q]), the rounding of each operation left out.  They carry the
      statements about the structure of the computation, which no
      rounding affects: which products a tier resolves, which tier fills
      which cohort, which divisions can meet a zero divisor, how the
      handlers edit their lists and what the chart reads.  Three
      statements about values are kept there because they hold on doubles
      as they stand: the doubling of the retail revenue between an attach
      rate of 50 and one of 100 (a scaling by 1/2 or by 1 is exact), the
      partner counts of the base case in months 2 and 3 (shown again on
      [Double]), and the partner count of the KPI card (a comparison of
      whole numbers).  Division by zero, which gives 0 on [Q], is tracked
      by a checked variant of the engine.

    Objects.  A JS object literal with fixed keys is a record; the object
    [tierEcon], filled by assignment under computed keys, is a [gmap] from
    tier id to economics; [undefined] is [None]. *)

From stdpp Require Import gmap strings list fin_maps pretty.
From Stdlib Require Import QArith Qround Qabs Qpower Lqa Lia.
From Stdlib Require Floats.

Local Open Scope Q_scope.

(** ** JavaScript numbers and [Math] *)

(** [Math.round x]: the nearest integer, a tie going up. *)
Definition Math_round (x : Q) : Q := inject_Z (Qfloor (x + (1 # 2))).

(** The idiom [Math.round(x * 100) / 100] of the source. *)
Definition round2 (x : Q) : Q := Math_round (x * 100) / 100.

(** [x > y] on numbers. *)
Definition gt (x y : Q) : bool := negb (Qle_bool x y).

(** [l.length] as a number. *)
Definition len {A} (l : list A) : Q := inject_Z (Z.of_nat (length l)).

(** [ids.includes(x)] on an array of strings. *)
Definition includes (ids : list string) (x : string) : bool :=
  existsb (String.eqb x) ids.

(** [a || []] for a possibly undefined array. *)
Definition orEmpty {A} (a : option (list A)) : list A :=
  match a with Some l => l | None => [] end.

(** Truthiness of a possibly undefined string: [undefined] and the empty
    string are falsy. *)
Definition truthy (s : option string) : bool :=
  match s with
  | Some x => negb (String.eqb x "")
  | None => false
  end.

(** ** Data model *)

Module Bulk.
Record t := mk
  { id : string; name : string; sizeLbs : Q;
    servings : Q; wholesale : Q; cogs : Q }.
End Bulk.

Module Retail.
Record t := mk
  { id : string; name : string; retailPrice : Q;
    wholesalePrice : Q; cogs : Q }.
End Retail.

Module Tier.
Record t := mk
  { id : string; label : string;
    bulkProductIds : option (list string);
    drinksPerDay : Q; tspPerDrink : Q; daysPerMonth : Q;
    retailProductIds : option (list string);
    retailUnitsPerMonth : Q }.
End Tier.

Module Scenario.
Record t := mk
  { name : string; startingPartners : Q; newPartnersPerMonth : Q;
    pctSmall : Q; pctMedium : Q; pctLarge : Q;
    monthlyChurnPct : Q; retailAttachPct : Q; color : string }.
End Scenario.

(** One row of [bulkBreakdown]. *)
Module Row.
Record t := mk { name : string; bags : Q; rev : Q }.
End Row.

(** The object returned by [calcTierEconomics]. *)
Module Econ.
Record t := mk
  { servingsPerMonth : Q; bulkBreakdown : list Row.t;
    bulkRev : Q; bulkProfit : Q;
    retailRev : Q; retailProfit : Q;
    totalRev : Q; totalProfit : Q }.
End Econ.

(** One element of the array returned by [projectScenario]. *)
Module Month.
Record t := mk
  { month : nat; label : string;
    totalActive : Q; small : Q; medium : Q; large : Q;
    bulkRevenue : Q; retailRevenue : Q; totalRevenue : Q;
    bulkProfit : Q; retailProfit : Q; totalProfit : Q;
    marginPct : Q;
    cumulativeRev : Q; cumulativeProfit : Q }.
End Month.

(** ** Product economics *)

Definition calcBulkMargin (p : Bulk.t) : Q := Bulk.wholesale p - Bulk.cogs p.

Definition calcRetailMargin (p : Retail.t) : Q :=
  Retail.wholesalePrice p - Retail.cogs p.

(** ** Tier economics *)

Definition selectBulk (tier : Tier.t) (bulkProducts : list Bulk.t) : list Bulk.t :=
  List.filter (fun p => includes (orEmpty (Tier.bulkProductIds tier)) (Bulk.id p))
              bulkProducts.

Definition selectRetail (tier : Tier.t) (retailProducts : list Retail.t)
  : list Retail.t :=
  List.filter (fun p => includes (orEmpty (Tier.retailProductIds tier)) (Retail.id p))
              retailProducts.

Definition totalServings (tier : Tier.t) : Q :=
  Tier.drinksPerDay tier * Tier.tspPerDrink tier * Tier.daysPerMonth tier.

Definition servingsShare (tier : Tier.t) (selectedBulk : list Bulk.t) : Q :=
  if (0 <? length selectedBulk)%nat
  then totalServings tier / len selectedBulk
  else 0.

(** The variables the [map] callback over [selectedBulk] updates, with the
    array it builds. *)
Module BulkAcc.
Record t := mk { bulkRev : Q; bulkProfit : Q; rows : list Row.t }.
Definition init : t := mk 0 0 [].
End BulkAcc.

Definition bagsOf (servingsPerProduct : Q) (bulk : Bulk.t) : Q :=
  if gt (Bulk.servings bulk) 0
  then servingsPerProduct / Bulk.servings bulk
  else 0.

Definition bulkStep (servingsPerProduct : Q) (a : BulkAcc.t) (bulk : Bulk.t)
  : BulkAcc.t :=
  let bags := bagsOf servingsPerProduct bulk in
  let rev := bags * Bulk.wholesale bulk in
  let profit := bags * calcBulkMargin bulk in
  BulkAcc.mk (BulkAcc.bulkRev a + rev)
             (BulkAcc.bulkProfit a + profit)
             (BulkAcc.rows a ++ [Row.mk (Bulk.name bulk) (round2 bags) (round2 rev)]).

Definition retailShare (tier : Tier.t) (selectedRetail : list Retail.t) : Q :=
  if (0 <? length selectedRetail)%nat
  then Tier.retailUnitsPerMonth tier / len selectedRetail
  else 0.

(** The variables the [forEach] callback over [selectedRetail] updates. *)
Module RetailAcc.
Record t := mk { retailRev : Q; retailProfit : Q }.
Definition init : t := mk 0 0.
End RetailAcc.

Definition retailStep (retailUnitsPerProduct : Q) (a : RetailAcc.t)
  (retail : Retail.t) : RetailAcc.t :=
  RetailAcc.mk
    (RetailAcc.retailRev a + retailUnitsPerProduct * Retail.wholesalePrice retail)
    (RetailAcc.retailProfit a + retailUnitsPerProduct * calcRetailMargin retail).

Definition bulkTotals (tier : Tier.t) (bulkProducts : list Bulk.t) : BulkAcc.t :=
  let selectedBulk := selectBulk tier bulkProducts in
  fold_left (bulkStep (servingsShare tier selectedBulk)) selectedBulk BulkAcc.init.

Definition retailTotals (tier : Tier.t) (retailProducts : list Retail.t)
  : RetailAcc.t :=
  let selectedRetail := selectRetail tier retailProducts in
  fold_left (retailStep (retailShare tier selectedRetail)) selectedRetail
            RetailAcc.init.

Definition calcTierEconomics (tier : Tier.t) (bulkProducts : list Bulk.t)
  (retailProducts : list Retail.t) : Econ.t :=
  let b := bulkTotals tier bulkProducts in
  let r := retailTotals tier retailProducts in
  {| Econ.servingsPerMonth := totalServings tier;
     Econ.bulkBreakdown := BulkAcc.rows b;
     Econ.bulkRev := round2 (BulkAcc.bulkRev b);
     Econ.bulkProfit := round2 (BulkAcc.bulkProfit b);
     Econ.retailRev := RetailAcc.retailRev r;
     Econ.retailProfit := RetailAcc.retailProfit r;
     Econ.totalRev := round2 (BulkAcc.bulkRev b + RetailAcc.retailRev r);
     Econ.totalProfit := round2 (BulkAcc.bulkProfit b + RetailAcc.retailProfit r) |}.

(** ** Scenario projection *)

(** The object [tierEcon]: each tier's economics stored under the tier's
    id, a later tier overwriting an earlier one with the same id. *)
Definition tierEconOf (tiers : list Tier.t) (bulkProducts : list Bulk.t)
  (retailProducts : list Retail.t) : gmap string Econ.t :=
  fold_left
    (fun tierEcon t =>
       <[Tier.id t := calcTierEconomics t bulkProducts retailProducts]> tierEcon)
    tiers ∅.

(** The keys of [tierMap] and [counts]. *)
Inductive Size := small | medium | large.

(** [tierMap]: [tiers[k]?.id] for [k = 0, 1, 2]. *)
Definition tierMapOf (tiers : list Tier.t) (size : Size) : option string :=
  match size with
  | small => Tier.id <$> tiers !! 0%nat
  | medium => Tier.id <$> tiers !! 1%nat
  | large => Tier.id <$> tiers !! 2%nat
  end.

(** [counts]: the cohort split of the active partners. *)
Definition countsOf (scenario : Scenario.t) (totalActive : Q) (size : Size) : Q :=
  match size with
  | small => totalActive * (Scenario.pctSmall scenario / 100)
  | medium => totalActive * (Scenario.pctMedium scenario / 100)
  | large => totalActive * (Scenario.pctLarge scenario / 100)
  end.

(** The four sums a month accumulates over the cohorts. *)
Module Sums.
Record t := mk { bulkRev : Q; bulkProfit : Q; retailRev : Q; retailProfit : Q }.
Definition init : t := mk 0 0 0 0.
End Sums.

(** The economics a cohort is charged with: [tierEcon[tid]] when [tid] is
    truthy and present, nothing otherwise. *)
Definition cohortEcon (tierMap : Size -> option string)
  (tierEcon : gmap string Econ.t) (size : Size) : option Econ.t :=
  let tid := tierMap size in
  if truthy tid then tid ≫= (fun k => tierEcon !! k) else None.

(** The callback of [["small", "medium", "large"].forEach]. *)
Definition cohortStep (tierMap : Size -> option string)
  (tierEcon : gmap string Econ.t) (counts : Size -> Q) (retailAttach : Q)
  (s : Sums.t) (size : Size) : Sums.t :=
  match cohortEcon tierMap tierEcon size with
  | Some e =>
      Sums.mk (Sums.bulkRev s + counts size * Econ.bulkRev e)
              (Sums.bulkProfit s + counts size * Econ.bulkProfit e)
              (Sums.retailRev s + counts size * Econ.retailRev e * retailAttach)
              (Sums.retailProfit s + counts size * Econ.retailProfit e * retailAttach)
  | None => s
  end.

Definition monthSums (tierMap : Size -> option string)
  (tierEcon : gmap string Econ.t) (counts : Size -> Q) (retailAttach : Q)
  : Sums.t :=
  fold_left (cohortStep tierMap tierEcon counts retailAttach)
            [small; medium; large] Sums.init.

(** The variables the [for] loop carries from month to month. *)
Module Loop.
Record t := mk
  { totalActive : Q; cumulativeRev : Q; cumulativeProfit : Q;
    months : list Month.t }.
End Loop.

Definition monthLabel (m : nat) : string := "M" +:+ pretty m.

(** The object literal pushed onto [months]. *)
Definition monthRecord (m : nat) (totalActive : Q) (counts : Size -> Q)
  (s : Sums.t) (totalRev totalProfit cumulativeRev cumulativeProfit : Q)
  : Month.t :=
  {| Month.month := m; Month.label := monthLabel m;
     Month.totalActive := round2 totalActive;
     Month.small := round2 (counts small);
     Month.medium := round2 (counts medium);
     Month.large := round2 (counts large);
     Month.bulkRevenue := Math_round (Sums.bulkRev s);
     Month.retailRevenue := Math_round (Sums.retailRev s);
     Month.totalRevenue := Math_round totalRev;
     Month.bulkProfit := Math_round (Sums.bulkProfit s);
     Month.retailProfit := Math_round (Sums.retailProfit s);
     Month.totalProfit := Math_round totalProfit;
     Month.marginPct :=
       if gt totalRev 0
       then Math_round (totalProfit / totalRev * 1000) / 10
       else 0;
     Month.cumulativeRev := Math_round cumulativeRev;
     Month.cumulativeProfit := Math_round cumulativeProfit |}.

(** One turn of the loop [for (let m = 1; m <= 12; m++)]. *)
Definition loopBody (scenario : Scenario.t) (tierMap : Size -> option string)
  (tierEcon : gmap string Econ.t) (st : Loop.t) (m : nat) : Loop.t :=
  let churn := Scenario.monthlyChurnPct scenario / 100 in
  let retailAttach := Scenario.retailAttachPct scenario / 100 in
  let totalActive :=
    if (1 <? m)%nat
    then Loop.totalActive st * (1 - churn) + Scenario.newPartnersPerMonth scenario
    else Loop.totalActive st in
  let counts := countsOf scenario totalActive in
  let s := monthSums tierMap tierEcon counts retailAttach in
  let totalRev := Sums.bulkRev s + Sums.retailRev s in
  let totalProfit := Sums.bulkProfit s + Sums.retailProfit s in
  let cumulativeRev := Loop.cumulativeRev st + totalRev in
  let cumulativeProfit := Loop.cumulativeProfit st + totalProfit in
  Loop.mk totalActive cumulativeRev cumulativeProfit
    (Loop.months st ++
     [monthRecord m totalActive counts s totalRev totalProfit
                  cumulativeRev cumulativeProfit]).

(** The loop after its first [n] turns, [m = 1 .. n]. *)
Definition runLoop (scenario : Scenario.t) (tiers : list Tier.t)
  (bulkProducts : list Bulk.t) (retailProducts : list Retail.t) (n : nat)
  : Loop.t :=
  fold_left
    (loopBody scenario (tierMapOf tiers)
              (tierEconOf tiers bulkProducts retailProducts))
    (seq 1 n)
    (Loop.mk (Scenario.startingPartners scenario) 0 0 []).

Definition projectScenario (scenario : Scenario.t) (tiers : list Tier.t)
  (bulkProducts : list Bulk.t) (retailProducts : list Retail.t)
  : list Month.t :=
  Loop.months (runLoop scenario tiers bulkProducts retailProducts 12).

(** ** The default data of the dashboard *)

Definition DEFAULT_BULK_PRODUCTS : list Bulk.t :=
  [ Bulk.mk "ev1" "Everyday Cafe Bag 1lb" 1 180 80 12.93;
    Bulk.mk "ev5" "Everyday Cafe Bag 5lb" 5 900 300 60;
    Bulk.mk "dk5" "Dusk Cafe Bag 5lb" 5 107 108 53;
    Bulk.mk "dk10" "Dusk Cafe Bag 10lb" 10 214 195 100 ].

Definition DEFAULT_RETAIL_PRODUCTS : list Retail.t :=
  [ Retail.mk "evp" "Everyday Pouch" 24 12 4;
    Retail.mk "dkp" "Dusk Pouch" 24 12 8 ].

Definition DEFAULT_TIERS : list Tier.t :=
  [ Tier.mk "small" "Small Cafe" (Some ["ev1"]) 10 1 30 (Some ["evp"]) 10;
    Tier.mk "medium" "Medium Cafe" (Some ["ev5"]) 40 1 30 (Some ["evp"]) 15;
    Tier.mk "large" "Large Cafe" (Some ["ev5"; "dk5"]) 60 1 30
            (Some ["evp"; "dkp"]) 25 ].

Definition BaseCase : Scenario.t :=
  Scenario.mk "Base Case" 1 2 50 35 15 2 50 "#f5b5c2".

(** ** Views of the loop

    The values the loop variables hold in turn [m], from which the record
    of month [m] is built. *)

Section Views.
Variables (scenario : Scenario.t) (tiers : list Tier.t)
          (bulkProducts : list Bulk.t) (retailProducts : list Retail.t).

(** [totalActive] in turn [m], after its update. *)
Definition activeAt (m : nat) : Q :=
  Loop.totalActive (runLoop scenario tiers bulkProducts retailProducts m).

(** [bulkRev], [bulkProfit], [retailRev], [retailProfit] of turn [m]. *)
Definition sumsAt (m : nat) : Sums.t :=
  monthSums (tierMapOf tiers) (tierEconOf tiers bulkProducts retailProducts)
            (countsOf scenario (activeAt m))
            (Scenario.retailAttachPct scenario / 100).

(** [totalRev] and [totalProfit] of turn [m]. *)
Definition totalRevAt (m : nat) : Q :=
  Sums.bulkRev (sumsAt m) + Sums.retailRev (sumsAt m).
Definition totalProfitAt (m : nat) : Q :=
  Sums.bulkProfit (sumsAt m) + Sums.retailProfit (sumsAt m).

(** [cumulativeRev] and [cumulativeProfit] at the end of turn [m]. *)
Definition cumRevAt (m : nat) : Q :=
  Loop.cumulativeRev (runLoop scenario tiers bulkProducts retailProducts m).
Definition cumProfitAt (m : nat) : Q :=
  Loop.cumulativeProfit (runLoop scenario tiers bulkProducts retailProducts m).

(** The record pushed in turn [m]. *)
Definition reportAt (m : nat) : Month.t :=
  monthRecord m (activeAt m) (countsOf scenario (activeAt m)) (sumsAt m)
              (totalRevAt m) (totalProfitAt m) (cumRevAt m) (cumProfitAt m).
End Views.

(** The sum of a list of numbers. *)
Definition sumQ (l : list Q) : Q := fold_right Qplus 0 l.

(** The position of a cohort in [tiers]. *)
Definition position (size : Size) : nat :=
  match size with small => 0 | medium => 1 | large => 2 end.

(** A scenario with [retailAttachPct] replaced, everything else kept. *)
Definition withAttach (scenario : Scenario.t) (pct : Q) : Scenario.t :=
  {| Scenario.name := Scenario.name scenario;
     Scenario.startingPartners := Scenario.startingPartners scenario;
     Scenario.newPartnersPerMonth := Scenario.newPartnersPerMonth scenario;
     Scenario.pctSmall := Scenario.pctSmall scenario;
     Scenario.pctMedium := Scenario.pctMedium scenario;
     Scenario.pctLarge := Scenario.pctLarge scenario;
     Scenario.monthlyChurnPct := Scenario.monthlyChurnPct scenario;
     Scenario.retailAttachPct := pct;
     Scenario.color := Scenario.color scenario |}.

(** ** Tier economics with every division checked

    The same computation as [calcTierEconomics], statement by statement,
    in the option monad: a division whose divisor is zero yields [None]
    and aborts the run. *)

Module Checked.
Definition divide (x y : Q) : option Q :=
  if Qeq_bool y 0 then None else Some (x / y).

Definition round2 (x : Q) : option Q := divide (Math_round (x * 100)) 100.

Fixpoint foldM {A B} (f : A -> B -> option A) (l : list B) (a : A) : option A :=
  match l with
  | [] => Some a
  | x :: l' => f a x ≫= foldM f l'
  end.

Definition servingsShare (tier : Tier.t) (selectedBulk : list Bulk.t)
  : option Q :=
  if (0 <? length selectedBulk)%nat
  then divide (totalServings tier) (len selectedBulk)
  else Some 0.

Definition bagsOf (servingsPerProduct : Q) (bulk : Bulk.t) : option Q :=
  if gt (Bulk.servings bulk) 0
  then divide servingsPerProduct (Bulk.servings bulk)
  else Some 0.

Definition bulkStep (servingsPerProduct : Q) (a : BulkAcc.t) (bulk : Bulk.t)
  : option BulkAcc.t :=
  bags ← bagsOf servingsPerProduct bulk;
  let rev := bags * Bulk.wholesale bulk in
  let profit := bags * calcBulkMargin bulk in
  rbags ← round2 bags;
  rrev ← round2 rev;
  Some (BulkAcc.mk (BulkAcc.bulkRev a + rev)
                   (BulkAcc.bulkProfit a + profit)
                   (BulkAcc.rows a ++ [Row.mk (Bulk.name bulk) rbags rrev])).

Definition retailShare (tier : Tier.t) (selectedRetail : list Retail.t)
  : option Q :=
  if (0 <? length selectedRetail)%nat
  then divide (Tier.retailUnitsPerMonth tier) (len selectedRetail)
  else Some 0.

Definition calcTierEconomics (tier : Tier.t) (bulkProducts : list Bulk.t)
  (retailProducts : list Retail.t) : option Econ.t :=
  let selectedBulk := selectBulk tier bulkProducts in
  let selectedRetail := selectRetail tier retailProducts in
  let totalServingsPerMonth := totalServings tier in
  servingsPerProduct ← servingsShare tier selectedBulk;
  b ← foldM (bulkStep servingsPerProduct) selectedBulk BulkAcc.init;
  retailUnitsPerProduct ← retailShare tier selectedRetail;
  let r := fold_left (retailStep retailUnitsPerProduct) selectedRetail
                     RetailAcc.init in
  bulkRev ← round2 (BulkAcc.bulkRev b);
  bulkProfit ← round2 (BulkAcc.bulkProfit b);
  totalRev ← round2 (BulkAcc.bulkRev b + RetailAcc.retailRev r);
  totalProfit ← round2 (BulkAcc.bulkProfit b + RetailAcc.retailProfit r);
  Some {| Econ.servingsPerMonth := totalServingsPerMonth;
          Econ.bulkBreakdown := BulkAcc.rows b;
          Econ.bulkRev := bulkRev; Econ.bulkProfit := bulkProfit;
          Econ.retailRev := RetailAcc.retailRev r;
          Econ.retailProfit := RetailAcc.retailProfit r;
          Econ.totalRev := totalRev; Econ.totalProfit := totalProfit |}.
End Checked.

(** ** Sample inputs *)

(** One product sold at half a unit per serving, one tier that uses one
    serving of it a month, and a scenario that keeps a single partner in
    the small cohort for the whole year. *)
Definition halfBag : Bulk.t := Bulk.mk "b" "Half" 1 1 0.5 0.
Definition halfTier : Tier.t := Tier.mk "t" "Half" (Some ["b"]) 1 1 1 None 0.
Definition steady : Scenario.t := Scenario.mk "Steady" 1 0 100 0 0 0 0 "#000".

(** The first default tier with its id blanked, and with its id kept. *)
Definition blankTier : Tier.t :=
  Tier.mk "" "Small Cafe" (Some ["ev1"]) 10 1 30 (Some ["evp"]) 10.
Definition smallTier : Tier.t :=
  Tier.mk "small" "Small Cafe" (Some ["ev1"]) 10 1 30 (Some ["evp"]) 10.

(** Two tiers under one id: the small default tier first, then a tier
    that stocks nothing. *)
Definition emptyTwin : Tier.t := Tier.mk "small" "Twin" None 0 0 0 None 0.

(** A tier that selects three retail products sharing 10 units, and the
    products. *)
Definition threePouches : list Retail.t :=
  [ Retail.mk "p1" "P1" 2 1 0; Retail.mk "p2" "P2" 2 1 0;
    Retail.mk "p3" "P3" 2 0 0 ].
Definition pouchTier : Tier.t :=
  Tier.mk "t" "Pouches" (Some ["b"]) 1 1 1 (Some ["p1"; "p2"; "p3"]) 10.

(** A scenario without churn: 3 partners at the start, 2 more a month. *)
Definition noChurn : Scenario.t := Scenario.mk "No Churn" 3 2 50 35 15 0 50 "#000".

(** A tier whose only bulk reference names no product of the catalog. *)
Definition ghostTier : Tier.t :=
  Tier.mk "g" "Ghost" (Some ["gone"]) 10 1 30 (Some ["evp"]) 10.

(** A bag with a negative number of servings. *)
Definition negativeBag : Bulk.t := Bulk.mk "n" "Negative" 1 (-5) 10 1.

(** ** The dashboard around the engine

    The pure parts of the component [RitualPowdersDashboard] and of
    [CheckboxGroup]: the handlers that replace a collection held in state,
    the pivot that feeds the chart, the figures of the KPI cards and the
    warning on the tier mix.  A state setter [setX(f)] is modelled by the
    function [f] it is given. *)

Definition SCENARIO_COLORS : list string :=
  ["#f5b5c2"; "#fdd160"; "#1d1e1c"; "#c4a05a"; "#9a9a93"].

Definition DEFAULT_SCENARIOS : list Scenario.t :=
  [ Scenario.mk "Base Case" 1 2 50 35 15 2 50 "#f5b5c2";
    Scenario.mk "Aggressive" 1 4 35 40 25 3 75 "#fdd160";
    Scenario.mk "Conservative" 1 1 60 30 10 1 30 "#1d1e1c" ].


(** [updateBulk], [updateRetail], [updateTier], [updateScenario]:
    [l.map((x, i) => i === idx ? { ...x, [field]: val } : x)], the object
    spread with its computed key being the function [set]. *)
Definition updateAt {A} (idx : nat) (set : A -> A) (l : list A) : list A :=
  imap (fun i x => if (i =? idx)%nat then set x else x) l.

(** [l.filter((_, i) => keep(i))], the indices counted from [i]. *)
Fixpoint filterIndex {A} (keep : nat -> bool) (i : nat) (l : list A) : list A :=
  match l with
  | [] => []
  | x :: l' =>
      if keep i then x :: filterIndex keep (S i) l'
      else filterIndex keep (S i) l'
  end.

(** [removeScenario]: [s.filter((_, i) => i !== idx)]. *)
Definition removeScenario (idx : nat) (s : list Scenario.t) : list Scenario.t :=
  filterIndex (fun i => negb (i =? idx)%nat) 0 s.

(** The scenario [addScenario] appends to a list of [n] scenarios. *)
Definition newScenario (n : nat) : Scenario.t :=
  {| Scenario.name := "Scenario " +:+ pretty (n + 1)%nat;
     Scenario.startingPartners := 1; Scenario.newPartnersPerMonth := 2;
     Scenario.pctSmall := 50; Scenario.pctMedium := 35; Scenario.pctLarge := 15;
     Scenario.monthlyChurnPct := 2; Scenario.retailAttachPct := 50;
     Scenario.color :=
       let c := SCENARIO_COLORS !! n in
       if truthy c then default "" c else "#999" |}.

(** [addScenario]: the guard reads [scenarios], the state as the component
    was last rendered with it; the updater handed to [setScenarios] runs
    on [s], the state at the time of the update.  Nothing happens at 5
    rendered scenarios or more, one scenario is appended otherwise. *)
Definition addScenario (scenarios s : list Scenario.t) : list Scenario.t :=
  if (5 <=? length scenarios)%nat then s
  else s ++ [newScenario (length s)].

(** What the scenario editor lets the user do: the add button, the remove
    button of card [idx], a slider or the name field of card [idx]. *)
Inductive ScenarioEvent :=
| ClickAdd
| ClickRemove (idx : nat)
| Edit (idx : nat) (set : Scenario.t -> Scenario.t).

(** Whether the control is rendered: the add button under
    [scenarios.length < 5], a remove button under [scenarios.length > 1],
    one card for each scenario. *)
Definition offered (scenarios : list Scenario.t) (ev : ScenarioEvent) : bool :=
  match ev with
  | ClickAdd => (length scenarios <? 5)%nat
  | ClickRemove idx => (1 <? length scenarios)%nat && (idx <? length scenarios)%nat
  | Edit idx _ => (idx <? length scenarios)%nat
  end.

(** A click is handled by the component as rendered with the current
    state. *)
Definition handle (scenarios : list Scenario.t) (ev : ScenarioEvent)
  : list Scenario.t :=
  match ev with
  | ClickAdd => addScenario scenarios scenarios
  | ClickRemove idx => removeScenario idx scenarios
  | Edit idx set => updateAt idx set scenarios
  end.

(** The scenarios after a sequence of events, an event on a control that
    is not rendered being impossible. *)
Definition play (evs : list ScenarioEvent) (scenarios : list Scenario.t)
  : list Scenario.t :=
  fold_left (fun s ev => if offered s ev then handle s ev else s) evs scenarios.

Module CheckboxGroup.
(** [toggle]: the array handed to [onChange], or [None] when [onChange] is
    not called. *)
Definition toggle (values : list string) (id : string) : option (list string) :=
  if includes values id
  then if (1 <? length values)%nat
       then Some (List.filter (fun v => negb (String.eqb v id)) values)
       else None
  else Some (values ++ [id]).

(** The selection after the click, [onChange] storing what it is given. *)
Definition click (values : list string) (id : string) : list string :=
  default values (toggle values id).
End CheckboxGroup.

(** [allProjections]: each scenario with its projection. *)
Definition allProjections (scenarios : list Scenario.t) (tiers : list Tier.t)
  (bulkProducts : list Bulk.t) (retailProducts : list Retail.t)
  : list (Scenario.t * list Month.t) :=
  List.map (fun s => (s, projectScenario s tiers bulkProducts retailProducts))
           scenarios.

(** A value stored in a chart point: a number or a string. *)
Inductive JsValue := Num (n : Q) | Str (s : string).

(** The body of [allProjections.forEach] in [chartData]: five keys of the
    point are assigned from [data[i]]; reading a field of an undefined
    [data[i]] throws, which is [None]. *)
Definition addSeries (i : nat) (point : gmap string JsValue)
  (p : Scenario.t * list Month.t) : option (gmap string JsValue) :=
  d ← p.2 !! i;
  let name := Scenario.name p.1 in
  let point := <[name +:+ "_rev" := Num (Month.totalRevenue d)]> point in
  let point := <[name +:+ "_profit" := Num (Month.totalProfit d)]> point in
  let point := <[name +:+ "_partners" := Num (Month.totalActive d)]> point in
  let point := <[name +:+ "_margin" := Num (Month.marginPct d)]> point in
  let point := <[name +:+ "_cumRev" := Num (Month.cumulativeRev d)]> point in
  Some point.

(** The callback of [Array.from({ length: 12 }, ...)]. *)
Definition chartPoint (projections : list (Scenario.t * list Month.t)) (i : nat)
  : option (gmap string JsValue) :=
  Checked.foldM (addSeries i) projections
    (<["label" := Str (monthLabel (i + 1))]>
       (<["month" := Num (inject_Z (Z.of_nat (i + 1)))]> ∅)).

Definition chartData (projections : list (Scenario.t * list Month.t))
  : option (list (gmap string JsValue)) :=
  mapM (chartPoint projections) (seq 0 12).

(** The figures of the KPI cards, read off the first scenario. *)
Definition primary (projections : list (Scenario.t * list Month.t))
  : option (list Month.t) :=
  snd <$> projections !! 0%nat.

(** [primary?.[11]]. *)
Definition p12 (projections : list (Scenario.t * list Month.t)) : option Month.t :=
  primary projections ≫= (fun data => data !! 11%nat).


(** The five series a chart point holds for a scenario, the suffix of the
    key of each and the field of the month it shows. *)
Inductive Metric := Rev | Profit | Partners | Margin | CumRev.

Definition suffixOf (mt : Metric) : string :=
  match mt with
  | Rev => "_rev"
  | Profit => "_profit"
  | Partners => "_partners"
  | Margin => "_margin"
  | CumRev => "_cumRev"
  end.

Definition valueOf (mt : Metric) (d : Month.t) : Q :=
  match mt with
  | Rev => Month.totalRevenue d
  | Profit => Month.totalProfit d
  | Partners => Month.totalActive d
  | Margin => Month.marginPct d
  | CumRev => Month.cumulativeRev d
  end.

(** ** The projection with every division checked

    [projectScenario] statement by statement in the option monad, on top
    of the checked tier calculator: a division by zero yields [None]. *)

Module CheckedProject.
Definition tierEconOf (tiers : list Tier.t) (bulkProducts : list Bulk.t)
  (retailProducts : list Retail.t) : option (gmap string Econ.t) :=
  Checked.foldM
    (fun tierEcon t =>
       e ← Checked.calcTierEconomics t bulkProducts retailProducts;
       Some (<[Tier.id t := e]> tierEcon))
    tiers ∅.

Definition marginPct (totalRev totalProfit : Q) : option Q :=
  if gt totalRev 0
  then q ← Checked.divide totalProfit totalRev;
       Checked.divide (Math_round (q * 1000)) 10
  else Some 0.

Definition monthRecord (m : nat) (totalActive : Q) (counts : Size -> Q)
  (s : Sums.t) (totalRev totalProfit cumulativeRev cumulativeProfit : Q)
  : option Month.t :=
  rActive ← Checked.round2 totalActive;
  rSmall ← Checked.round2 (counts small);
  rMedium ← Checked.round2 (counts medium);
  rLarge ← Checked.round2 (counts large);
  margin ← marginPct totalRev totalProfit;
  Some {| Month.month := m; Month.label := monthLabel m;
          Month.totalActive := rActive;
          Month.small := rSmall; Month.medium := rMedium; Month.large := rLarge;
          Month.bulkRevenue := Math_round (Sums.bulkRev s);
          Month.retailRevenue := Math_round (Sums.retailRev s);
          Month.totalRevenue := Math_round totalRev;
          Month.bulkProfit := Math_round (Sums.bulkProfit s);
          Month.retailProfit := Math_round (Sums.retailProfit s);
          Month.totalProfit := Math_round totalProfit;
          Month.marginPct := margin;
          Month.cumulativeRev := Math_round cumulativeRev;
          Month.cumulativeProfit := Math_round cumulativeProfit |}.

Definition loopBody (scenario : Scenario.t) (tierMap : Size -> option string)
  (tierEcon : gmap string Econ.t) (sF mF lF churn retailAttach : Q)
  (st : Loop.t) (m : nat) : option Loop.t :=
  let totalActive :=
    if (1 <? m)%nat
    then Loop.totalActive st * (1 - churn) + Scenario.newPartnersPerMonth scenario
    else Loop.totalActive st in
  let counts := fun size =>
    match size with
    | small => totalActive * sF
    | medium => totalActive * mF
    | large => totalActive * lF
    end in
  let s := monthSums tierMap tierEcon counts retailAttach in
  let totalRev := Sums.bulkRev s + Sums.retailRev s in
  let totalProfit := Sums.bulkProfit s + Sums.retailProfit s in
  let cumulativeRev := Loop.cumulativeRev st + totalRev in
  let cumulativeProfit := Loop.cumulativeProfit st + totalProfit in
  rec ← monthRecord m totalActive counts s totalRev totalProfit
                    cumulativeRev cumulativeProfit;
  Some (Loop.mk totalActive cumulativeRev cumulativeProfit (Loop.months st ++ [rec])).

Definition projectScenario (scenario : Scenario.t) (tiers : list Tier.t)
  (bulkProducts : list Bulk.t) (retailProducts : list Retail.t)
  : option (list Month.t) :=
  tierEcon ← tierEconOf tiers bulkProducts retailProducts;
  let tierMap := tierMapOf tiers in
  sF ← Checked.divide (Scenario.pctSmall scenario) 100;
  mF ← Checked.divide (Scenario.pctMedium scenario) 100;
  lF ← Checked.divide (Scenario.pctLarge scenario) 100;
  churn ← Checked.divide (Scenario.monthlyChurnPct scenario) 100;
  retailAttach ← Checked.divide (Scenario.retailAttachPct scenario) 100;
  st ← Checked.foldM (loopBody scenario tierMap tierEcon sF mF lF churn retailAttach)
                     (seq 1 12)
                     (Loop.mk (Scenario.startingPartners scenario) 0 0 []);
  Some (Loop.months st).
End CheckedProject.

(** ** More sample inputs *)


(** A bag whose wholesale price is negative. *)
Definition negativeBagPrice : Bulk.t := Bulk.mk "m" "Refund" 1 10 (-4) 1.

(** A fourth tier behind the default three. *)
Definition kioskTier : Tier.t :=
  Tier.mk "kiosk" "Kiosk" (Some ["dk10"]) 5 1 20 (Some ["dkp"]) 3.

(** * The engine on binary64 numbers

    The same functions once more, statement by statement, on the numbers
    JavaScript computes with.  A number is NaN, an infinity, or a finite
    binary64 value, held as the rational it denotes in lowest terms; the
    two zeros are one value, as they are for [===] (the engine never
    divides by a zero, the only operation that tells them apart).  Each
    arithmetic operation returns the double nearest to the exact result,
    a tie going to the even significand, and an infinity past the largest
    double, as IEEE 754 prescribes. *)

Module Double.

Inductive t := NaN | Inf (negative : bool) | Fin (q : Q).

(** The integer part of the binary logarithm of a positive rational. *)
Definition ilog2 (q : Q) : Z :=
  let k := (Z.log2 (Qnum q) - Z.log2 (Zpos (Qden q)))%Z in
  if Qle_bool (2 ^ k) q then k else (k - 1)%Z.

(** The integer nearest to a rational, a tie going to the even one. *)
Definition nearestEven (r : Q) : Z :=
  let f := Qfloor r in
  match Qcompare (r - inject_Z f) (1 # 2) with
  | Lt => f
  | Gt => (f + 1)%Z
  | Eq => if Z.even f then f else (f + 1)%Z
  end.

Definition negative (q : Q) : bool := (Qnum q <? 0)%Z.

(** The double nearest to [q]: 53 significant bits, the exponent of the
    last one no less than -1074, an infinity from [2^1024] on.  It is
    also how a decimal literal or a typed number is read. *)
Definition round (q : Q) : t :=
  if Qeq_bool q 0 then Fin 0
  else
    let e := Z.max (ilog2 (Qabs q) - 52) (-1074) in
    let r := inject_Z (nearestEven (q / 2 ^ e)) * 2 ^ e in
    if Qle_bool (2 ^ 1024) (Qabs r) then Inf (negative q) else Fin (Qred r).

(** [x + y], [x - y], [x * y], [x / y] and [x > y]. *)
Definition add (x y : t) : t :=
  match x, y with
  | NaN, _ | _, NaN => NaN
  | Inf a, Inf b => if Bool.eqb a b then Inf a else NaN
  | Inf a, Fin _ => Inf a
  | Fin _, Inf b => Inf b
  | Fin a, Fin b => round (a + b)
  end.

Definition sub (x y : t) : t :=
  match x, y with
  | NaN, _ | _, NaN => NaN
  | Inf a, Inf b => if Bool.eqb a b then NaN else Inf a
  | Inf a, Fin _ => Inf a
  | Fin _, Inf b => Inf (negb b)
  | Fin a, Fin b => round (a - b)
  end.

Definition mul (x y : t) : t :=
  match x, y with
  | NaN, _ | _, NaN => NaN
  | Inf a, Inf b => Inf (xorb a b)
  | Inf a, Fin q | Fin q, Inf a =>
      if Qeq_bool q 0 then NaN else Inf (xorb a (negative q))
  | Fin a, Fin b => round (a * b)
  end.

Definition div (x y : t) : t :=
  match x, y with
  | NaN, _ | _, NaN => NaN
  | Inf _, Inf _ => NaN
  | Inf a, Fin q => Inf (xorb a (negative q))
  | Fin _, Inf _ => Fin 0
  | Fin a, Fin b =>
      if Qeq_bool b 0
      then if Qeq_bool a 0 then NaN else Inf (negative a)
      else round (a / b)
  end.

Definition gt (x y : t) : bool :=
  match x, y with
  | NaN, _ | _, NaN => false
  | Inf a, Inf b => negb a && b
  | Inf a, Fin _ => negb a
  | Fin _, Inf b => b
  | Fin a, Fin b => negb (Qle_bool a b)
  end.

(** [Math.abs x]. *)
Definition abs (x : t) : t :=
  match x with
  | NaN => NaN
  | Inf _ => Inf false
  | Fin q => Fin (Qabs q)
  end.

(** [Math.round x]: NaN and the infinities as they are, otherwise the
    nearest integer, a tie going up.  The integer is computed exactly
    (a double at or beyond [2^52] is an integer already). *)
Definition Math_round (x : t) : t :=
  match x with
  | Fin q => Fin (inject_Z (Qfloor (q + (1 # 2))))
  | _ => x
  end.

(** The idiom [Math.round(x * 100) / 100] of the source. *)
Definition round2 (x : t) : t := div (Math_round (mul x (Fin 100))) (Fin 100).

(** [l.length] as a number. *)
Definition len {A} (l : list A) : t := round (inject_Z (Z.of_nat (length l))).

Abbreviation number := t.

Module Bulk.
Record t := mk
  { id : string; name : string; sizeLbs : number;
    servings : number; wholesale : number; cogs : number }.
End Bulk.

Module Retail.
Record t := mk
  { id : string; name : string; retailPrice : number;
    wholesalePrice : number; cogs : number }.
End Retail.

Module Tier.
Record t := mk
  { id : string; label : string;
    bulkProductIds : option (list string);
    drinksPerDay : number; tspPerDrink : number; daysPerMonth : number;
    retailProductIds : option (list string);
    retailUnitsPerMonth : number }.
End Tier.

Module Scenario.
Record t := mk
  { name : string; startingPartners : number; newPartnersPerMonth : number;
    pctSmall : number; pctMedium : number; pctLarge : number;
    monthlyChurnPct : number; retailAttachPct : number; color : string }.
End Scenario.

Module Row.
Record t := mk { name : string; bags : number; rev : number }.
End Row.

Module Econ.
Record t := mk
  { servingsPerMonth : number; bulkBreakdown : list Row.t;
    bulkRev : number; bulkProfit : number;
    retailRev : number; retailProfit : number;
    totalRev : number; totalProfit : number }.
End Econ.

Module Month.
Record t := mk
  { month : nat; label : string;
    totalActive : number; small : number; medium : number; large : number;
    bulkRevenue : number; retailRevenue : number; totalRevenue : number;
    bulkProfit : number; retailProfit : number; totalProfit : number;
    marginPct : number;
    cumulativeRev : number; cumulativeProfit : number }.
End Month.

Definition calcBulkMargin (p : Bulk.t) : t := sub (Bulk.wholesale p) (Bulk.cogs p).

Definition calcBulkMarginPct (p : Bulk.t) : t :=
  if gt (Bulk.wholesale p) (Fin 0)
  then div (sub (Bulk.wholesale p) (Bulk.cogs p)) (Bulk.wholesale p)
  else Fin 0.

Definition calcRetailMargin (p : Retail.t) : t :=
  sub (Retail.wholesalePrice p) (Retail.cogs p).

Definition selectBulk (tier : Tier.t) (bulkProducts : list Bulk.t) : list Bulk.t :=
  List.filter (fun p => includes (orEmpty (Tier.bulkProductIds tier)) (Bulk.id p))
              bulkProducts.

Definition selectRetail (tier : Tier.t) (retailProducts : list Retail.t)
  : list Retail.t :=
  List.filter (fun p => includes (orEmpty (Tier.retailProductIds tier)) (Retail.id p))
              retailProducts.

Definition totalServings (tier : Tier.t) : t :=
  mul (mul (Tier.drinksPerDay tier) (Tier.tspPerDrink tier)) (Tier.daysPerMonth tier).

Definition servingsShare (tier : Tier.t) (selectedBulk : list Bulk.t) : t :=
  if (0 <? length selectedBulk)%nat
  then div (totalServings tier) (len selectedBulk)
  else Fin 0.

Module BulkAcc.
Record t := mk { bulkRev : number; bulkProfit : number; rows : list Row.t }.
Definition init : t := mk (Fin 0) (Fin 0) [].
End BulkAcc.

Definition bagsOf (servingsPerProduct : t) (bulk : Bulk.t) : t :=
  if gt (Bulk.servings bulk) (Fin 0)
  then div servingsPerProduct (Bulk.servings bulk)
  else Fin 0.

Definition bulkStep (servingsPerProduct : t) (a : BulkAcc.t) (bulk : Bulk.t)
  : BulkAcc.t :=
  let bags := bagsOf servingsPerProduct bulk in
  let rev := mul bags (Bulk.wholesale bulk) in
  let profit := mul bags (calcBulkMargin bulk) in
  BulkAcc.mk (add (BulkAcc.bulkRev a) rev)
             (add (BulkAcc.bulkProfit a) profit)
             (BulkAcc.rows a ++ [Row.mk (Bulk.name bulk) (round2 bags) (round2 rev)]).

Definition retailShare (tier : Tier.t) (selectedRetail : list Retail.t) : t :=
  if (0 <? length selectedRetail)%nat
  then div (Tier.retailUnitsPerMonth tier) (len selectedRetail)
  else Fin 0.

Module RetailAcc.
Record t := mk { retailRev : number; retailProfit : number }.
Definition init : t := mk (Fin 0) (Fin 0).
End RetailAcc.

Definition retailStep (retailUnitsPerProduct : t) (a : RetailAcc.t)
  (retail : Retail.t) : RetailAcc.t :=
  RetailAcc.mk
    (add (RetailAcc.retailRev a)
         (mul retailUnitsPerProduct (Retail.wholesalePrice retail)))
    (add (RetailAcc.retailProfit a)
         (mul retailUnitsPerProduct (calcRetailMargin retail))).

Definition bulkTotals (tier : Tier.t) (bulkProducts : list Bulk.t) : BulkAcc.t :=
  let selectedBulk := selectBulk tier bulkProducts in
  fold_left (bulkStep (servingsShare tier selectedBulk)) selectedBulk BulkAcc.init.

Definition retailTotals (tier : Tier.t) (retailProducts : list Retail.t)
  : RetailAcc.t :=
  let selectedRetail := selectRetail tier retailProducts in
  fold_left (retailStep (retailShare tier selectedRetail)) selectedRetail
            RetailAcc.init.

Definition calcTierEconomics (tier : Tier.t) (bulkProducts : list Bulk.t)
  (retailProducts : list Retail.t) : Econ.t :=
  let b := bulkTotals tier bulkProducts in
  let r := retailTotals tier retailProducts in
  {| Econ.servingsPerMonth := totalServings tier;
     Econ.bulkBreakdown := BulkAcc.rows b;
     Econ.bulkRev := round2 (BulkAcc.bulkRev b);
     Econ.bulkProfit := round2 (BulkAcc.bulkProfit b);
     Econ.retailRev := RetailAcc.retailRev r;
     Econ.retailProfit := RetailAcc.retailProfit r;
     Econ.totalRev := round2 (add (BulkAcc.bulkRev b) (RetailAcc.retailRev r));
     Econ.totalProfit :=
       round2 (add (BulkAcc.bulkProfit b) (RetailAcc.retailProfit r)) |}.

Definition tierEconOf (tiers : list Tier.t) (bulkProducts : list Bulk.t)
  (retailProducts : list Retail.t) : gmap string Econ.t :=
  fold_left
    (fun tierEcon t =>
       <[Tier.id t := calcTierEconomics t bulkProducts retailProducts]> tierEcon)
    tiers ∅.

Definition tierMapOf (tiers : list Tier.t) (size : Size) : option string :=
  match size with
  | small => Tier.id <$> tiers !! 0%nat
  | medium => Tier.id <$> tiers !! 1%nat
  | large => Tier.id <$> tiers !! 2%nat
  end.

(** [counts]: the fraction [pct / 100] is computed first, then multiplied
    by [totalActive], as [sF], [mF] and [lF] are in the source. *)
Definition countsOf (scenario : Scenario.t) (totalActive : t) (size : Size) : t :=
  match size with
  | small => mul totalActive (div (Scenario.pctSmall scenario) (Fin 100))
  | medium => mul totalActive (div (Scenario.pctMedium scenario) (Fin 100))
  | large => mul totalActive (div (Scenario.pctLarge scenario) (Fin 100))
  end.

Module Sums.
Record t := mk
  { bulkRev : number; bulkProfit : number;
    retailRev : number; retailProfit : number }.
Definition init : t := mk (Fin 0) (Fin 0) (Fin 0) (Fin 0).
End Sums.

Definition cohortEcon (tierMap : Size -> option string)
  (tierEcon : gmap string Econ.t) (size : Size) : option Econ.t :=
  let tid := tierMap size in
  if truthy tid then tid ≫= (fun k => tierEcon !! k) else None.

Definition cohortStep (tierMap : Size -> option string)
  (tierEcon : gmap string Econ.t) (counts : Size -> t) (retailAttach : t)
  (s : Sums.t) (size : Size) : Sums.t :=
  match cohortEcon tierMap tierEcon size with
  | Some e =>
      Sums.mk
        (add (Sums.bulkRev s) (mul (counts size) (Econ.bulkRev e)))
        (add (Sums.bulkProfit s) (mul (counts size) (Econ.bulkProfit e)))
        (add (Sums.retailRev s)
             (mul (mul (counts size) (Econ.retailRev e)) retailAttach))
        (add (Sums.retailProfit s)
             (mul (mul (counts size) (Econ.retailProfit e)) retailAttach))
  | None => s
  end.

Definition monthSums (tierMap : Size -> option string)
  (tierEcon : gmap string Econ.t) (counts : Size -> t) (retailAttach : t)
  : Sums.t :=
  fold_left (cohortStep tierMap tierEcon counts retailAttach)
            [small; medium; large] Sums.init.

Module Loop.
Record t := mk
  { totalActive : number; cumulativeRev : number; cumulativeProfit : number;
    months : list Month.t }.
End Loop.

Definition monthRecord (m : nat) (totalActive : t) (counts : Size -> t)
  (s : Sums.t) (totalRev totalProfit cumulativeRev cumulativeProfit : t)
  : Month.t :=
  {| Month.month := m; Month.label := monthLabel m;
     Month.totalActive := round2 totalActive;
     Month.small := round2 (counts small);
     Month.medium := round2 (counts medium);
     Month.large := round2 (counts large);
     Month.bulkRevenue := Math_round (Sums.bulkRev s);
     Month.retailRevenue := Math_round (Sums.retailRev s);
     Month.totalRevenue := Math_round totalRev;
     Month.bulkProfit := Math_round (Sums.bulkProfit s);
     Month.retailProfit := Math_round (Sums.retailProfit s);
     Month.totalProfit := Math_round totalProfit;
     Month.marginPct :=
       if gt totalRev (Fin 0)
       then div (Math_round (mul (div totalProfit totalRev) (Fin 1000))) (Fin 10)
       else Fin 0;
     Month.cumulativeRev := Math_round cumulativeRev;
     Month.cumulativeProfit := Math_round cumulativeProfit |}.

Definition loopBody (scenario : Scenario.t) (tierMap : Size -> option string)
  (tierEcon : gmap string Econ.t) (st : Loop.t) (m : nat) : Loop.t :=
  let churn := div (Scenario.monthlyChurnPct scenario) (Fin 100) in
  let retailAttach := div (Scenario.retailAttachPct scenario) (Fin 100) in
  let totalActive :=
    if (1 <? m)%nat
    then add (mul (Loop.totalActive st) (sub (Fin 1) churn))
             (Scenario.newPartnersPerMonth scenario)
    else Loop.totalActive st in
  let counts := countsOf scenario totalActive in
  let s := monthSums tierMap tierEcon counts retailAttach in
  let totalRev := add (Sums.bulkRev s) (Sums.retailRev s) in
  let totalProfit := add (Sums.bulkProfit s) (Sums.retailProfit s) in
  let cumulativeRev := add (Loop.cumulativeRev st) totalRev in
  let cumulativeProfit := add (Loop.cumulativeProfit st) totalProfit in
  Loop.mk totalActive cumulativeRev cumulativeProfit
    (Loop.months st ++
     [monthRecord m totalActive counts s totalRev totalProfit
                  cumulativeRev cumulativeProfit]).

Definition runLoop (scenario : Scenario.t) (tiers : list Tier.t)
  (bulkProducts : list Bulk.t) (retailProducts : list Retail.t) (n : nat)
  : Loop.t :=
  fold_left
    (loopBody scenario (tierMapOf tiers)
              (tierEconOf tiers bulkProducts retailProducts))
    (seq 1 n)
    (Loop.mk (Scenario.startingPartners scenario) (Fin 0) (Fin 0) []).

Definition projectScenario (scenario : Scenario.t) (tiers : list Tier.t)
  (bulkProducts : list Bulk.t) (retailProducts : list Retail.t)
  : list Month.t :=
  Loop.months (runLoop scenario tiers bulkProducts retailProducts 12).

(** The values the loop variables hold in turn [m]. *)
Section Views.
Variables (scenario : Scenario.t) (tiers : list Tier.t)
          (bulkProducts : list Bulk.t) (retailProducts : list Retail.t).

Definition activeAt (m : nat) : t :=
  Loop.totalActive (runLoop scenario tiers bulkProducts retailProducts m).

Definition sumsAt (m : nat) : Sums.t :=
  monthSums (tierMapOf tiers) (tierEconOf tiers bulkProducts retailProducts)
            (countsOf scenario (activeAt m))
            (div (Scenario.retailAttachPct scenario) (Fin 100)).

Definition totalRevAt (m : nat) : t :=
  add (Sums.bulkRev (sumsAt m)) (Sums.retailRev (sumsAt m)).
Definition totalProfitAt (m : nat) : t :=
  add (Sums.bulkProfit (sumsAt m)) (Sums.retailProfit (sumsAt m)).

Definition cumRevAt (m : nat) : t :=
  Loop.cumulativeRev (runLoop scenario tiers bulkProducts retailProducts m).
Definition cumProfitAt (m : nat) : t :=
  Loop.cumulativeProfit (runLoop scenario tiers bulkProducts retailProducts m).

Definition reportAt (m : nat) : Month.t :=
  monthRecord m (activeAt m) (countsOf scenario (activeAt m)) (sumsAt m)
              (totalRevAt m) (totalProfitAt m) (cumRevAt m) (cumProfitAt m).
End Views.

(** The condition under which the scenario card warns about the tier mix:
    [Math.abs(s.pctSmall + s.pctMedium + s.pctLarge - 100) > 1]. *)
Definition tierMixWarning (s : Scenario.t) : bool :=
  gt (abs (sub (add (add (Scenario.pctSmall s) (Scenario.pctMedium s))
                    (Scenario.pctLarge s))
               (Fin 100)))
     (Fin 1).

(** [data.reduce((s, d) => s + d.totalRevenue, 0)] and its profit twin. *)
Definition yearRevenue (data : list Month.t) : t :=
  fold_left (fun s d => add s (Month.totalRevenue d)) data (Fin 0).
Definition yearProfit (data : list Month.t) : t :=
  fold_left (fun s d => add s (Month.totalProfit d)) data (Fin 0).

(** The sum of a list of numbers as [+=] builds it: from 0, left to
    right. *)
Definition sum (l : list t) : t := fold_left add l (Fin 0).

(** Whether a number is finite, its value when it is, and whether it is
    finite and at most [2^k] in magnitude. *)
Definition finite (x : t) : bool :=
  match x with Fin _ => true | _ => false end.
Definition value (x : t) : Q :=
  match x with Fin q => q | _ => 0 end.
Definition within (k : Z) (x : t) : bool :=
  match x with Fin q => Qle_bool (Qabs q) (2 ^ k) | _ => false end.

(** What a number of the source can be: NaN, an infinity, or a finite
    binary64 number, which [round] leaves alone. *)
Definition isDouble (x : t) : Prop :=
  match x with Fin q => round q = Fin q | _ => True end.


(** The sums of section 4.2, steps 4 and 5, as sums over the selected
    products, added in catalog order. *)
Module Spec.
Definition unitsNeeded (servingsPerProduct : number) (p : Bulk.t) : number :=
  if gt (Bulk.servings p) (Fin 0)
  then div servingsPerProduct (Bulk.servings p)
  else Fin 0.

Definition bulkRev (tier : Tier.t) (bulkProducts : list Bulk.t) : number :=
  let sel := selectBulk tier bulkProducts in
  sum (List.map (fun p => mul (unitsNeeded (servingsShare tier sel) p)
                              (Bulk.wholesale p)) sel).

Definition bulkProfit (tier : Tier.t) (bulkProducts : list Bulk.t) : number :=
  let sel := selectBulk tier bulkProducts in
  sum (List.map (fun p => mul (unitsNeeded (servingsShare tier sel) p)
                              (sub (Bulk.wholesale p) (Bulk.cogs p))) sel).

Definition retailRev (tier : Tier.t) (retailProducts : list Retail.t) : number :=
  let sel := selectRetail tier retailProducts in
  sum (List.map (fun p => mul (retailShare tier sel) (Retail.wholesalePrice p)) sel).

Definition retailProfit (tier : Tier.t) (retailProducts : list Retail.t)
  : number :=
  let sel := selectRetail tier retailProducts in
  sum (List.map (fun p => mul (retailShare tier sel)
                              (sub (Retail.wholesalePrice p) (Retail.cogs p))) sel).
End Spec.

End Double.

(** The objects the engine receives when the decimal numbers of a record
    are written in the source or typed into a field: each number becomes
    the nearest double. *)
Definition parseBulk (p : Bulk.t) : Double.Bulk.t :=
  Double.Bulk.mk (Bulk.id p) (Bulk.name p) (Double.round (Bulk.sizeLbs p))
    (Double.round (Bulk.servings p)) (Double.round (Bulk.wholesale p))
    (Double.round (Bulk.cogs p)).

Definition parseRetail (p : Retail.t) : Double.Retail.t :=
  Double.Retail.mk (Retail.id p) (Retail.name p) (Double.round (Retail.retailPrice p))
    (Double.round (Retail.wholesalePrice p)) (Double.round (Retail.cogs p)).

Definition parseTier (t : Tier.t) : Double.Tier.t :=
  Double.Tier.mk (Tier.id t) (Tier.label t) (Tier.bulkProductIds t)
    (Double.round (Tier.drinksPerDay t)) (Double.round (Tier.tspPerDrink t))
    (Double.round (Tier.daysPerMonth t)) (Tier.retailProductIds t)
    (Double.round (Tier.retailUnitsPerMonth t)).

Definition parseScenario (s : Scenario.t) : Double.Scenario.t :=
  Double.Scenario.mk (Scenario.name s)
    (Double.round (Scenario.startingPartners s))
    (Double.round (Scenario.newPartnersPerMonth s))
    (Double.round (Scenario.pctSmall s)) (Double.round (Scenario.pctMedium s))
    (Double.round (Scenario.pctLarge s)) (Double.round (Scenario.monthlyChurnPct s))
    (Double.round (Scenario.retailAttachPct s)) (Scenario.color s).

(** ** Sample inputs for the doubles *)

(** No churn, a tenth of a partner more each month. *)
Definition tenths : Scenario.t := Scenario.mk "Tenths" 0 0.1 50 35 15 0 50 "#000".

(** A split that covers 90% of ten partners, and the default split over
    fourteen partners. *)
Definition short : Scenario.t := Scenario.mk "Short" 10 0 50 30 10 0 50 "#000".
Definition fourteen : Scenario.t :=
  Scenario.mk "Fourteen" 14 0 50 35 15 0 50 "#000".

(** A tier that serves one drink of three teaspoons a day from the 1lb
    bag. *)
Definition teaspoons : Tier.t :=
  Tier.mk "t" "Teaspoons" (Some ["ev1"]) 1 3 30 None 0.

(** The default catalog with the 1lb bag priced at [w]. *)
Definition pricedAt (w : Q) : list Bulk.t :=
  [ Bulk.mk "ev1" "Everyday Cafe Bag 1lb" 1 180 w 12.93;
    Bulk.mk "ev5" "Everyday Cafe Bag 5lb" 5 900 300 60;
    Bulk.mk "dk5" "Dusk Cafe Bag 5lb" 5 107 108 53;
    Bulk.mk "dk10" "Dusk Cafe Bag 10lb" 10 214 195 100 ].

(** A bag given away: no cost. *)
Definition sampleBag : Bulk.t := Bulk.mk "free" "Sample Bag" 1 180 80 0.

(** Four scenarios on screen: the default three and one added. *)
Definition fourScenarios : list Scenario.t := DEFAULT_SCENARIOS ++ [newScenario 3].

(** ** The model against the machine

    Rocq's primitive floats are the binary64 numbers of the processor,
    the ones a JavaScript engine computes with.  [ofFloat] reads one as a
    number of the model, exactly; [agree] runs an operation of the
    machine and its model on every pair of [samples] and compares. *)

Module Machine.
Import PrimFloat FloatOps SpecFloat.

Definition ofSpec (f : spec_float) : Double.t :=
  match f with
  | S754_zero _ => Double.Fin 0
  | S754_infinity s => Double.Inf s
  | S754_nan => Double.NaN
  | S754_finite s m e =>
      Double.Fin (Qred (inject_Z (if s then Z.neg m else Z.pos m) * 2 ^ e))
  end.

Definition ofFloat (f : float) : Double.t := ofSpec (Prim2SF f).

(** Numbers that rounding treats differently: ties and their neighbours,
    [2^53] and the double after it, the largest double, the smallest
    subnormal, an infinity and NaN. *)
Definition samples : list float :=
  [ 0; 1; 3; 1 / 10; 6 / 10; 33535 / 1000; - (5 / 2); 1 / 3; 0x1p+53;
    0x1.0000000000001p+53; 0x1.fffffffffffffp+1023; 0x1p-1074; infinity;
    nan ]%float.

Definition pairs : list (float * float) := list_prod samples samples.

Definition same (x y : Double.t) : bool :=
  match x, y with
  | Double.NaN, Double.NaN => true
  | Double.Inf a, Double.Inf b => Bool.eqb a b
  | Double.Fin p, Double.Fin q =>
      Z.eqb (Qnum p) (Qnum q) && Pos.eqb (Qden p) (Qden q)
  | _, _ => false
  end.

Definition agree (op : float -> float -> float)
  (model : Double.t -> Double.t -> Double.t) : bool :=
  forallb (fun '(a, b) => same (ofFloat (op a b)) (model (ofFloat a) (ofFloat b)))
          pairs.

Definition agreeGt : bool :=
  forallb (fun '(a, b) => Bool.eqb (ltb b a) (Double.gt (ofFloat a) (ofFloat b)))
          pairs.
End Machine.

(** * Properties on the exact model *)

(** ** Numbers *)

Lemma gt_spec (x y : Q) : gt x y = true <-> y < x.
Proof.
  unfold gt. rewrite negb_true_iff. split.
  - intros H. apply Qnot_le_lt. intros Hle.
    apply Qle_bool_iff in Hle. congruence.
  - intros H. destruct (Qle_bool x y) eqn:E; [|reflexivity].
    apply Qle_bool_iff in E. lra.
Qed.

Lemma gt_false (x y : Q) : gt x y = false <-> x <= y.
Proof.
  unfold gt. rewrite negb_false_iff. apply Qle_bool_iff.
Qed.

(** [Math.round] stays within half a unit, the upper end included. *)
Lemma Math_round_bounds (x : Q) :
  x - (1 # 2) < Math_round x /\ Math_round x <= x + (1 # 2).
Proof.
  unfold Math_round.
  pose proof (Qfloor_le (x + (1 # 2))) as Hle.
  pose proof (Qlt_floor (x + (1 # 2))) as Hlt.
  rewrite inject_Z_plus in Hlt. change (inject_Z 1) with 1 in Hlt.
  split; lra.
Qed.

#[local] Instance Math_round_proper : Proper (Qeq ==> Qeq) Math_round.
Proof.
  intros x y Hxy. unfold Math_round.
  assert (Qfloor (x + (1 # 2)) = Qfloor (y + (1 # 2))) as ->; [|reflexivity].
  apply Qfloor_comp. rewrite Hxy. reflexivity.
Qed.

#[local] Instance round2_proper : Proper (Qeq ==> Qeq) round2.
Proof. intros x y Hxy. unfold round2. rewrite Hxy. reflexivity. Qed.



(** ** The loop, turn by turn *)

Section LoopFacts.
Variables (scenario : Scenario.t) (tiers : list Tier.t)
          (bulkProducts : list Bulk.t) (retailProducts : list Retail.t).

Abbreviation run := (runLoop scenario tiers bulkProducts retailProducts).
Abbreviation active := (activeAt scenario tiers bulkProducts retailProducts).
Abbreviation report := (reportAt scenario tiers bulkProducts retailProducts).

Lemma runLoop_S (n : nat) :
  run (S n) =
  loopBody scenario (tierMapOf tiers)
           (tierEconOf tiers bulkProducts retailProducts) (run n) (S n).
Proof. unfold runLoop. rewrite seq_S, fold_left_app. reflexivity. Qed.

Lemma activeAt_1 : active 1%nat = Scenario.startingPartners scenario.
Proof. reflexivity. Qed.

Lemma activeAt_S (n : nat) :
  (1 <= n)%nat ->
  active (S n) =
  active n * (1 - Scenario.monthlyChurnPct scenario / 100)
  + Scenario.newPartnersPerMonth scenario.
Proof.
  intros Hn. unfold activeAt. rewrite runLoop_S.
  destruct n as [|n]; [lia|]. reflexivity.
Qed.

Lemma months_runLoop (n : nat) :
  Loop.months (run n) = List.map report (seq 1 n).
Proof.
  induction n as [|n IH]; [reflexivity|].
  rewrite seq_S, List.map_app. cbn [List.map Nat.add]. rewrite <- IH.
  unfold reportAt, totalRevAt, totalProfitAt, cumRevAt, cumProfitAt, sumsAt,
    activeAt.
  rewrite runLoop_S. reflexivity.
Qed.

(** The array returned is the twelve records of the twelve turns. *)
Lemma projectScenario_eq :
  projectScenario scenario tiers bulkProducts retailProducts =
  List.map report (seq 1 12).
Proof. unfold projectScenario. apply months_runLoop. Qed.

Lemma projectScenario_length :
  length (projectScenario scenario tiers bulkProducts retailProducts) = 12%nat.
Proof. rewrite projectScenario_eq, List.length_map, length_seq. reflexivity. Qed.

Lemma projectScenario_lookup (m : nat) :
  (1 <= m <= 12)%nat ->
  projectScenario scenario tiers bulkProducts retailProducts !! (m - 1)%nat
  = Some (report m).
Proof.
  intros Hm. rewrite projectScenario_eq.
  change (List.map report (seq 1 12)) with (report <$> seq 1 12).
  rewrite list_lookup_fmap, lookup_seq_lt by lia.
  cbn. f_equal. f_equal. lia.
Qed.
End LoopFacts.

(** ** The base case *)

(** C8, as the code has it.  With [startingPartners = 1],
    [newPartnersPerMonth = 2] and [monthlyChurnPct = 2] the loop variable
    [totalActive] is 2.98 in month 2 and 4.9204 in month 3; the records
    report it rounded to two decimals, 2.98 and 4.92. *)
Theorem C8_base_case_active (scenario : Scenario.t) (tiers : list Tier.t)
  (bulkProducts : list Bulk.t) (retailProducts : list Retail.t) :
  Scenario.startingPartners scenario == 1 ->
  Scenario.newPartnersPerMonth scenario == 2 ->
  Scenario.monthlyChurnPct scenario == 2 ->
  activeAt scenario tiers bulkProducts retailProducts 2 == 2.98
  /\ activeAt scenario tiers bulkProducts retailProducts 3 == 4.9204
  /\ exists r2 r3 : Month.t,
       projectScenario scenario tiers bulkProducts retailProducts !! 1%nat
       = Some r2
       /\ projectScenario scenario tiers bulkProducts retailProducts !! 2%nat
          = Some r3
       /\ Month.totalActive r2 == 2.98
       /\ Month.totalActive r3 == 4.92.
Proof.
  intros Hs Hn Hc.
  assert (activeAt scenario tiers bulkProducts retailProducts 2 == 2.98) as H2.
  { rewrite activeAt_S, activeAt_1 by lia. rewrite Hs, Hn, Hc. reflexivity. }
  assert (activeAt scenario tiers bulkProducts retailProducts 3 == 4.9204) as H3.
  { rewrite activeAt_S by lia. rewrite H2, Hn, Hc. reflexivity. }
  split; [exact H2|]. split; [exact H3|].
  exists (reportAt scenario tiers bulkProducts retailProducts 2),
         (reportAt scenario tiers bulkProducts retailProducts 3).
  split; [apply (projectScenario_lookup _ _ _ _ 2); lia|].
  split; [apply (projectScenario_lookup _ _ _ _ 3); lia|].
  cbn [reportAt monthRecord Month.totalActive].
  rewrite H2, H3. split; reflexivity.
Qed.

Lemma C8_base_case_active_witness :
  activeAt BaseCase DEFAULT_TIERS DEFAULT_BULK_PRODUCTS DEFAULT_RETAIL_PRODUCTS 3
  == 4.9204.
Proof.
  destruct (C8_base_case_active BaseCase DEFAULT_TIERS DEFAULT_BULK_PRODUCTS
              DEFAULT_RETAIL_PRODUCTS) as (_ & H & _);
    [reflexivity | reflexivity | reflexivity | exact H].
Defined.

(** ** Tier economics: nothing selected *)

Lemma filter_nil_iff {A} (f : A -> bool) (l : list A) :
  List.filter f l = [] <-> forall x, In x l -> f x = false.
Proof.
  induction l as [|x l IH]; cbn [List.filter].
  - split; [intros _ y []|reflexivity].
  - destruct (f x) eqn:E.
    + split; [discriminate|]. intros H. rewrite (H x) in E; [discriminate|now left].
    + rewrite IH. split.
      * intros H y [<- | Hy]; [exact E | now apply H].
      * intros H y Hy. apply H. now right.
Qed.

Lemma includes_false (ids : list string) (x : string) :
  includes ids x = false <-> ~ In x ids.
Proof.
  unfold includes. induction ids as [|i ids IH]; cbn [existsb In].
  - tauto.
  - rewrite orb_false_iff, IH, String.eqb_neq. intuition congruence.
Qed.

(** C7. When no product of the catalog is selected by the tier, which is
    the case in particular when every id in [bulkProductIds] is dangling,
    [calcTierEconomics] returns [bulkRev = 0], [bulkProfit = 0], an empty
    [bulkBreakdown], and [servingsPerMonth] is still
    [drinksPerDay * tspPerDrink * daysPerMonth]. *)
Theorem C7_empty_bulk_selection (tier : Tier.t) (bulkProducts : list Bulk.t)
  (retailProducts : list Retail.t) :
  ((forall p : Bulk.t, In p bulkProducts ->
      ~ In (Bulk.id p) (orEmpty (Tier.bulkProductIds tier))) ->
   selectBulk tier bulkProducts = [])
  /\ (selectBulk tier bulkProducts = [] ->
      let e := calcTierEconomics tier bulkProducts retailProducts in
      Econ.bulkRev e == 0
      /\ Econ.bulkProfit e == 0
      /\ Econ.bulkBreakdown e = []
      /\ Econ.servingsPerMonth e
         = Tier.drinksPerDay tier * Tier.tspPerDrink tier * Tier.daysPerMonth tier).
Proof.
  split.
  - intros H. apply filter_nil_iff. intros p Hp.
    apply includes_false. now apply H.
  - intros H. cbv zeta. unfold calcTierEconomics, bulkTotals. rewrite H.
    cbn. repeat split; reflexivity.
Qed.

Lemma C7_empty_bulk_selection_witness :
  Econ.bulkRev (calcTierEconomics ghostTier DEFAULT_BULK_PRODUCTS
                                  DEFAULT_RETAIL_PRODUCTS) == 0
  /\ Econ.bulkBreakdown (calcTierEconomics ghostTier DEFAULT_BULK_PRODUCTS
                                           DEFAULT_RETAIL_PRODUCTS) = [].
Proof.
  destruct (C7_empty_bulk_selection ghostTier DEFAULT_BULK_PRODUCTS
              DEFAULT_RETAIL_PRODUCTS) as [Hsel Hzero].
  destruct Hzero as (H1 & _ & H3 & _).
  - apply Hsel. intros p Hp Hin. cbn in Hp, Hin.
    destruct Hin as [Hin | []].
    destruct Hp as [<- | [<- | [<- | [<- | []]]]]; discriminate Hin.
  - split; [exact H1 | exact H3].
Defined.

(** ** Tier economics: divisions *)

Lemma divide_nonzero (x y : Q) : ~ y == 0 -> Checked.divide x y = Some (x / y).
Proof.
  intros Hy. unfold Checked.divide.
  destruct (Qeq_bool y 0) eqn:E; [|reflexivity].
  apply Qeq_bool_eq in E. contradiction.
Qed.

Lemma checked_round2 (x : Q) : Checked.round2 x = Some (round2 x).
Proof. reflexivity. Qed.

Lemma len_positive {A} (l : list A) : (0 <? length l)%nat = true -> 0 < len l.
Proof.
  intros H. apply Nat.ltb_lt in H. unfold len.
  change 0 with (inject_Z 0). rewrite <- Zlt_Qlt. lia.
Qed.

Lemma checked_servingsShare (tier : Tier.t) (l : list Bulk.t) :
  Checked.servingsShare tier l = Some (servingsShare tier l).
Proof.
  unfold Checked.servingsShare, servingsShare.
  destruct (0 <? length l)%nat eqn:E; [|reflexivity].
  apply divide_nonzero. pose proof (len_positive l E). lra.
Qed.

Lemma checked_retailShare (tier : Tier.t) (l : list Retail.t) :
  Checked.retailShare tier l = Some (retailShare tier l).
Proof.
  unfold Checked.retailShare, retailShare.
  destruct (0 <? length l)%nat eqn:E; [|reflexivity].
  apply divide_nonzero. pose proof (len_positive l E). lra.
Qed.

Lemma checked_bagsOf (sh : Q) (bulk : Bulk.t) :
  Checked.bagsOf sh bulk = Some (bagsOf sh bulk).
Proof.
  unfold Checked.bagsOf, bagsOf.
  destruct (gt (Bulk.servings bulk) 0) eqn:E; [|reflexivity].
  apply divide_nonzero. apply gt_spec in E. lra.
Qed.

Lemma checked_bulkStep (sh : Q) (a : BulkAcc.t) (bulk : Bulk.t) :
  Checked.bulkStep sh a bulk = Some (bulkStep sh a bulk).
Proof.
  unfold Checked.bulkStep. rewrite checked_bagsOf. cbn [mbind option_bind].
  rewrite !checked_round2. reflexivity.
Qed.

Lemma foldM_total {A B} (f : A -> B -> option A) (g : A -> B -> A) :
  (forall a x, f a x = Some (g a x)) ->
  forall l a, Checked.foldM f l a = Some (fold_left g l a).
Proof.
  intros Hf. induction l as [|x l IH]; intros a; cbn [Checked.foldM fold_left].
  - reflexivity.
  - rewrite Hf. cbn [mbind option_bind]. apply IH.
Qed.

Lemma bagsOf_nonpositive (sh : Q) (bulk : Bulk.t) :
  Bulk.servings bulk <= 0 -> bagsOf sh bulk = 0.
Proof.
  intros H. unfold bagsOf. apply gt_false in H. rewrite H. reflexivity.
Qed.

(** C9. [calcTierEconomics] never divides by zero: run with every division
    checked, it completes on every input and returns the very record of
    the unchecked run.  The guard on [bulk.servings] being strict, a bag
    whose [servings] is zero or negative needs 0 bags, whatever the share
    of servings it is given. *)
Theorem C9_no_division_by_zero (tier : Tier.t) (bulkProducts : list Bulk.t)
  (retailProducts : list Retail.t) :
  Checked.calcTierEconomics tier bulkProducts retailProducts
  = Some (calcTierEconomics tier bulkProducts retailProducts)
  /\ (forall (servingsPerProduct : Q) (bulk : Bulk.t),
        Bulk.servings bulk <= 0 ->
        Checked.bagsOf servingsPerProduct bulk = Some 0
        /\ bagsOf servingsPerProduct bulk = 0).
Proof.
  split.
  - unfold Checked.calcTierEconomics. cbv zeta.
    rewrite checked_servingsShare. cbn [mbind option_bind].
    rewrite (foldM_total _ _ (checked_bulkStep _)). cbn [mbind option_bind].
    rewrite checked_retailShare. cbn [mbind option_bind].
    rewrite !checked_round2. reflexivity.
  - intros sh bulk H. rewrite checked_bagsOf, bagsOf_nonpositive by exact H.
    split; reflexivity.
Qed.

Lemma C9_no_division_by_zero_witness :
  Checked.bagsOf 300 negativeBag = Some 0 /\ bagsOf 300 negativeBag = 0.
Proof.
  destruct (C9_no_division_by_zero smallTier DEFAULT_BULK_PRODUCTS
              DEFAULT_RETAIL_PRODUCTS) as [_ H].
  apply H. vm_compute. discriminate.
Defined.

(** ** Sums of roundings *)

Lemma sumQ_cons (x : Q) (l : list Q) : sumQ (x :: l) = x + sumQ l.
Proof. reflexivity. Qed.

Lemma sumQ_round_integer (l : list Q) :
  exists z : Z, sumQ (List.map Math_round l) == inject_Z z.
Proof.
  induction l as [|x l [z Hz]]; cbn [List.map].
  - exists 0%Z. reflexivity.
  - exists (Qfloor (x + (1 # 2)) + z)%Z.
    rewrite sumQ_cons, Hz, inject_Z_plus. reflexivity.
Qed.

(** Summing roundings drifts from the sum by half a unit per term at most. *)
Lemma sumQ_round_bounds (l : list Q) :
  sumQ l - len l * (1 # 2) <= sumQ (List.map Math_round l)
  /\ sumQ (List.map Math_round l) <= sumQ l + len l * (1 # 2).
Proof.
  induction l as [|x l [IH1 IH2]]; cbn [List.map].
  - split; unfold Qle; cbn; lia.
  - rewrite !sumQ_cons.
    assert (len (x :: l) == len l + 1) as ->.
    { unfold len. cbn [length]. rewrite Nat2Z.inj_succ. unfold Z.succ.
      rewrite inject_Z_plus. reflexivity. }
    destruct (Math_round_bounds x) as [Hx1 Hx2]. split; lra.
Qed.

(** ** Tiers and cohorts *)

Section Cohorts.
Variables (bulkProducts : list Bulk.t) (retailProducts : list Retail.t).

Abbreviation store :=
  (fun (tierEcon : gmap string Econ.t) (t : Tier.t) =>
     <[Tier.id t := calcTierEconomics t bulkProducts retailProducts]> tierEcon).

(** Tiers stored under other ids leave an entry as it is. *)
Lemma tierEcon_fold_other (l : list Tier.t) (te : gmap string Econ.t)
  (k : string) :
  (forall t, t ∈ l -> Tier.id t <> k) ->
  fold_left store l te !! k = te !! k.
Proof.
  revert te. induction l as [|t l IH]; intros te Hl; cbn [fold_left].
  - reflexivity.
  - rewrite IH.
    + apply lookup_insert_ne. apply Hl. left.
    + intros t' Ht'. apply Hl. now right.
Qed.

(** The entry under a tier's id is that tier's economics, as long as no
    later tier has the same id. *)
Lemma tierEconOf_lookup (tiers : list Tier.t) (k : nat) (t : Tier.t) :
  tiers !! k = Some t ->
  (forall (j : nat) (t' : Tier.t),
      (k < j)%nat -> tiers !! j = Some t' -> Tier.id t' <> Tier.id t) ->
  tierEconOf tiers bulkProducts retailProducts !! Tier.id t
  = Some (calcTierEconomics t bulkProducts retailProducts).
Proof.
  intros Hk Hlater. unfold tierEconOf.
  rewrite <- (take_drop_middle tiers k t Hk) at 1.
  rewrite fold_left_app. cbn [fold_left].
  rewrite tierEcon_fold_other; [apply lookup_insert_eq|].
  intros t' Ht'. apply list_elem_of_lookup in Ht' as [i Hi].
  rewrite lookup_drop in Hi. apply (Hlater (S k + i)%nat); [lia | exact Hi].
Qed.

Lemma cohortEcon_positional (tiers : list Tier.t) (size : Size) (t : Tier.t) :
  tiers !! position size = Some t ->
  Tier.id t <> "" ->
  (forall (j : nat) (t' : Tier.t),
      (position size < j)%nat -> tiers !! j = Some t' ->
      Tier.id t' <> Tier.id t) ->
  cohortEcon (tierMapOf tiers) (tierEconOf tiers bulkProducts retailProducts) size
  = Some (calcTierEconomics t bulkProducts retailProducts).
Proof.
  intros Ht Hid Hlater.
  assert (tierMapOf tiers size = Some (Tier.id t)) as Hmap.
  { destruct size; cbn [tierMapOf position] in *; rewrite Ht; reflexivity. }
  unfold cohortEcon. rewrite Hmap. cbn [truthy].
  apply String.eqb_neq in Hid. rewrite Hid. cbn [negb mbind option_bind].
  now apply (tierEconOf_lookup tiers (position size)).
Qed.

Lemma cohortEcon_blank (tiers : list Tier.t) (size : Size) (t : Tier.t) :
  tiers !! position size = Some t ->
  Tier.id t = "" ->
  cohortEcon (tierMapOf tiers) (tierEconOf tiers bulkProducts retailProducts) size
  = None.
Proof.
  intros Ht Hid.
  assert (tierMapOf tiers size = Some "") as Hmap.
  { destruct size; cbn [tierMapOf position] in *; rewrite Ht, <- Hid; reflexivity. }
  unfold cohortEcon. rewrite Hmap. reflexivity.
Qed.

Lemma cohortEcon_missing (tiers : list Tier.t) (size : Size) :
  (length tiers <= position size)%nat ->
  cohortEcon (tierMapOf tiers) (tierEconOf tiers bulkProducts retailProducts) size
  = None.
Proof.
  intros Hlen. apply lookup_ge_None in Hlen.
  assert (tierMapOf tiers size = None) as Hmap.
  { destruct size; cbn [tierMapOf position] in *; rewrite Hlen; reflexivity. }
  unfold cohortEcon. rewrite Hmap. reflexivity.
Qed.

(** C5, as the code has it.  Cohorts are filled by position, through the
    tier's id: the tier at position 0, 1, 2 of [tiers] supplies the
    economics of the small, medium, large cohort, provided its id is not
    the empty string and no later tier carries the same id.  A tier whose
    id is empty is skipped by the guard [if (tid && tierEcon[tid])].  With
    fewer than 3 tiers a missing cohort leaves the four sums of every
    month as they are, and the projection still returns its 12 records. *)
Theorem C5_cohorts_by_position (tiers : list Tier.t) :
  let tierMap := tierMapOf tiers in
  let tierEcon := tierEconOf tiers bulkProducts retailProducts in
  (forall (size : Size) (t : Tier.t),
      tiers !! position size = Some t ->
      Tier.id t <> "" ->
      (forall (j : nat) (t' : Tier.t),
          (position size < j)%nat -> tiers !! j = Some t' ->
          Tier.id t' <> Tier.id t) ->
      cohortEcon tierMap tierEcon size
      = Some (calcTierEconomics t bulkProducts retailProducts))
  /\ (forall (size : Size) (t : Tier.t),
        tiers !! position size = Some t ->
        Tier.id t = "" ->
        cohortEcon tierMap tierEcon size = None)
  /\ (forall size : Size,
        (length tiers <= position size)%nat ->
        cohortEcon tierMap tierEcon size = None
        /\ forall (counts : Size -> Q) (retailAttach : Q) (s : Sums.t),
             cohortStep tierMap tierEcon counts retailAttach s size = s)
  /\ (forall scenario : Scenario.t,
        length (projectScenario scenario tiers bulkProducts retailProducts)
        = 12%nat).
Proof.
  cbv zeta. split; [|split; [|split]].
  - intros size t. apply cohortEcon_positional.
  - intros size t. apply cohortEcon_blank.
  - intros size Hlen. pose proof (cohortEcon_missing tiers size Hlen) as Hnone.
    split; [exact Hnone|]. intros counts retailAttach s.
    unfold cohortStep. rewrite Hnone. reflexivity.
  - intros scenario. apply projectScenario_length.
Qed.
End Cohorts.

Lemma C5_cohorts_by_position_witness :
  cohortEcon (tierMapOf DEFAULT_TIERS)
             (tierEconOf DEFAULT_TIERS DEFAULT_BULK_PRODUCTS DEFAULT_RETAIL_PRODUCTS)
             medium
  = Some (calcTierEconomics
            (Tier.mk "medium" "Medium Cafe" (Some ["ev5"]) 40 1 30 (Some ["evp"]) 15)
            DEFAULT_BULK_PRODUCTS DEFAULT_RETAIL_PRODUCTS)
  /\ cohortEcon (tierMapOf [blankTier])
                (tierEconOf [blankTier] DEFAULT_BULK_PRODUCTS DEFAULT_RETAIL_PRODUCTS)
                small
     = None
  /\ cohortEcon (tierMapOf [smallTier])
                (tierEconOf [smallTier] DEFAULT_BULK_PRODUCTS DEFAULT_RETAIL_PRODUCTS)
                large
     = None.
Proof.
  split; [|split].
  - destruct (C5_cohorts_by_position DEFAULT_BULK_PRODUCTS DEFAULT_RETAIL_PRODUCTS
                DEFAULT_TIERS) as (H & _).
    apply H.
    + reflexivity.
    + discriminate.
    + intros j t' Hj Ht'. cbn [position] in Hj.
      destruct j as [|[|[|j]]]; [lia | lia | | discriminate Ht'].
      injection Ht' as <-. discriminate.
  - destruct (C5_cohorts_by_position DEFAULT_BULK_PRODUCTS DEFAULT_RETAIL_PRODUCTS
                [blankTier]) as (_ & H & _).
    apply (H small blankTier); reflexivity.
  - destruct (C5_cohorts_by_position DEFAULT_BULK_PRODUCTS DEFAULT_RETAIL_PRODUCTS
                [smallTier]) as (_ & _ & H & _).
    apply H. cbn. lia.
Defined.

(** C5, as the specification words it, fails: the first tier does not fill
    the small role whatever its properties.  With its id blank it is left
    out, although its economics are not zero; with its id kept it is
    counted. *)
Lemma C5_blank_id_first_tier_skipped :
  Tier.id blankTier = ""
  /\ Econ.bulkRev (calcTierEconomics blankTier DEFAULT_BULK_PRODUCTS
                                     DEFAULT_RETAIL_PRODUCTS) == 133.33
  /\ exists r r' : Month.t,
       projectScenario BaseCase [blankTier] DEFAULT_BULK_PRODUCTS
                       DEFAULT_RETAIL_PRODUCTS !! 0%nat = Some r
       /\ projectScenario BaseCase [smallTier] DEFAULT_BULK_PRODUCTS
                          DEFAULT_RETAIL_PRODUCTS !! 0%nat = Some r'
       /\ Month.bulkRevenue r == 0 /\ Month.totalRevenue r == 0
       /\ Month.bulkRevenue r' == 67
       /\ ~ Month.bulkRevenue r == Month.bulkRevenue r'.
Proof.
  split; [reflexivity|]. split; [reflexivity|].
  eexists. eexists.
  split; [apply (projectScenario_lookup _ _ _ _ 1); lia|].
  split; [apply (projectScenario_lookup _ _ _ _ 1); lia|].
  repeat split; try reflexivity.
  vm_compute. discriminate.
Qed.

(** When two tiers share an id the later one overwrites the earlier in
    [tierEcon]: here the small cohort is charged with the economics of the
    second tier, not of the first. *)
Lemma duplicate_id_last_tier_wins :
  cohortEcon (tierMapOf [smallTier; emptyTwin])
             (tierEconOf [smallTier; emptyTwin] DEFAULT_BULK_PRODUCTS
                         DEFAULT_RETAIL_PRODUCTS)
             small
  = Some (calcTierEconomics emptyTwin DEFAULT_BULK_PRODUCTS DEFAULT_RETAIL_PRODUCTS).
Proof. reflexivity. Qed.

(** ** Retail attach rate *)







(** * Beyond the claims

    Properties of the rest of the engine and of the dashboard around it,
    read off the source. *)

(** ** Rounding is monotone *)




(** ** Tier economics: no retail product *)

(** A tier that resolves no retail product, its [retailProductIds] being
    undefined, empty or dangling, has no retail revenue and no retail
    profit, and its totals are its bulk figures. *)
Theorem empty_retail_selection (tier : Tier.t) (bulkProducts : list Bulk.t)
  (retailProducts : list Retail.t) :
  selectRetail tier retailProducts = [] ->
  let e := calcTierEconomics tier bulkProducts retailProducts in
  Econ.retailRev e = 0 /\ Econ.retailProfit e = 0
  /\ Econ.totalRev e == Econ.bulkRev e
  /\ Econ.totalProfit e == Econ.bulkProfit e.
Proof.
  intros H. cbv zeta. unfold calcTierEconomics, retailTotals. rewrite H.
  cbn [fold_left RetailAcc.init RetailAcc.retailRev RetailAcc.retailProfit
       Econ.retailRev Econ.retailProfit Econ.totalRev Econ.totalProfit
       Econ.bulkRev Econ.bulkProfit].
  split; [reflexivity|]. split; [reflexivity|].
  split; apply round2_proper; ring.
Qed.

Lemma empty_retail_selection_witness :
  Econ.retailRev (calcTierEconomics halfTier [halfBag] DEFAULT_RETAIL_PRODUCTS) = 0.
Proof.
  apply (empty_retail_selection halfTier [halfBag] DEFAULT_RETAIL_PRODUCTS).
  reflexivity.
Defined.

(** ** Tier economics: what the selection depends on *)

Lemma includes_true (ids : list string) (x : string) :
  includes ids x = true <-> In x ids.
Proof.
  unfold includes. rewrite existsb_exists. split.
  - intros (y & Hy & E). apply String.eqb_eq in E. now subst.
  - intros H. exists x. split; [exact H | apply String.eqb_refl].
Qed.

(** Only membership in [bulkProductIds] and [retailProductIds] counts: two
    tiers with the same numbers whose id arrays have the same members, in
    any order and with any repetition, have the same economics. *)
Theorem selection_by_membership (id label : string)
  (bulkIds bulkIds' retailIds retailIds' : list string)
  (drinksPerDay tspPerDrink daysPerMonth retailUnitsPerMonth : Q)
  (bulkProducts : list Bulk.t) (retailProducts : list Retail.t) :
  (forall x, In x bulkIds <-> In x bulkIds') ->
  (forall x, In x retailIds <-> In x retailIds') ->
  calcTierEconomics
    (Tier.mk id label (Some bulkIds) drinksPerDay tspPerDrink daysPerMonth
             (Some retailIds) retailUnitsPerMonth)
    bulkProducts retailProducts
  = calcTierEconomics
      (Tier.mk id label (Some bulkIds') drinksPerDay tspPerDrink daysPerMonth
               (Some retailIds') retailUnitsPerMonth)
      bulkProducts retailProducts.
Proof.
  intros Hb Hr.
  assert (forall l l' : list string, (forall x, In x l <-> In x l') ->
            forall x, includes l x = includes l' x) as Hinc.
  { intros l l' H x. destruct (includes l' x) eqn:E.
    - apply includes_true. apply includes_true in E. now apply H.
    - apply includes_false. apply includes_false in E. now rewrite H. }
  unfold calcTierEconomics, bulkTotals, retailTotals, selectBulk, selectRetail,
    servingsShare, retailShare, totalServings.
  cbn [Tier.bulkProductIds Tier.retailProductIds orEmpty Tier.drinksPerDay
       Tier.tspPerDrink Tier.daysPerMonth Tier.retailUnitsPerMonth].
  rewrite (List.filter_ext _ _ (fun p => Hinc _ _ Hb (Bulk.id p))).
  rewrite (List.filter_ext _ _ (fun p => Hinc _ _ Hr (Retail.id p))).
  reflexivity.
Qed.

Lemma selection_by_membership_witness :
  calcTierEconomics
    (Tier.mk "large" "Large Cafe" (Some ["ev5"; "dk5"]) 60 1 30
             (Some ["evp"; "dkp"]) 25)
    DEFAULT_BULK_PRODUCTS DEFAULT_RETAIL_PRODUCTS
  = calcTierEconomics
      (Tier.mk "large" "Large Cafe" (Some ["dk5"; "ev5"; "dk5"]) 60 1 30
               (Some ["dkp"; "evp"]) 25)
      DEFAULT_BULK_PRODUCTS DEFAULT_RETAIL_PRODUCTS.
Proof.
  apply selection_by_membership; intros x; cbn; tauto.
Defined.

Lemma bulkStep_fold_rows (sh : Q) (l : list Bulk.t) (a : BulkAcc.t) :
  BulkAcc.rows (fold_left (bulkStep sh) l a)
  = BulkAcc.rows a
    ++ List.map (fun p => Row.mk (Bulk.name p) (round2 (bagsOf sh p))
                                 (round2 (bagsOf sh p * Bulk.wholesale p)))
                l.
Proof.
  revert a. induction l as [|p l IH]; intros a; cbn [fold_left List.map].
  - now rewrite app_nil_r.
  - rewrite IH. unfold bulkStep. cbn [BulkAcc.rows List.map].
    now rewrite <- app_assoc.
Qed.

Lemma filter_sublist {A} (f : A -> bool) (l : list A) :
  sublist (List.filter f l) l.
Proof.
  induction l as [|x l IH]; cbn [List.filter]; [constructor|].
  destruct (f x); now constructor.
Qed.

(** [bulkBreakdown] has one row for each resolved bulk product, in the
    order of the catalog (not of [bulkProductIds]), with the product's
    name, its bags and its revenue, each rounded to two decimals. *)
Theorem bulkBreakdown_rows (tier : Tier.t) (bulkProducts : list Bulk.t)
  (retailProducts : list Retail.t) :
  let selectedBulk := selectBulk tier bulkProducts in
  let sh := servingsShare tier selectedBulk in
  Econ.bulkBreakdown (calcTierEconomics tier bulkProducts retailProducts)
  = List.map (fun p => Row.mk (Bulk.name p) (round2 (bagsOf sh p))
                              (round2 (bagsOf sh p * Bulk.wholesale p)))
             selectedBulk
  /\ sublist selectedBulk bulkProducts
  /\ (forall p, In p selectedBulk <->
                In p bulkProducts
                /\ In (Bulk.id p) (orEmpty (Tier.bulkProductIds tier))).
Proof.
  cbv zeta. split; [|split].
  - unfold calcTierEconomics, bulkTotals. cbn [Econ.bulkBreakdown].
    now rewrite bulkStep_fold_rows.
  - apply filter_sublist.
  - intros p. unfold selectBulk. rewrite filter_In, includes_true. reflexivity.
Qed.

(** ** The projection never divides by zero *)

Lemma checked_calcTierEconomics (tier : Tier.t) (bulkProducts : list Bulk.t)
  (retailProducts : list Retail.t) :
  Checked.calcTierEconomics tier bulkProducts retailProducts
  = Some (calcTierEconomics tier bulkProducts retailProducts).
Proof.
  unfold Checked.calcTierEconomics. cbv zeta.
  rewrite checked_servingsShare. cbn [mbind option_bind].
  rewrite (foldM_total _ _ (checked_bulkStep _)). cbn [mbind option_bind].
  rewrite checked_retailShare. cbn [mbind option_bind].
  rewrite !checked_round2. reflexivity.
Qed.

Lemma checked_tierEconOf (tiers : list Tier.t) (bulkProducts : list Bulk.t)
  (retailProducts : list Retail.t) :
  CheckedProject.tierEconOf tiers bulkProducts retailProducts
  = Some (tierEconOf tiers bulkProducts retailProducts).
Proof.
  unfold CheckedProject.tierEconOf, tierEconOf. apply foldM_total.
  intros te t. now rewrite checked_calcTierEconomics.
Qed.

Lemma checked_marginPct (totalRev totalProfit : Q) :
  CheckedProject.marginPct totalRev totalProfit
  = Some (if gt totalRev 0
          then Math_round (totalProfit / totalRev * 1000) / 10
          else 0).
Proof.
  unfold CheckedProject.marginPct. destruct (gt totalRev 0) eqn:E; [|reflexivity].
  apply gt_spec in E. rewrite divide_nonzero by lra. reflexivity.
Qed.

Lemma checked_monthRecord (m : nat) (totalActive : Q) (counts : Size -> Q)
  (s : Sums.t) (totalRev totalProfit cumulativeRev cumulativeProfit : Q) :
  CheckedProject.monthRecord m totalActive counts s totalRev totalProfit
                             cumulativeRev cumulativeProfit
  = Some (monthRecord m totalActive counts s totalRev totalProfit
                      cumulativeRev cumulativeProfit).
Proof.
  unfold CheckedProject.monthRecord. rewrite !checked_round2, checked_marginPct.
  reflexivity.
Qed.

Lemma checked_loopBody (scenario : Scenario.t) (tierMap : Size -> option string)
  (tierEcon : gmap string Econ.t) (st : Loop.t) (m : nat) :
  CheckedProject.loopBody scenario tierMap tierEcon
    (Scenario.pctSmall scenario / 100) (Scenario.pctMedium scenario / 100)
    (Scenario.pctLarge scenario / 100) (Scenario.monthlyChurnPct scenario / 100)
    (Scenario.retailAttachPct scenario / 100) st m
  = Some (loopBody scenario tierMap tierEcon st m).
Proof.
  unfold CheckedProject.loopBody. cbv zeta. rewrite checked_monthRecord.
  reflexivity.
Qed.

(** [projectScenario] never divides by zero: run with every division
    checked, those of the tier calculator included, it completes on every
    input with the very array of the unchecked run.  The only divisor that
    is not a constant, [totalRev] in the margin, is used under the guard
    [totalRev > 0]; a month without positive revenue has a margin of 0. *)
Theorem projectScenario_no_division_by_zero (scenario : Scenario.t)
  (tiers : list Tier.t) (bulkProducts : list Bulk.t)
  (retailProducts : list Retail.t) :
  CheckedProject.projectScenario scenario tiers bulkProducts retailProducts
  = Some (projectScenario scenario tiers bulkProducts retailProducts)
  /\ forall m : nat,
       totalRevAt scenario tiers bulkProducts retailProducts m <= 0 ->
       Month.marginPct (reportAt scenario tiers bulkProducts retailProducts m) = 0.
Proof.
  split.
  - unfold CheckedProject.projectScenario. rewrite checked_tierEconOf.
    cbn [mbind option_bind]. cbv zeta.
    rewrite !divide_nonzero by discriminate. cbn [mbind option_bind].
    rewrite (foldM_total _ _ (checked_loopBody scenario _ _)).
    cbn [mbind option_bind]. unfold projectScenario, runLoop. reflexivity.
  - intros m H. cbn [reportAt monthRecord Month.marginPct].
    apply gt_false in H. rewrite H. reflexivity.
Qed.

Lemma projectScenario_no_division_by_zero_witness :
  Month.marginPct (reportAt BaseCase [] DEFAULT_BULK_PRODUCTS
                            DEFAULT_RETAIL_PRODUCTS 5) = 0.
Proof.
  apply (projectScenario_no_division_by_zero BaseCase [] DEFAULT_BULK_PRODUCTS
           DEFAULT_RETAIL_PRODUCTS).
  vm_compute. discriminate.
Defined.

(** ** Tiers beyond the third *)

Lemma loopBody_ext (scenario : Scenario.t) (tierMap tierMap' : Size -> option string)
  (tierEcon tierEcon' : gmap string Econ.t) (st : Loop.t) (m : nat) :
  (forall size, cohortEcon tierMap tierEcon size = cohortEcon tierMap' tierEcon' size) ->
  loopBody scenario tierMap tierEcon st m = loopBody scenario tierMap' tierEcon' st m.
Proof.
  intros H.
  assert (forall counts a,
            monthSums tierMap tierEcon counts a
            = monthSums tierMap' tierEcon' counts a) as Hsums.
  { intros counts a. unfold monthSums. cbn [fold_left]. unfold cohortStep.
    now rewrite !H. }
  unfold loopBody. cbv zeta. now rewrite !Hsums.
Qed.

(** Only the first three tiers count: tiers from the fourth on leave the
    projection as it is, as long as none of them carries the id of one of
    the first three (it would overwrite that tier's economics). *)
Theorem later_tiers_ignored (scenario : Scenario.t) (tiers : list Tier.t)
  (bulkProducts : list Bulk.t) (retailProducts : list Retail.t) :
  (forall (k j : nat) (t t' : Tier.t),
      (k < 3)%nat -> (3 <= j)%nat ->
      tiers !! k = Some t -> tiers !! j = Some t' ->
      Tier.id t' <> Tier.id t) ->
  projectScenario scenario tiers bulkProducts retailProducts
  = projectScenario scenario (take 3 tiers) bulkProducts retailProducts.
Proof.
  intros Hids.
  assert (forall size, tierMapOf (take 3 tiers) size = tierMapOf tiers size) as Hmap.
  { intros []; cbn [tierMapOf]; now rewrite lookup_take_lt by lia. }
  assert (forall size,
            cohortEcon (tierMapOf tiers)
                       (tierEconOf tiers bulkProducts retailProducts) size
            = cohortEcon (tierMapOf (take 3 tiers))
                         (tierEconOf (take 3 tiers) bulkProducts retailProducts)
                         size) as Hecon.
  { intros size. unfold cohortEcon. rewrite Hmap.
    destruct (truthy (tierMapOf tiers size)); [|reflexivity].
    destruct (tierMapOf tiers size) as [tid|] eqn:Htid; [|reflexivity].
    cbn [mbind option_bind]. unfold tierEconOf.
    rewrite <- (take_drop 3 tiers) at 1. rewrite fold_left_app.
    apply tierEcon_fold_other. intros t' Ht'.
    apply list_elem_of_lookup in Ht' as [i Hi]. rewrite lookup_drop in Hi.
    assert (exists k t, (k < 3)%nat /\ tiers !! k = Some t /\ tid = Tier.id t)
      as (k & t & Hk & Ht & ->).
    { destruct size; cbn [tierMapOf] in Htid;
        [exists 0%nat | exists 1%nat | exists 2%nat];
        (destruct (tiers !! _) as [t|] eqn:E; [|discriminate]);
        injection Htid as <-; exists t; (split; [lia|]); split; reflexivity. }
    apply (Hids k (3 + i)%nat t t'); [exact Hk | lia | exact Ht | exact Hi]. }
  unfold projectScenario. f_equal. unfold runLoop.
  generalize (Loop.mk (Scenario.startingPartners scenario) 0 0 []).
  generalize (seq 1 12). induction l as [|m l IH]; intros st; cbn [fold_left].
  - reflexivity.
  - rewrite (loopBody_ext scenario _ _ _ _ st m Hecon). apply IH.
Qed.

Lemma later_tiers_ignored_witness :
  projectScenario BaseCase (DEFAULT_TIERS ++ [kioskTier]) DEFAULT_BULK_PRODUCTS
                  DEFAULT_RETAIL_PRODUCTS
  = projectScenario BaseCase (take 3 (DEFAULT_TIERS ++ [kioskTier]))
                    DEFAULT_BULK_PRODUCTS DEFAULT_RETAIL_PRODUCTS.
Proof.
  apply later_tiers_ignored. intros k j t t' Hk Hj Ht Ht'.
  destruct j as [|[|[|[|j]]]]; [lia | lia | lia | | discriminate Ht'].
  injection Ht' as <-.
  destruct k as [|[|[|k]]]; [| | | lia]; injection Ht as <-; discriminate.
Defined.

(** ** Editing the collections *)

Lemma updateAt_lookup {A} (idx : nat) (set : A -> A) (l : list A) (i : nat) :
  updateAt idx set l !! i
  = (if (i =? idx)%nat then set else fun x => x) <$> l !! i.
Proof.
  unfold updateAt. rewrite list_lookup_imap.
  destruct (l !! i); cbn; [|reflexivity]. now destruct (i =? idx)%nat.
Qed.

(** An edit of card [idx] replaces the item at [idx] and nothing else: the
    collection keeps its length, every other item stays where it is, and
    an index past the end changes nothing. *)
Theorem updateAt_touches_one {A} (idx : nat) (set : A -> A) (l : list A) :
  length (updateAt idx set l) = length l
  /\ updateAt idx set l !! idx = set <$> l !! idx
  /\ (forall i : nat, i <> idx -> updateAt idx set l !! i = l !! i)
  /\ ((length l <= idx)%nat -> updateAt idx set l = l).
Proof.
  split; [apply length_imap|]. split; [|split].
  - rewrite updateAt_lookup, Nat.eqb_refl. reflexivity.
  - intros i Hi. rewrite updateAt_lookup.
    apply Nat.eqb_neq in Hi. rewrite Hi. now destruct (l !! i).
  - intros Hlen. apply list_eq. intros i. rewrite updateAt_lookup.
    destruct (l !! i) as [x|] eqn:E; [|reflexivity].
    apply lookup_lt_Some in E.
    assert ((i =? idx)%nat = false) as -> by (apply Nat.eqb_neq; lia).
    reflexivity.
Qed.

Lemma updateAt_touches_one_witness :
  updateAt 1 (fun s => withAttach s 80) DEFAULT_SCENARIOS !! 0%nat
  = DEFAULT_SCENARIOS !! 0%nat
  /\ updateAt 7 (fun s => withAttach s 80) DEFAULT_SCENARIOS = DEFAULT_SCENARIOS.
Proof.
  destruct (updateAt_touches_one 1 (fun s => withAttach s 80) DEFAULT_SCENARIOS)
    as (_ & _ & H & _).
  destruct (updateAt_touches_one 7 (fun s => withAttach s 80) DEFAULT_SCENARIOS)
    as (_ & _ & _ & H').
  split; [apply H; lia | apply H'; cbn; lia].
Defined.

Lemma filterIndex_remove {A} (idx i : nat) (l : list A) :
  filterIndex (fun j => negb (j =? i + idx)%nat) i l = take idx l ++ drop (S idx) l.
Proof.
  revert idx i. induction l as [|x l IH]; intros idx i; cbn [filterIndex].
  - now rewrite take_nil, drop_nil.
  - destruct idx as [|idx].
    + rewrite Nat.add_0_r, Nat.eqb_refl. cbn [negb take drop app].
      clear IH. rewrite drop_0.
      assert (forall (k : nat) (l' : list A), (i < k)%nat ->
                filterIndex (fun j => negb (j =? i)%nat) k l' = l') as Hrest.
      { intros k l'. revert k. induction l' as [|y l' IH']; intros k Hk;
          cbn [filterIndex]; [reflexivity|].
        assert ((k =? i)%nat = false) as -> by (apply Nat.eqb_neq; lia).
        cbn [negb]. f_equal. apply IH'. lia. }
      apply Hrest. lia.
    + assert ((i =? i + S idx)%nat = false) as -> by (apply Nat.eqb_neq; lia).
      cbn [negb take drop app]. f_equal.
      replace (i + S idx)%nat with (S i + idx)%nat by lia. apply IH.
Qed.

Lemma removeScenario_eq (idx : nat) (s : list Scenario.t) :
  removeScenario idx s = take idx s ++ drop (S idx) s.
Proof. apply (filterIndex_remove idx 0 s). Qed.

(** [removeScenario] takes out the scenario at [idx] and nothing else: the
    ones before it keep their place, the ones after it move up by one, and
    an index past the end removes nothing. *)
Theorem removeScenario_removes_one (idx : nat) (s : list Scenario.t) :
  removeScenario idx s = take idx s ++ drop (S idx) s
  /\ ((idx < length s)%nat -> length (removeScenario idx s) = (length s - 1)%nat)
  /\ ((length s <= idx)%nat -> removeScenario idx s = s)
  /\ (forall i : nat, (i < idx)%nat -> removeScenario idx s !! i = s !! i)
  /\ (forall i : nat, (idx <= i)%nat -> removeScenario idx s !! i = s !! S i).
Proof.
  rewrite removeScenario_eq. split; [reflexivity|]. split; [|split; [|split]].
  - intros H. rewrite length_app, length_take, length_drop. lia.
  - intros H. rewrite take_ge, drop_ge by lia. apply app_nil_r.
  - intros i Hi. destruct (decide (idx <= length s)%nat) as [Hle|Hgt].
    + rewrite lookup_app_l by (rewrite length_take; lia).
      now rewrite lookup_take_lt.
    + rewrite take_ge, drop_ge by lia. now rewrite app_nil_r.
  - intros i Hi. destruct (decide (idx <= length s)%nat) as [Hle|Hgt].
    + rewrite lookup_app_r by (rewrite length_take; lia).
      rewrite length_take, lookup_drop. f_equal. lia.
    + rewrite take_ge, drop_ge by lia. rewrite app_nil_r.
      rewrite !lookup_ge_None_2 by lia. reflexivity.
Qed.

Lemma removeScenario_removes_one_witness :
  length (removeScenario 0 DEFAULT_SCENARIOS) = (length DEFAULT_SCENARIOS - 1)%nat
  /\ removeScenario 3 DEFAULT_SCENARIOS = DEFAULT_SCENARIOS
  /\ removeScenario 0 DEFAULT_SCENARIOS !! 1%nat = DEFAULT_SCENARIOS !! 2%nat
  /\ removeScenario 2 DEFAULT_SCENARIOS !! 1%nat = DEFAULT_SCENARIOS !! 1%nat.
Proof.
  destruct (removeScenario_removes_one 0 DEFAULT_SCENARIOS) as (_ & H1 & _ & _ & H4).
  destruct (removeScenario_removes_one 3 DEFAULT_SCENARIOS) as (_ & _ & H2 & _).
  destruct (removeScenario_removes_one 2 DEFAULT_SCENARIOS) as (_ & _ & _ & H3 & _).
  split; [apply H1; cbn; lia|]. split; [apply H2; cbn; lia|].
  split; [apply H4; lia | apply H3; lia].
Defined.

(** The projection reads the seven numbers of a scenario and nothing else. *)
Lemma projectScenario_numbers (s s' : Scenario.t) (tiers : list Tier.t)
  (bulkProducts : list Bulk.t) (retailProducts : list Retail.t) :
  Scenario.startingPartners s = Scenario.startingPartners s' ->
  Scenario.newPartnersPerMonth s = Scenario.newPartnersPerMonth s' ->
  Scenario.pctSmall s = Scenario.pctSmall s' ->
  Scenario.pctMedium s = Scenario.pctMedium s' ->
  Scenario.pctLarge s = Scenario.pctLarge s' ->
  Scenario.monthlyChurnPct s = Scenario.monthlyChurnPct s' ->
  Scenario.retailAttachPct s = Scenario.retailAttachPct s' ->
  projectScenario s tiers bulkProducts retailProducts
  = projectScenario s' tiers bulkProducts retailProducts.
Proof.
  destruct s, s'. cbn. intros -> -> -> -> -> -> ->.
  unfold projectScenario, runLoop. f_equal.
Qed.

(** [addScenario] tests the scenarios the component was rendered with and
    appends to the scenarios the state holds when the update runs.  At
    five rendered scenarios or more it changes nothing; below five it
    appends exactly one scenario, which carries the numbers of the base
    case and so projects as the base case does.  When the component is
    rendered with the current state the scenarios stay at five or fewer
    and the new one takes its colour from the palette; when the state has
    moved on since the render, a second call can take the list to six and
    the colour to the fallback. *)
Theorem addScenario_capped (scenarios s : list Scenario.t) :
  ((5 <= length scenarios)%nat -> addScenario scenarios s = s)
  /\ ((length scenarios < 5)%nat ->
      addScenario scenarios s = s ++ [newScenario (length s)]
      /\ forall (tiers : list Tier.t) (bulkProducts : list Bulk.t)
                (retailProducts : list Retail.t),
           projectScenario (newScenario (length s)) tiers bulkProducts
                           retailProducts
           = projectScenario BaseCase tiers bulkProducts retailProducts)
  /\ (scenarios = s -> (length s <= 5)%nat ->
      (length (addScenario scenarios s) <= 5)%nat
      /\ ((length s < 5)%nat ->
          SCENARIO_COLORS !! length s
          = Some (Scenario.color (newScenario (length s)))))
  /\ (exists rendered : list Scenario.t,
        (length rendered <= 5)%nat
        /\ length (addScenario rendered (addScenario rendered rendered)) = 6%nat
        /\ Scenario.color
             <$> last (addScenario rendered (addScenario rendered rendered))
           = Some "#999").
Proof.
  unfold addScenario. split; [|split; [|split]].
  - intros H. apply Nat.leb_le in H. now rewrite H.
  - intros H. assert ((5 <=? length scenarios)%nat = false) as ->
      by (apply Nat.leb_gt; exact H).
    split; [reflexivity|].
    intros tiers bulkProducts retailProducts.
    apply projectScenario_numbers; reflexivity.
  - intros -> H. split.
    + destruct (5 <=? length s)%nat eqn:E; [exact H|].
      apply Nat.leb_gt in E. rewrite length_app. cbn. lia.
    + intros Hlt.
      destruct (length s) as [|[|[|[|[|n]]]]]; [reflexivity.. | lia].
  - exists fourScenarios. split; [cbn; lia|]. split; reflexivity.
Qed.

Lemma addScenario_capped_witness :
  addScenario DEFAULT_SCENARIOS DEFAULT_SCENARIOS
  = DEFAULT_SCENARIOS ++ [newScenario 3]
  /\ (length (addScenario DEFAULT_SCENARIOS DEFAULT_SCENARIOS) <= 5)%nat
  /\ SCENARIO_COLORS !! 3%nat = Some (Scenario.color (newScenario 3)).
Proof.
  destruct (addScenario_capped DEFAULT_SCENARIOS DEFAULT_SCENARIOS)
    as (_ & Hadd & Hcap & _).
  destruct (Hadd ltac:(cbn; lia)) as [Heq _].
  destruct (Hcap eq_refl ltac:(cbn; lia)) as [Hlen Hcol].
  split; [exact Heq|]. split; [exact Hlen|]. apply Hcol. cbn. lia.
Defined.

Lemma handle_length (scenarios : list Scenario.t) (ev : ScenarioEvent) :
  (1 <= length scenarios <= 5)%nat ->
  offered scenarios ev = true ->
  (1 <= length (handle scenarios ev) <= 5)%nat.
Proof.
  intros Hlen Hoff. destruct ev as [|idx|idx set]; cbn [handle offered] in *.
  - unfold addScenario. destruct (5 <=? length scenarios)%nat; [exact Hlen|].
    apply Nat.ltb_lt in Hoff. rewrite length_app. cbn. lia.
  - apply andb_true_iff in Hoff as [H1 H2].
    apply Nat.ltb_lt in H1. apply Nat.ltb_lt in H2.
    rewrite removeScenario_eq.
    rewrite length_app, length_take, length_drop. lia.
  - unfold updateAt. now rewrite length_imap.
Qed.

(** Whatever the user clicks in the scenario editor, starting from one to
    five scenarios, there are always between one and five scenarios: the
    remove button is not offered on the last one, the add button not at
    five.  The first scenario therefore always exists and its projection
    has a month 12, so the KPI cards always read real figures. *)
Theorem scenario_count_between_1_and_5 (evs : list ScenarioEvent)
  (scenarios : list Scenario.t) :
  (1 <= length scenarios <= 5)%nat ->
  (1 <= length (play evs scenarios) <= 5)%nat
  /\ forall (tiers : list Tier.t) (bulkProducts : list Bulk.t)
            (retailProducts : list Retail.t),
       exists (s : Scenario.t),
         play evs scenarios !! 0%nat = Some s
         /\ p12 (allProjections (play evs scenarios) tiers bulkProducts
                                retailProducts)
            = Some (reportAt s tiers bulkProducts retailProducts 12).
Proof.
  intros Hlen.
  assert (1 <= length (play evs scenarios) <= 5)%nat as Hplay.
  { revert scenarios Hlen. unfold play.
    induction evs as [|ev evs IH]; intros scenarios Hlen; cbn [fold_left];
      [exact Hlen|].
    apply IH. destruct (offered scenarios ev) eqn:E; [|exact Hlen].
    now apply handle_length. }
  split; [exact Hplay|]. intros tiers bulkProducts retailProducts.
  destruct (play evs scenarios) as [|s rest] eqn:E; [cbn in Hplay; lia|].
  exists s. split; [reflexivity|].
  unfold p12, primary, allProjections. cbn [List.map lookup list_lookup fmap
    option_fmap option_map snd mbind option_bind].
  apply (projectScenario_lookup _ _ _ _ 12). lia.
Qed.

Lemma scenario_count_between_1_and_5_witness :
  (1 <= length (play [ClickRemove 0; ClickRemove 0; ClickRemove 0; ClickAdd]
                     DEFAULT_SCENARIOS) <= 5)%nat.
Proof.
  apply (scenario_count_between_1_and_5
           [ClickRemove 0; ClickRemove 0; ClickRemove 0; ClickAdd]
           DEFAULT_SCENARIOS).
  cbn. lia.
Defined.

(** ** The product checkboxes *)

Lemma filter_neq_In (values : list string) (id x : string) :
  In x (List.filter (fun v => negb (String.eqb v id)) values)
  <-> In x values /\ x <> id.
Proof.
  rewrite filter_In, negb_true_iff, String.eqb_neq. reflexivity.
Qed.

Lemma NoDup_filter_list {A} (f : A -> bool) (l : list A) :
  List.NoDup l -> List.NoDup (List.filter f l).
Proof.
  induction 1 as [|x l Hx Hl IH]; cbn [List.filter]; [constructor|].
  destruct (f x); [|exact IH].
  constructor; [|exact IH]. rewrite filter_In. tauto.
Qed.

(** The three outcomes of a click. *)
Lemma click_cases (values : list string) (id : string) :
  (In id values /\ (1 < length values)%nat
   /\ CheckboxGroup.click values id
      = List.filter (fun v => negb (String.eqb v id)) values)
  \/ (In id values /\ (length values <= 1)%nat
      /\ CheckboxGroup.click values id = values)
  \/ (~ In id values /\ CheckboxGroup.click values id = values ++ [id]).
Proof.
  unfold CheckboxGroup.click, CheckboxGroup.toggle.
  destruct (includes values id) eqn:Hinc.
  - apply includes_true in Hinc.
    destruct (1 <? length values)%nat eqn:Hlen; cbn [default].
    + left. apply Nat.ltb_lt in Hlen. repeat split; assumption.
    + right. left. apply Nat.ltb_ge in Hlen. repeat split; assumption.
  - apply includes_false in Hinc. right. right. split; [exact Hinc|reflexivity].
Qed.

Lemma click_In (values : list string) (id x : string) :
  x <> id -> (In x (CheckboxGroup.click values id) <-> In x values).
Proof.
  intros Hx.
  destruct (click_cases values id) as [(_ & _ & ->)|[(_ & _ & ->)|(_ & ->)]].
  - rewrite filter_neq_In. tauto.
  - reflexivity.
  - rewrite in_app_iff. cbn. intuition congruence.
Qed.

Lemma click_valid (values : list string) (id : string) :
  List.NoDup values -> values <> [] ->
  List.NoDup (CheckboxGroup.click values id) /\ CheckboxGroup.click values id <> [].
Proof.
  intros Hnd Hne.
  destruct (click_cases values id) as [(Hin & Hlen & ->)|[(_ & _ & ->)|(Hnot & ->)]].
  - split; [now apply NoDup_filter_list|]. intros Hnil.
    destruct values as [|a [|b rest]]; cbn in Hlen; try lia.
    assert (a <> b) as Hab.
    { intros ->. inversion Hnd as [|? ? Hnotin _]. apply Hnotin. now left. }
    assert (In a (List.filter (fun v => negb (String.eqb v id)) (a :: b :: rest))
            \/ In b (List.filter (fun v => negb (String.eqb v id))
                                 (a :: b :: rest))) as Hor.
    { destruct (String.eqb_spec a id) as [->|Ha].
      - right. apply filter_neq_In. split; [right; now left | congruence].
      - left. apply filter_neq_In. split; [now left | exact Ha]. }
    rewrite Hnil in Hor. destruct Hor as [[]|[]].
  - split; assumption.
  - split; [|destruct values; discriminate].
    apply List.NoDup_app; [exact Hnd | repeat constructor; intros [] |].
    intros x Hx [->|[]]. contradiction.
Qed.

(** A click on a checkbox keeps the selection well formed: from a
    selection without repetition that is not empty it yields one without
    repetition that is not empty.  The clicked id changes sides, except
    that the last selected product cannot be unchecked; every other id
    stays as it was. *)
Theorem toggle_keeps_selection (values : list string) (id : string) :
  List.NoDup values -> values <> [] ->
  let values' := CheckboxGroup.click values id in
  List.NoDup values' /\ values' <> []
  /\ (forall x, x <> id -> (In x values' <-> In x values))
  /\ (values = [id] -> values' = [id])
  /\ (values <> [id] -> (In id values' <-> ~ In id values)).
Proof.
  intros Hnd Hne. cbv zeta.
  destruct (click_valid values id Hnd Hne) as [Hnd' Hne'].
  split; [exact Hnd'|]. split; [exact Hne'|].
  split; [intros x Hx; now apply click_In|].
  destruct (click_cases values id) as [(Hin & Hlen & E)|[(Hin & Hlen & E)|(Hnot & E)]];
    rewrite E.
  - split; [intros ->; cbn in Hlen; lia|].
    intros _. rewrite filter_neq_In. tauto.
  - assert (values = [id]) as ->.
    { destruct values as [|a [|b rest]]; cbn in Hlen; try lia; [contradiction|].
      destruct Hin as [->|[]]. reflexivity. }
    split; [reflexivity | congruence].
  - split; [intros ->; exfalso; apply Hnot; now left|].
    intros _. rewrite in_app_iff. cbn. tauto.
Qed.

Lemma toggle_keeps_selection_witness :
  CheckboxGroup.click ["ev5"; "dk5"] "ev5" <> []
  /\ CheckboxGroup.click ["ev1"] "ev1" = ["ev1"].
Proof.
  assert (List.NoDup ["ev5"; "dk5"]) as H1.
  { constructor; [intros [E|[]]; discriminate E|].
    constructor; [intros []|constructor]. }
  assert (List.NoDup ["ev1"]) as H2 by (constructor; [intros []|constructor]).
  destruct (toggle_keeps_selection ["ev5"; "dk5"] "ev5" H1 ltac:(discriminate))
    as (_ & H & _).
  destruct (toggle_keeps_selection ["ev1"] "ev1" H2 ltac:(discriminate))
    as (_ & _ & _ & H' & _).
  split; [exact H | now apply H'].
Defined.

(** Clicking the same checkbox twice brings the selection back: onto a
    selection that is not empty the second click restores the members of
    before the first, and restores the very array when the id was not
    selected to begin with. *)
Theorem toggle_twice (values : list string) (id : string) :
  values <> [] ->
  let twice := CheckboxGroup.click (CheckboxGroup.click values id) id in
  (forall x, In x twice <-> In x values)
  /\ (~ In id values -> twice = values).
Proof.
  intros Hne. cbv zeta.
  destruct (click_cases values id) as [(Hin & Hlen & E)|[(Hin & Hlen & E)|(Hnot & E)]];
    rewrite E.
  - split; [|contradiction].
    destruct (click_cases (List.filter (fun v => negb (String.eqb v id)) values) id)
      as [(Hin' & _)|[(Hin' & _)|(_ & ->)]];
      try (apply filter_neq_In in Hin'; tauto).
    intros x. rewrite in_app_iff, filter_neq_In. cbn.
    destruct (String.eqb_spec x id) as [->|Hx]; [tauto | intuition congruence].
  - rewrite E. split; [reflexivity | contradiction].
  - assert (CheckboxGroup.click (values ++ [id]) id = values) as ->;
      [|split; [reflexivity | reflexivity]].
    destruct (click_cases (values ++ [id]) id)
      as [(_ & _ & ->)|[(_ & Hlen & _)|(Hnot' & _)]].
    + rewrite List.filter_app. cbn [List.filter].
      rewrite String.eqb_refl. cbn [negb]. rewrite app_nil_r.
      apply forallb_filter_id, forallb_forall. intros x Hx.
      apply negb_true_iff, String.eqb_neq. congruence.
    + rewrite length_app in Hlen. cbn in Hlen.
      destruct values; [contradiction | cbn in Hlen; lia].
    + exfalso. apply Hnot', in_app_iff. right. now left.
Qed.

Lemma toggle_twice_witness :
  CheckboxGroup.click (CheckboxGroup.click ["ev5"] "dk5") "dk5" = ["ev5"].
Proof.
  destruct (toggle_twice ["ev5"] "dk5" ltac:(discriminate)) as [_ H].
  apply H. intros [E|[]]. discriminate E.
Defined.

(** A tier edited through the checkboxes always resolves a bulk product:
    a selection without repetition that is not empty and names only
    products of the catalog stays so under a click on any product of the
    catalog, and for such a selection the tier's resolved bulk products
    are not empty, so its servings are divided among them rather than
    dropped. *)
Theorem checkbox_selection_resolves (id label : string) (values : list string)
  (drinksPerDay tspPerDrink daysPerMonth retailUnitsPerMonth : Q)
  (retailIds : option (list string)) (bulkProducts : list Bulk.t) (clicked : Bulk.t) :
  List.NoDup values -> values <> [] ->
  (forall v, In v values -> In v (List.map Bulk.id bulkProducts)) ->
  In clicked bulkProducts ->
  let values' := CheckboxGroup.click values (Bulk.id clicked) in
  let tier := Tier.mk id label (Some values') drinksPerDay tspPerDrink
                      daysPerMonth retailIds retailUnitsPerMonth in
  List.NoDup values' /\ values' <> []
  /\ (forall v, In v values' -> In v (List.map Bulk.id bulkProducts))
  /\ selectBulk tier bulkProducts <> []
  /\ servingsShare tier (selectBulk tier bulkProducts)
     = totalServings tier / len (selectBulk tier bulkProducts).
Proof.
  intros Hnd Hne Hsub Hclicked. cbv zeta.
  destruct (click_valid values (Bulk.id clicked) Hnd Hne) as [Hnd' Hne'].
  set (values' := CheckboxGroup.click values (Bulk.id clicked)) in *.
  assert (forall v, In v values' -> In v (List.map Bulk.id bulkProducts)) as Hsub'.
  { intros v Hv. destruct (String.eqb_spec v (Bulk.id clicked)) as [->|Hneq].
    - now apply in_map.
    - apply Hsub. now apply (click_In values (Bulk.id clicked) v Hneq). }
  split; [exact Hnd'|]. split; [exact Hne'|]. split; [exact Hsub'|].
  assert (selectBulk
            (Tier.mk id label (Some values') drinksPerDay tspPerDrink daysPerMonth
                     retailIds retailUnitsPerMonth) bulkProducts <> []) as Hsel.
  { clearbody values'. destruct values' as [|v rest]; [contradiction|].
    pose proof (Hsub' v (or_introl eq_refl)) as Hv.
    apply in_map_iff in Hv as (p & Hp & Hin).
    intros Hnil. unfold selectBulk in Hnil.
    pose proof (proj1 (filter_nil_iff _ _) Hnil p Hin) as Hfalse.
    cbn [Tier.bulkProductIds orEmpty] in Hfalse.
    apply includes_false in Hfalse. apply Hfalse. left. now symmetry. }
  split; [exact Hsel|].
  unfold servingsShare.
  destruct (selectBulk _ bulkProducts) as [|p sel]; [contradiction|reflexivity].
Qed.

Lemma checkbox_selection_resolves_witness :
  selectBulk (Tier.mk "small" "Small Cafe"
                      (Some (CheckboxGroup.click ["ev1"] "dk10")) 10 1 30
                      (Some ["evp"]) 10)
             DEFAULT_BULK_PRODUCTS
  <> [].
Proof.
  assert (List.NoDup ["ev1"]) as Hnd by (constructor; [intros []|constructor]).
  destruct (checkbox_selection_resolves "small" "Small Cafe" ["ev1"] 10 1 30 10
              (Some ["evp"]) DEFAULT_BULK_PRODUCTS
              (Bulk.mk "dk10" "Dusk Cafe Bag 10lb" 10 214 195 100) Hnd
              ltac:(discriminate))
    as (_ & _ & _ & H & _).
  - intros v [<-|[]]. cbn. now left.
  - cbn. tauto.
  - exact H.
Defined.

(** ** The partner count of the KPI card *)




(** ** The chart pivot *)

Lemma list_ascii_app (s1 s2 : string) :
  String.list_ascii_of_string (s1 +:+ s2)
  = String.list_ascii_of_string s1 ++ String.list_ascii_of_string s2.
Proof.
  induction s1 as [|c s1 IH]; [reflexivity|].
  change (String.list_ascii_of_string (String c s1 +:+ s2))
    with (c :: String.list_ascii_of_string (s1 +:+ s2)).
  rewrite IH. reflexivity.
Qed.

Lemma rev_key (name suffix : string) :
  rev (String.list_ascii_of_string (name +:+ suffix))
  = rev (String.list_ascii_of_string suffix) ++ rev (String.list_ascii_of_string name).
Proof. now rewrite list_ascii_app, rev_app_distr. Qed.

Lemma list_ascii_inj (s1 s2 : string) :
  rev (String.list_ascii_of_string s1) = rev (String.list_ascii_of_string s2) -> s1 = s2.
Proof.
  intros H. apply (f_equal (@rev _)) in H. rewrite !rev_involutive in H.
  apply (f_equal String.string_of_list_ascii) in H.
  now rewrite !String.string_of_list_ascii_of_string in H.
Qed.

(** A key tells its scenario and its series apart: no two of the five
    suffixes end alike. *)
Lemma chartKey_inj (name name' : string) (mt mt' : Metric) :
  name +:+ suffixOf mt = name' +:+ suffixOf mt' -> name = name' /\ mt = mt'.
Proof.
  intros H. apply (f_equal (fun s => rev (String.list_ascii_of_string s))) in H.
  rewrite !rev_key in H.
  destruct mt, mt'; cbn [suffixOf] in H;
    first [ apply app_inv_head in H; apply list_ascii_inj in H;
            split; [exact H | reflexivity]
          | cbn in H; discriminate H ].
Qed.

Lemma chartKey_not_fixed (name : string) (mt : Metric) :
  name +:+ suffixOf mt <> "month" /\ name +:+ suffixOf mt <> "label".
Proof.
  split; intros H;
    apply (f_equal (fun s => rev (String.list_ascii_of_string s))) in H;
    rewrite rev_key in H; destruct mt; cbn in H; discriminate H.
Qed.

Lemma addSeries_Some (i : nat) (point : gmap string JsValue) (s : Scenario.t)
  (data : list Month.t) (d : Month.t) :
  data !! i = Some d ->
  exists point',
    addSeries i point (s, data) = Some point'
    /\ (forall mt, point' !! (Scenario.name s +:+ suffixOf mt)
                   = Some (Num (valueOf mt d)))
    /\ (forall k, (forall mt, k <> Scenario.name s +:+ suffixOf mt) ->
                  point' !! k = point !! k).
Proof.
  intros Hd. unfold addSeries. cbn [fst snd]. rewrite Hd. cbn [mbind option_bind].
  eexists. split; [reflexivity|]. split.
  - intros mt.
    assert (forall mt', mt' <> mt ->
              Scenario.name s +:+ suffixOf mt' <> Scenario.name s +:+ suffixOf mt)
      as Hne by (intros mt' Hm E; apply chartKey_inj in E as [_ E]; contradiction).
    destruct mt; cbn [suffixOf valueOf];
      repeat first
        [ apply lookup_insert_eq
        | rewrite lookup_insert_ne
            by (first [ apply (Hne Rev) | apply (Hne Profit) | apply (Hne Partners)
                      | apply (Hne Margin) | apply (Hne CumRev) ]; discriminate) ].
  - intros k Hk.
    rewrite !lookup_insert_ne;
      [reflexivity | intros E; symmetry in E; revert E ..];
      [apply (Hk Rev) | apply (Hk Profit) | apply (Hk Partners)
       | apply (Hk Margin) | apply (Hk CumRev)].
Qed.

Lemma foldM_addSeries (i : nat) (ps : list (Scenario.t * list Month.t))
  (point : gmap string JsValue) :
  (forall p, In p ps -> is_Some (p.2 !! i)) ->
  exists point',
    Checked.foldM (addSeries i) ps point = Some point'
    /\ (forall k, (forall p mt, In p ps -> k <> Scenario.name p.1 +:+ suffixOf mt) ->
                  point' !! k = point !! k)
    /\ (forall (j : nat) (s : Scenario.t) (data : list Month.t) (d : Month.t)
               (mt : Metric),
          ps !! j = Some (s, data) -> data !! i = Some d ->
          (forall (j' : nat) (s' : Scenario.t) (data' : list Month.t),
              (j < j')%nat -> ps !! j' = Some (s', data') ->
              Scenario.name s' <> Scenario.name s) ->
          point' !! (Scenario.name s +:+ suffixOf mt) = Some (Num (valueOf mt d))).
Proof.
  revert point. induction ps as [|[s0 data0] ps IH]; intros point Hall;
    cbn [Checked.foldM].
  - exists point. split; [reflexivity|]. split; [reflexivity|].
    intros j s data d mt Hj. discriminate Hj.
  - destruct (Hall (s0, data0) (or_introl eq_refl)) as [d0 Hd0]. cbn [snd] in Hd0.
    destruct (addSeries_Some i point s0 data0 d0 Hd0) as (p1 & -> & Hsame & Hother).
    cbn [mbind option_bind].
    destruct (IH p1 (fun p Hp => Hall p (or_intror Hp))) as (p2 & -> & Hkeep & Hlook).
    exists p2. split; [reflexivity|]. split.
    + intros k Hk. rewrite Hkeep by (intros p mt Hp; apply Hk; now right).
      apply Hother. intros mt. apply (Hk (s0, data0) mt). now left.
    + intros j s data d mt Hj Hd Hlater. destruct j as [|j].
      * cbn in Hj. injection Hj as <- <-.
        rewrite Hkeep.
        -- rewrite Hd0 in Hd. injection Hd as <-. apply Hsame.
        -- intros [s' data'] mt' Hp E. cbn [fst] in E.
           apply chartKey_inj in E as [E _].
           apply list_elem_of_In, list_elem_of_lookup in Hp as [j' Hj'].
           apply (Hlater (S j') s' data'); [lia | exact Hj' | now symmetry].
      * apply (Hlook j s data d mt Hj Hd). intros j' s' data' Hlt Hj'.
        apply (Hlater (S j') s' data'); [lia | exact Hj'].
Qed.

(** The chart data is always built, twelve points of it: no point reads a
    month that a projection lacks.  Point [i] holds the month number
    [i + 1] and its label, and for each scenario whose name no later
    scenario repeats, under the scenario's name followed by [_rev],
    [_profit], [_partners], [_margin] or [_cumRev], the corresponding
    figure of that scenario's month [i + 1]. *)
Theorem chartData_lookup (scenarios : list Scenario.t) (tiers : list Tier.t)
  (bulkProducts : list Bulk.t) (retailProducts : list Retail.t) :
  exists points : list (gmap string JsValue),
    chartData (allProjections scenarios tiers bulkProducts retailProducts)
    = Some points
    /\ length points = 12%nat
    /\ forall (i : nat) (point : gmap string JsValue),
         points !! i = Some point ->
         point !! "month" = Some (Num (inject_Z (Z.of_nat (i + 1))))
         /\ point !! "label" = Some (Str (monthLabel (i + 1)))
         /\ forall (j : nat) (s : Scenario.t) (mt : Metric),
              scenarios !! j = Some s ->
              (forall (j' : nat) (s' : Scenario.t),
                  (j < j')%nat -> scenarios !! j' = Some s' ->
                  Scenario.name s' <> Scenario.name s) ->
              point !! (Scenario.name s +:+ suffixOf mt)
              = Some (Num (valueOf mt (reportAt s tiers bulkProducts retailProducts
                                                (i + 1)))).
Proof.
  set (ps := allProjections scenarios tiers bulkProducts retailProducts).
  assert (forall j s data, ps !! j = Some (s, data) ->
            scenarios !! j = Some s
            /\ data = projectScenario s tiers bulkProducts retailProducts) as Hps.
  { intros j s data Hj. unfold ps, allProjections in Hj.
    change (List.map ?f ?l) with (f <$> l) in Hj.
    rewrite list_lookup_fmap in Hj.
    destruct (scenarios !! j) as [s0|]; [|discriminate].
    cbn [fmap option_fmap option_map] in Hj. injection Hj as <- <-.
    split; reflexivity. }
  assert (forall i, (i < 12)%nat ->
            exists point,
              chartPoint ps i = Some point
              /\ point !! "month" = Some (Num (inject_Z (Z.of_nat (i + 1))))
              /\ point !! "label" = Some (Str (monthLabel (i + 1)))
              /\ forall (j : nat) (s : Scenario.t) (mt : Metric),
                   scenarios !! j = Some s ->
                   (forall (j' : nat) (s' : Scenario.t),
                       (j < j')%nat -> scenarios !! j' = Some s' ->
                       Scenario.name s' <> Scenario.name s) ->
                   point !! (Scenario.name s +:+ suffixOf mt)
                   = Some (Num (valueOf mt (reportAt s tiers bulkProducts
                                                     retailProducts (i + 1)))))
    as Hpoint.
  { intros i Hi. unfold chartPoint.
    assert (forall s, projectScenario s tiers bulkProducts retailProducts !! i
                      = Some (reportAt s tiers bulkProducts retailProducts (i + 1)))
      as Hmonth.
    { intros s.
      pose proof (projectScenario_lookup s tiers bulkProducts retailProducts (i + 1)
                    ltac:(lia)) as H.
      now replace (i + 1 - 1)%nat with i in H by lia. }
    destruct (foldM_addSeries i ps
                (<["label" := Str (monthLabel (i + 1))]>
                   (<["month" := Num (inject_Z (Z.of_nat (i + 1)))]> ∅)))
      as (point & Hfold & Hkeep & Hlook).
    { intros [s data] Hp.
      apply list_elem_of_In, list_elem_of_lookup in Hp as [j Hj].
      destruct (Hps j s data Hj) as [_ ->]. cbn [snd]. rewrite Hmonth. eauto. }
    exists point. split; [exact Hfold|]. split; [|split].
    - rewrite Hkeep by (intros p mt _ E; symmetry in E;
                        now apply chartKey_not_fixed in E).
      rewrite lookup_insert_ne by discriminate. apply lookup_insert_eq.
    - rewrite Hkeep by (intros p mt _ E; symmetry in E;
                        now apply chartKey_not_fixed in E).
      apply lookup_insert_eq.
    - intros j s mt Hj Hlater.
      apply (Hlook j s (projectScenario s tiers bulkProducts retailProducts)).
      + unfold ps, allProjections. change (List.map ?f ?l) with (f <$> l).
        rewrite list_lookup_fmap, Hj. reflexivity.
      + apply Hmonth.
      + intros j' s' data' Hlt Hj'. destruct (Hps j' s' data' Hj') as [Hs' _].
        now apply (Hlater j' s'). }
  unfold chartData. fold ps.
  destruct (mapM (chartPoint ps) (seq 0 12)) as [points|] eqn:E.
  - exists points. split; [reflexivity|].
    apply mapM_Some in E.
    split; [apply Forall2_length in E; now rewrite length_seq in E|].
    intros i point Hi.
    destruct (Forall2_lookup_r _ _ _ _ _ E Hi) as (i' & Hi' & Hpt).
    apply lookup_seq in Hi' as [-> Hlt]. cbn [Nat.add] in Hpt.
    destruct (Hpoint i Hlt) as (point' & Hpt' & Hrest).
    rewrite Hpt in Hpt'. injection Hpt' as <-. exact Hrest.
  - exfalso. apply mapM_None in E. apply Exists_exists in E as (i & Hi & Hnone).
    apply list_elem_of_In, in_seq in Hi.
    destruct (Hpoint i ltac:(lia)) as (point & Hpt & _). congruence.
Qed.

Lemma chartData_lookup_witness :
  exists (points : list (gmap string JsValue)) (point : gmap string JsValue),
    chartData (allProjections DEFAULT_SCENARIOS DEFAULT_TIERS DEFAULT_BULK_PRODUCTS
                              DEFAULT_RETAIL_PRODUCTS) = Some points
    /\ points !! 0%nat = Some point
    /\ point !! ("Base Case" +:+ "_rev")
       = Some (Num (Month.totalRevenue
                      (reportAt BaseCase DEFAULT_TIERS DEFAULT_BULK_PRODUCTS
                                DEFAULT_RETAIL_PRODUCTS 1))).
Proof.
  destruct (chartData_lookup DEFAULT_SCENARIOS DEFAULT_TIERS DEFAULT_BULK_PRODUCTS
              DEFAULT_RETAIL_PRODUCTS) as (points & E & Hlen & H).
  destruct (lookup_lt_is_Some_2 points 0 ltac:(lia)) as [point Hpt].
  exists points, point. split; [exact E|]. split; [exact Hpt|].
  destruct (H 0%nat point Hpt) as (_ & _ & Hseries).
  apply (Hseries 0%nat BaseCase Rev); [reflexivity|].
  intros j' s' Hlt Hj'.
  destruct j' as [|[|[|j']]]; [lia | | | discriminate Hj'];
    injection Hj' as <-; discriminate.
Defined.

(** * Properties on binary64 numbers

    The claims about the value of a number, on the engine of [Double]. *)

(** ** Rounding to the nearest double *)

Lemma pow2_pos (k : Z) : 0 < 2 ^ k.
Proof. apply Qpower_0_lt. reflexivity. Qed.

Lemma pow2_le (a b : Z) : (a <= b)%Z -> 2 ^ a <= 2 ^ b.
Proof. intros H. apply Qpower_le_compat_l; [exact H | discriminate]. Qed.

Lemma pow2_lt (a b : Z) : (a < b)%Z -> 2 ^ a < 2 ^ b.
Proof. intros H. apply Qpower_lt_compat_l; [exact H | reflexivity]. Qed.

Lemma pow2_plus (a b : Z) : 2 ^ (a + b) == 2 ^ a * 2 ^ b.
Proof. apply Qpower_plus. discriminate. Qed.

Lemma pow2_succ (a : Z) : 2 ^ (a + 1) == 2 * 2 ^ a.
Proof. rewrite pow2_plus. change (2 ^ 1) with 2. ring. Qed.

Lemma pow2_Z (k : Z) : (0 <= k)%Z -> 2 ^ k == inject_Z (2 ^ k).
Proof. intros H. rewrite Zpower_Qpower by exact H. reflexivity. Qed.

Lemma pow2_le_inv (a b : Z) : 2 ^ a < 2 ^ (b + 1) -> (a <= b)%Z.
Proof.
  intros H. apply Qpower_lt_compat_l_inv in H; [lia | reflexivity].
Qed.

(** [Double.ilog2 q] is the integer part of the binary logarithm of [q]. *)
Lemma ilog2_spec (q : Q) : 0 < q -> 2 ^ Double.ilog2 q <= q /\ q < 2 ^ (Double.ilog2 q + 1).
Proof.
  intros Hq. unfold Double.ilog2.
  destruct q as [n d].
  assert (0 < n)%Z as Hn by (unfold Qlt in Hq; cbn in Hq; lia).
  cbn [Qnum Qden].
  set (a := Z.log2 n). set (b := Z.log2 (Z.pos d)).
  destruct (Z.log2_spec n Hn) as [Ha1 Ha2].
  destruct (Z.log2_spec (Z.pos d) ltac:(lia)) as [Hb1 Hb2].
  fold a in Ha1, Ha2. fold b in Hb1, Hb2.
  assert (0 <= a)%Z as Ha0 by apply Z.log2_nonneg.
  assert (0 <= b)%Z as Hb0 by apply Z.log2_nonneg.
  rewrite Zle_Qle, <- pow2_Z in Ha1, Hb1 by lia.
  rewrite Zlt_Qlt, <- pow2_Z in Ha2, Hb2 by lia.
  unfold Z.succ in Ha2, Hb2. rewrite pow2_succ in Ha2, Hb2.
  assert (2 ^ a == 2 ^ (a - b) * 2 ^ b) as Hk.
  { rewrite <- pow2_plus. replace (a - b + b)%Z with a by lia. reflexivity. }
  assert ((n # d) * inject_Z (Z.pos d) == inject_Z n) as Hnd.
  { unfold Qeq, Qmult, inject_Z. cbn. lia. }
  pose proof (pow2_pos (a - b)) as HK. pose proof (pow2_pos a) as HA.
  pose proof (pow2_pos b) as HB.
  set (A := 2 ^ a) in *. set (B := 2 ^ b) in *. set (K := 2 ^ (a - b)) in *.
  set (N := inject_Z n) in *. set (D := inject_Z (Z.pos d)) in *.
  set (x := n # d) in *.
  assert (x < 2 * K) as Hup.
  { apply Qnot_le_lt. intros Hge.
    assert (2 * K * B <= x * D) as H1.
    { apply Qle_trans with (x * B).
      - apply Qmult_le_compat_r; lra.
      - rewrite (Qmult_comm x B), (Qmult_comm x D).
        apply Qmult_le_compat_r; lra. }
    rewrite Hnd in H1. rewrite <- Qmult_assoc, <- Hk in H1. lra. }
  assert (K < 2 * x) as Hlow.
  { apply Qnot_le_lt. intros Hge.
    assert (2 * x * D <= K * D) as H1 by (apply Qmult_le_compat_r; lra).
    assert (K * D < K * (2 * B)) as H2 by (apply Qmult_lt_l; lra).
    rewrite <- Qmult_assoc, Hnd in H1.
    assert (K * (2 * B) == 2 * A) as E by (rewrite Hk; ring).
    rewrite E in H2. lra. }
  destruct (Qle_bool K x) eqn:E.
  - apply Qle_bool_iff in E. fold K. split; [exact E|].
    rewrite pow2_succ. fold K. exact Hup.
  - assert (x < K) as Hlt.
    { apply Qnot_le_lt. intros H. apply Qle_bool_iff in H. congruence. }
    assert (2 ^ (a - b) == 2 * 2 ^ (a - b - 1)) as E2.
    { rewrite <- pow2_succ. replace (a - b - 1 + 1)%Z with (a - b)%Z by lia.
      reflexivity. }
    replace (a - b - 1 + 1)%Z with (a - b)%Z by lia. fold K.
    split; [|exact Hlt]. fold K in E2. lra.
Qed.

Lemma ilog2_le (q : Q) (k : Z) : 0 < q -> q < 2 ^ (k + 1) -> (Double.ilog2 q <= k)%Z.
Proof.
  intros Hq Hk. destruct (ilog2_spec q Hq) as [H1 _].
  apply pow2_le_inv. lra.
Qed.

(** Rounding to the nearest integer, ties to even, is within one half. *)
Lemma Double_nearestEven_bounds (r : Q) :
  r - (1 # 2) <= inject_Z (Double.nearestEven r) <= r + (1 # 2).
Proof.
  unfold Double.nearestEven.
  pose proof (Qfloor_le r) as Hle. pose proof (Qlt_floor r) as Hlt.
  rewrite inject_Z_plus in Hlt. change (inject_Z 1) with 1 in Hlt.
  set (f := Qfloor r) in *.
  destruct (Qcompare (r - inject_Z f) (1 # 2)) eqn:E.
  - apply Qeq_alt in E.
    destruct (Z.even f); [|rewrite inject_Z_plus; change (inject_Z 1) with 1]; lra.
  - apply Qlt_alt in E. lra.
  - apply Qgt_alt in E. rewrite inject_Z_plus. change (inject_Z 1) with 1. lra.
Qed.

Lemma Double_nearestEven_Z (r : Q) (z : Z) : r == inject_Z z -> Double.nearestEven r = z.
Proof.
  intros Hr. unfold Double.nearestEven.
  rewrite (Qfloor_comp _ _ Hr), Qfloor_Z.
  assert (Qcompare (r - inject_Z z) (1 # 2) = Lt) as ->; [|reflexivity].
  apply Qlt_alt. rewrite Hr. unfold Qminus. rewrite Qplus_opp_r. reflexivity.
Qed.

Lemma Qred_inject_Z (z : Z) : Qred (inject_Z z) = inject_Z z.
Proof.
  unfold Qred, inject_Z.
  pose proof (Z.ggcd_gcd z 1) as Hg.
  pose proof (Z.ggcd_correct_divisors z 1) as Hd.
  destruct (Z.ggcd z 1) as [g [aa bb]]. cbn [fst snd] in *.
  rewrite Z.gcd_1_r in Hg. subst g. destruct Hd as [Ha Hb].
  replace aa with z by lia. replace bb with 1%Z by lia. reflexivity.
Qed.

Lemma Qeq_bool_false (q : Q) : Qeq_bool q 0 = false -> 0 < Qabs q.
Proof.
  intros E. pose proof (Qabs_nonneg q) as H0.
  destruct (Qeq_dec (Qabs q) 0) as [Hz | Hz]; [|lra].
  exfalso. assert (q == 0) as Hq.
  { pose proof (Qle_Qabs q) as H1. pose proof (Qle_Qabs (- q)) as H2.
    rewrite Qabs_opp in H2. lra. }
  apply Qeq_bool_iff in Hq. congruence.
Qed.

Lemma pow2_half (e : Z) : 2 ^ e == 2 * 2 ^ (e - 1).
Proof.
  rewrite <- pow2_succ. replace (e - 1 + 1)%Z with e by lia. reflexivity.
Qed.

(** The double nearest to [q], when [|q| <= 2^k] is in the range of the
    normal numbers, is finite and within [2^(k-53)] of [q]. *)
Lemma Double_round_error (q : Q) (k : Z) :
  Qabs q <= 2 ^ k -> (-1022 <= k <= 1023)%Z ->
  exists r, Double.round q = Double.Fin r /\ Qabs (r - q) <= 2 ^ (k - 53).
Proof.
  intros Hq Hk. unfold Double.round.
  destruct (Qeq_bool q 0) eqn:E0.
  - exists 0. split; [reflexivity|].
    apply Qeq_bool_iff in E0. rewrite E0.
    pose proof (pow2_pos (k - 53)). change (Qabs (0 - 0)) with 0. lra.
  - apply Qeq_bool_false in E0.
    set (e := Z.max (Double.ilog2 (Qabs q) - 52) (-1074)).
    assert (e <= k - 52)%Z as He.
    { assert (Double.ilog2 (Qabs q) <= k)%Z.
      { apply ilog2_le; [exact E0|]. pose proof (pow2_lt k (k + 1) ltac:(lia)). lra. }
      lia. }
    pose proof (pow2_pos e) as HP.
    pose proof (Double_nearestEven_bounds (q / 2 ^ e)) as [Hn1 Hn2].
    set (n := inject_Z (Double.nearestEven (q / 2 ^ e))) in *.
    assert (q / 2 ^ e * 2 ^ e == q) as Hx by (field; lra).
    set (x := q / 2 ^ e) in *. set (P := 2 ^ e) in *.
    assert (n * P <= (x + (1 # 2)) * P) as H1 by (apply Qmult_le_compat_r; lra).
    assert ((x - (1 # 2)) * P <= n * P) as H2 by (apply Qmult_le_compat_r; lra).
    assert (P <= 2 * 2 ^ (k - 53)) as HPk.
    { unfold P. rewrite (pow2_half e).
      pose proof (pow2_le (e - 1) (k - 53) ltac:(lia)). lra. }
    assert (Qabs (n * P - q) <= 2 ^ (k - 53)) as Herr.
    { apply Qabs_Qle_condition. split; lra. }
    assert (Qabs (n * P) < 2 ^ 1024) as Hfin.
    { pose proof (Qabs_triangle (n * P - q) q) as Ht.
      assert (n * P - q + q == n * P) as E by ring. rewrite E in Ht.
      pose proof (pow2_le (k - 53) k ltac:(lia)).
      pose proof (pow2_succ k) as Hs.
      pose proof (pow2_le (k + 1) 1024 ltac:(lia)).
      pose proof (pow2_pos (k - 53)).
      assert (2 ^ (k - 53) < 2 ^ k) by (apply pow2_lt; lia).
      lra. }
    destruct (Qle_bool (2 ^ 1024) (Qabs (n * P))) eqn:Eo.
    { apply Qle_bool_iff in Eo. lra. }
    exists (Qred (n * P)). split; [reflexivity|].
    rewrite Qred_correct. exact Herr.
Qed.

(** A number [m * 2^j] with [|m| < 2^53] and [j >= -1074], short of
    [2^1024], is a double: rounding returns it. *)
Lemma Double_round_exact (q : Q) (m j : Z) :
  q == inject_Z m * 2 ^ j -> (Z.abs m < 2 ^ 53)%Z -> (-1074 <= j)%Z ->
  Qabs q < 2 ^ 1024 -> Double.round q = Double.Fin (Qred q).
Proof.
  intros Hq Hm Hj Hfin. unfold Double.round.
  destruct (Qeq_bool q 0) eqn:E0.
  - apply Qeq_bool_iff in E0. f_equal. symmetry.
    change 0 with (Qred 0). apply Qred_complete. exact E0.
  - apply Qeq_bool_false in E0.
    set (e := Z.max (Double.ilog2 (Qabs q) - 52) (-1074)).
    assert (e <= j)%Z as He.
    { assert (Double.ilog2 (Qabs q) <= 52 + j)%Z.
      { apply ilog2_le; [exact E0|].
        rewrite Hq, Qabs_Qmult.
        rewrite (Qabs_pos (2 ^ j)) by (pose proof (pow2_pos j); lra).
        replace (52 + j + 1)%Z with (53 + j)%Z by lia.
        rewrite pow2_plus.
        apply Qmult_lt_compat_r; [apply pow2_pos|].
        rewrite pow2_Z by lia.
        assert (Qabs (inject_Z m) == inject_Z (Z.abs m)) as ->.
        { unfold Qabs, inject_Z. reflexivity. }
        rewrite <- Zlt_Qlt. exact Hm. }
      lia. }
    pose proof (pow2_pos e) as HP.
    assert (q / 2 ^ e == inject_Z (m * 2 ^ (j - e))) as Hz.
    { rewrite inject_Z_mult, <- pow2_Z by lia.
      rewrite Hq. unfold Zminus. rewrite pow2_plus, Qpower_opp. field.
      lra. }
    rewrite (Double_nearestEven_Z _ _ Hz).
    assert (inject_Z (m * 2 ^ (j - e)) * 2 ^ e == q) as Hr.
    { rewrite <- Hz. field. lra. }
    destruct (Qle_bool (2 ^ 1024) (Qabs (inject_Z (m * 2 ^ (j - e)) * 2 ^ e))) eqn:Eo.
    { apply Qle_bool_iff in Eo. rewrite Hr in Eo. lra. }
    f_equal. apply Qred_complete. exact Hr.
Qed.

(** Every whole number up to [2^53] in magnitude is a double. *)
Lemma Double_round_Z (q : Q) (z : Z) :
  q == inject_Z z -> (Z.abs z <= 2 ^ 53)%Z -> Double.round q = Double.Fin (inject_Z z).
Proof.
  intros Hq Hz.
  assert (Qabs q < 2 ^ 1024) as Hfin.
  { rewrite Hq.
    assert (Qabs (inject_Z z) == inject_Z (Z.abs z)) as -> by reflexivity.
    rewrite (pow2_Z 1024) by lia. rewrite <- Zlt_Qlt.
    assert (2 ^ 53 < 2 ^ 1024)%Z by (apply Z.pow_lt_mono_r; lia). lia. }
  rewrite <- (Qred_inject_Z z), <- (Qred_complete _ _ Hq).
  destruct (Z.eq_dec (Z.abs z) (2 ^ 53)) as [E | E].
  - apply (Double_round_exact q (z / 2) 1); [| | lia | exact Hfin].
    + rewrite Hq. change (2 ^ 1) with (inject_Z 2). rewrite <- inject_Z_mult.
      apply inject_Z_injective.
      assert (z = 2 ^ 53 \/ z = - 2 ^ 53)%Z as [-> | ->] by lia; reflexivity.
    + assert (z = 2 ^ 53 \/ z = - 2 ^ 53)%Z as [-> | ->] by lia; reflexivity.
  - apply (Double_round_exact q z 0); [| lia | lia | exact Hfin].
    rewrite Hq. change (2 ^ 0) with 1. ring.
Qed.

(** What [round] returns is a binary64 number: a 53-bit significand times
    a power of two no smaller than [2^-1074], below [2^1024]. *)
Lemma Double_round_format (q r : Q) :
  Double.round q = Double.Fin r ->
  exists m j : Z,
    r == inject_Z m * 2 ^ j /\ (Z.abs m <= 2 ^ 53)%Z /\ (-1074 <= j)%Z
    /\ Qabs r < 2 ^ 1024.
Proof.
  unfold Double.round. destruct (Qeq_bool q 0) eqn:E0.
  - intros [= <-]. exists 0%Z, 0%Z. repeat split; try reflexivity; lia.
  - apply Qeq_bool_false in E0.
    set (e := Z.max (Double.ilog2 (Qabs q) - 52) (-1074)).
    set (n := Double.nearestEven (q / 2 ^ e)).
    destruct (Qle_bool (2 ^ 1024) (Qabs (inject_Z n * 2 ^ e))) eqn:Eo; [discriminate|].
    intros [= <-]. exists n, e.
    split; [apply Qred_correct|]. split; [|split; [lia|]].
    + pose proof (pow2_pos e) as HP.
      destruct (Double_nearestEven_bounds (q / 2 ^ e)) as [Hn1 Hn2]. fold n in Hn1, Hn2.
      destruct (ilog2_spec (Qabs q) E0) as [_ Hup].
      assert (Qabs q < 2 ^ 53 * 2 ^ e) as Hq.
      { rewrite <- pow2_plus.
        pose proof (pow2_le (Double.ilog2 (Qabs q) + 1) (53 + e) ltac:(lia)). lra. }
      assert (Qabs (q / 2 ^ e) < 2 ^ 53) as Hx.
      { unfold Qdiv. rewrite Qabs_Qmult, (Qabs_pos (/ 2 ^ e)).
        - apply Qlt_shift_div_r; [exact HP | exact Hq].
        - apply Qlt_le_weak, Qinv_lt_0_compat, HP. }
      apply Qabs_Qlt_condition in Hx as [Hx1 Hx2].
      change (2 ^ 53) with (inject_Z (2 ^ 53)) in Hx1, Hx2.
      set (x := q / 2 ^ e) in *. clearbody x.
      assert (inject_Z n < inject_Z (2 ^ 53 + 1)) as Ha
        by (rewrite inject_Z_plus; change (inject_Z 1) with 1; lra).
      assert (inject_Z 0 < inject_Z (n + 2 ^ 53 + 1)) as Hb.
      { rewrite !inject_Z_plus. change (inject_Z 1) with 1.
        change (inject_Z 0) with 0. lra. }
      rewrite <- Zlt_Qlt in Ha, Hb. lia.
    + rewrite Qred_correct. apply Qnot_le_lt. intros H.
      apply Qle_bool_iff in H. congruence.
Qed.

(** A binary64 number is left alone by [round]. *)
Lemma Double_round_idem (q r : Q) :
  Double.round q = Double.Fin r -> Double.round r = Double.Fin r.
Proof.
  intros Hr.
  assert (Qred r = r) as Hred.
  { revert Hr. unfold Double.round. destruct (Qeq_bool q 0); [intros [= <-]; reflexivity|].
    destruct (Qle_bool _ _); [discriminate|]. intros [= <-].
    apply Qred_complete, Qred_correct. }
  destruct (Double_round_format q r Hr) as (m & j & Hm & Hb & Hj & Hfin).
  rewrite <- Hred at 2.
  destruct (Z.eq_dec (Z.abs m) (2 ^ 53)) as [E | E].
  - apply (Double_round_exact r (m / 2) (j + 1)); [| | lia | exact Hfin].
    + rewrite Hm, pow2_succ.
      assert (inject_Z m == inject_Z (m / 2) * inject_Z 2) as ->.
      { rewrite <- inject_Z_mult. apply inject_Z_injective.
        assert (m = 2 ^ 53 \/ m = - 2 ^ 53)%Z as [-> | ->] by lia; reflexivity. }
      change (inject_Z 2) with 2. ring.
    + assert (m = 2 ^ 53 \/ m = - 2 ^ 53)%Z as [-> | ->] by lia; reflexivity.
  - apply (Double_round_exact r m j); [exact Hm | lia | exact Hj | exact Hfin].
Qed.

Lemma ilog2_comp (p q : Q) : 0 < p -> p == q -> Double.ilog2 p = Double.ilog2 q.
Proof.
  intros Hp Hpq.
  destruct (ilog2_spec p Hp) as [H1 H2].
  destruct (ilog2_spec q ltac:(lra)) as [H3 H4].
  assert (Double.ilog2 p <= Double.ilog2 q)%Z by (apply pow2_le_inv; lra).
  assert (Double.ilog2 q <= Double.ilog2 p)%Z by (apply pow2_le_inv; lra).
  lia.
Qed.

Lemma Double_nearestEven_comp (p q : Q) :
  p == q -> Double.nearestEven p = Double.nearestEven q.
Proof.
  intros Hpq. unfold Double.nearestEven.
  rewrite (Qfloor_comp _ _ Hpq).
  assert (Qcompare (p - inject_Z (Qfloor q)) (1 # 2)
          = Qcompare (q - inject_Z (Qfloor q)) (1 # 2)) as ->; [|reflexivity].
  apply Qcompare_comp; [rewrite Hpq|]; reflexivity.
Qed.

Lemma Double_negative_comp (p q : Q) : p == q -> Double.negative p = Double.negative q.
Proof.
  intros Hpq. unfold Double.negative.
  destruct p as [a b], q as [c d]. unfold Qeq in Hpq. cbn in *.
  destruct (Z.ltb_spec a 0), (Z.ltb_spec c 0); try reflexivity; nia.
Qed.

(** [round] depends on the value of the rational only. *)
Lemma Double_round_comp (p q : Q) : p == q -> Double.round p = Double.round q.
Proof.
  intros Hpq. unfold Double.round.
  assert (Qeq_bool p 0 = Qeq_bool q 0) as E.
  { destruct (Qeq_bool p 0) eqn:Ep, (Qeq_bool q 0) eqn:Eq; try reflexivity.
    - apply Qeq_bool_iff in Ep. apply Qeq_bool_neq in Eq. exfalso. apply Eq.
      rewrite <- Hpq. exact Ep.
    - apply Qeq_bool_iff in Eq. apply Qeq_bool_neq in Ep. exfalso. apply Ep.
      rewrite Hpq. exact Eq. }
  rewrite <- E. destruct (Qeq_bool p 0) eqn:Ep; [reflexivity|].
  apply Qeq_bool_false in Ep.
  assert (Qabs p == Qabs q) as Habs by (rewrite Hpq; reflexivity).
  rewrite <- (ilog2_comp (Qabs p) (Qabs q) Ep Habs).
  set (e := Z.max (Double.ilog2 (Qabs p) - 52) (-1074)).
  assert (p / 2 ^ e == q / 2 ^ e) as Hx by (rewrite Hpq; reflexivity).
  rewrite <- (Double_nearestEven_comp _ _ Hx).
  rewrite <- (Double_negative_comp _ _ Hpq). reflexivity.
Qed.

Lemma Double_isDouble_round (q : Q) : Double.isDouble (Double.round q).
Proof.
  unfold Double.isDouble. destruct (Double.round q) as [|s|r] eqn:E; try exact I.
  exact (Double_round_idem q r E).
Qed.

Lemma Double_isDouble_add (x y : Double.t) : Double.isDouble (Double.add x y).
Proof.
  destruct x as [|a|p], y as [|b|q]; cbn [Double.add]; try exact I.
  - destruct (Bool.eqb a b); exact I.
  - apply Double_isDouble_round.
Qed.

(** Multiplying a number by the literal 1 returns it. *)
Lemma Double_mul_one (x : Double.t) :
  Double.isDouble x -> Double.mul x (Double.Fin 1) = x.
Proof.
  destruct x as [|a|q]; intros Hx; cbn [Double.mul].
  - reflexivity.
  - cbn. destruct a; reflexivity.
  - rewrite (Double_round_comp (q * 1) q) by ring. exact Hx.
Qed.

(** The operations of the model return what the processor returns, on
    every pair of the samples. *)
Example double_agrees_with_machine :
  Machine.agree PrimFloat.add Double.add = true
  /\ Machine.agree PrimFloat.sub Double.sub = true
  /\ Machine.agree PrimFloat.mul Double.mul = true
  /\ Machine.agree PrimFloat.div Double.div = true
  /\ Machine.agreeGt = true.
Proof.
  do 4 (split; [vm_compute; reflexivity|]). vm_compute. reflexivity.
Qed.

(** ** The loop on doubles, turn by turn *)

Section DoubleLoop.
Variables (scenario : Double.Scenario.t) (tiers : list Double.Tier.t)
          (bulkProducts : list Double.Bulk.t) (retailProducts : list Double.Retail.t).

Lemma double_runLoop_S (n : nat) :
  Double.runLoop scenario tiers bulkProducts retailProducts (S n) =
  Double.loopBody scenario (Double.tierMapOf tiers)
    (Double.tierEconOf tiers bulkProducts retailProducts)
    (Double.runLoop scenario tiers bulkProducts retailProducts n) (S n).
Proof. unfold Double.runLoop. rewrite seq_S, fold_left_app. reflexivity. Qed.

Lemma double_activeAt_S (n : nat) :
  (1 <= n)%nat ->
  Double.activeAt scenario tiers bulkProducts retailProducts (S n) =
  Double.add
    (Double.mul (Double.activeAt scenario tiers bulkProducts retailProducts n)
       (Double.sub (Double.Fin 1)
          (Double.div (Double.Scenario.monthlyChurnPct scenario) (Double.Fin 100))))
    (Double.Scenario.newPartnersPerMonth scenario).
Proof.
  intros Hn. unfold Double.activeAt. rewrite double_runLoop_S.
  destruct n as [|n]; [lia|]. reflexivity.
Qed.

Lemma double_cumRevAt_S (n : nat) :
  Double.cumRevAt scenario tiers bulkProducts retailProducts (S n) =
  Double.add (Double.cumRevAt scenario tiers bulkProducts retailProducts n)
             (Double.totalRevAt scenario tiers bulkProducts retailProducts (S n)).
Proof.
  unfold Double.cumRevAt, Double.totalRevAt, Double.sumsAt, Double.activeAt.
  rewrite double_runLoop_S. reflexivity.
Qed.

Lemma double_cumProfitAt_S (n : nat) :
  Double.cumProfitAt scenario tiers bulkProducts retailProducts (S n) =
  Double.add (Double.cumProfitAt scenario tiers bulkProducts retailProducts n)
             (Double.totalProfitAt scenario tiers bulkProducts retailProducts (S n)).
Proof.
  unfold Double.cumProfitAt, Double.totalProfitAt, Double.sumsAt, Double.activeAt.
  rewrite double_runLoop_S. reflexivity.
Qed.

Lemma double_months_runLoop (n : nat) :
  Double.Loop.months (Double.runLoop scenario tiers bulkProducts retailProducts n)
  = List.map (Double.reportAt scenario tiers bulkProducts retailProducts) (seq 1 n).
Proof.
  induction n as [|n IH]; [reflexivity|].
  rewrite seq_S, List.map_app. cbn [List.map Nat.add]. rewrite <- IH.
  unfold Double.reportAt, Double.totalRevAt, Double.totalProfitAt, Double.cumRevAt,
    Double.cumProfitAt, Double.sumsAt, Double.activeAt.
  rewrite double_runLoop_S. reflexivity.
Qed.

Lemma double_projectScenario_eq :
  Double.projectScenario scenario tiers bulkProducts retailProducts =
  List.map (Double.reportAt scenario tiers bulkProducts retailProducts) (seq 1 12).
Proof. unfold Double.projectScenario. apply double_months_runLoop. Qed.

Lemma double_projectScenario_lookup (m : nat) :
  (1 <= m <= 12)%nat ->
  Double.projectScenario scenario tiers bulkProducts retailProducts !! (m - 1)%nat
  = Some (Double.reportAt scenario tiers bulkProducts retailProducts m).
Proof.
  intros Hm. rewrite double_projectScenario_eq.
  change (List.map ?f (seq 1 12)) with (f <$> seq 1 12).
  rewrite list_lookup_fmap, lookup_seq_lt by lia.
  cbn. f_equal. f_equal. lia.
Qed.
End DoubleLoop.

(** Whole numbers add up exactly on doubles up to [2^53]. *)
Lemma double_add_Z (a b : Z) :
  (Z.abs (a + b) <= 2 ^ 53)%Z ->
  Double.add (Double.Fin (inject_Z a)) (Double.Fin (inject_Z b))
  = Double.Fin (inject_Z (a + b)).
Proof.
  intros Hz. cbn [Double.add]. apply Double_round_Z; [|exact Hz].
  rewrite inject_Z_plus. reflexivity.
Qed.

(** ** Active partners *)

Lemma double_activeAt_isDouble (scenario : Double.Scenario.t)
  (tiers : list Double.Tier.t) (bulkProducts : list Double.Bulk.t)
  (retailProducts : list Double.Retail.t) (m : nat) :
  Double.isDouble (Double.Scenario.startingPartners scenario) ->
  (1 <= m)%nat ->
  Double.isDouble (Double.activeAt scenario tiers bulkProducts retailProducts m).
Proof.
  intros Hs Hm. destruct m as [|[|m]]; [lia | exact Hs |].
  rewrite double_activeAt_S by lia. apply Double_isDouble_add.
Qed.

(** Without churn the factor [1 - churn] is the number 1, and a month adds
    [newPartnersPerMonth] to the month before. *)
Lemma double_activeAt_noChurn_step (scenario : Double.Scenario.t)
  (tiers : list Double.Tier.t) (bulkProducts : list Double.Bulk.t)
  (retailProducts : list Double.Retail.t) (k : nat) :
  Double.Scenario.monthlyChurnPct scenario = Double.Fin 0 ->
  Double.isDouble (Double.Scenario.startingPartners scenario) ->
  (1 <= k)%nat ->
  Double.activeAt scenario tiers bulkProducts retailProducts (S k)
  = Double.add (Double.activeAt scenario tiers bulkProducts retailProducts k)
               (Double.Scenario.newPartnersPerMonth scenario).
Proof.
  intros Hc Hs Hk. rewrite double_activeAt_S by exact Hk. rewrite Hc.
  assert (Double.sub (Double.Fin 1) (Double.div (Double.Fin 0) (Double.Fin 100))
          = Double.Fin 1) as -> by (vm_compute; reflexivity).
  rewrite Double_mul_one; [reflexivity|].
  now apply double_activeAt_isDouble.
Qed.

Lemma double_activeAt_noChurn (scenario : Double.Scenario.t)
  (tiers : list Double.Tier.t) (bulkProducts : list Double.Bulk.t)
  (retailProducts : list Double.Retail.t) (s n : Z) (k : nat) :
  Double.Scenario.startingPartners scenario = Double.Fin (inject_Z s) ->
  Double.Scenario.newPartnersPerMonth scenario = Double.Fin (inject_Z n) ->
  Double.Scenario.monthlyChurnPct scenario = Double.Fin 0 ->
  (Z.abs s + Z.of_nat k * Z.abs n <= 2 ^ 53)%Z ->
  Double.activeAt scenario tiers bulkProducts retailProducts (S k)
  = Double.Fin (inject_Z (s + Z.of_nat k * n)).
Proof.
  intros Hs Hn Hc. induction k as [|k IH]; intros Hb.
  - unfold Double.activeAt. cbn. rewrite Hs. do 2 f_equal. lia.
  - rewrite double_activeAt_noChurn_step; [|exact Hc| |lia].
    + rewrite IH by lia. rewrite Hn. rewrite double_add_Z by nia.
      do 2 f_equal. lia.
    + rewrite Hs. cbn [Double.isDouble]. apply Double_round_Z; [reflexivity|lia].
Qed.

(** C1, as the code has it.  The loop variable [totalActive] starts at
    [startingPartners], untouched in month 1; in every month [m] with
    [1 < m <= 12] it is the value of the month before times
    [1 - monthlyChurnPct / 100], plus [newPartnersPerMonth], each operation
    rounding to the nearest double.  Without churn the factor is the number
    1 and a month adds [newPartnersPerMonth] to the month before; when
    [startingPartners] and [newPartnersPerMonth] are whole numbers that
    stay within [2^53] these additions are exact, and month [m] holds
    [startingPartners + (m-1) * newPartnersPerMonth].  The record of month
    [m] carries the value through [Math.round(... * 100) / 100]. *)
Theorem C1_active_recurrence (scenario : Double.Scenario.t)
  (tiers : list Double.Tier.t) (bulkProducts : list Double.Bulk.t)
  (retailProducts : list Double.Retail.t) :
  let active := Double.activeAt scenario tiers bulkProducts retailProducts in
  let start := Double.Scenario.startingPartners scenario in
  let new := Double.Scenario.newPartnersPerMonth scenario in
  let churnPct := Double.Scenario.monthlyChurnPct scenario in
  active 1%nat = start
  /\ (forall m : nat, (1 < m <= 12)%nat ->
       active m =
       Double.add
         (Double.mul (active (m - 1)%nat)
            (Double.sub (Double.Fin 1) (Double.div churnPct (Double.Fin 100))))
         new)
  /\ (churnPct = Double.Fin 0 -> Double.isDouble start ->
       forall m : nat, (1 < m <= 12)%nat ->
       active m = Double.add (active (m - 1)%nat) new)
  /\ (forall s n : Z,
       churnPct = Double.Fin 0 ->
       start = Double.Fin (inject_Z s) -> new = Double.Fin (inject_Z n) ->
       (Z.abs s + 11 * Z.abs n <= 2 ^ 53)%Z ->
       forall m : nat, (1 <= m <= 12)%nat ->
       active m = Double.Fin (inject_Z (s + Z.of_nat (m - 1) * n)))
  /\ (forall m : nat, (1 <= m <= 12)%nat ->
       exists rec : Double.Month.t,
         Double.projectScenario scenario tiers bulkProducts retailProducts
           !! (m - 1)%nat = Some rec
         /\ Double.Month.month rec = m
         /\ Double.Month.totalActive rec = Double.round2 (active m)).
Proof.
  cbv zeta. split; [reflexivity|]. split; [|split; [|split]].
  - intros m Hm. destruct m as [|m]; [lia|].
    rewrite double_activeAt_S by lia. do 3 f_equal. lia.
  - intros Hc Hs m Hm. destruct m as [|m]; [lia|].
    rewrite double_activeAt_noChurn_step by (assumption || lia).
    do 2 f_equal. lia.
  - intros s n Hc Hs Hn Hb m Hm. destruct m as [|m]; [lia|].
    replace (S m - 1)%nat with m by lia.
    apply double_activeAt_noChurn; [assumption .. |]. nia.
  - intros m Hm. eexists.
    split; [apply double_projectScenario_lookup; exact Hm|].
    split; reflexivity.
Qed.

Lemma C1_active_recurrence_witness :
  let scenario := parseScenario noChurn in
  let active := Double.activeAt scenario (parseTier <$> DEFAULT_TIERS)
                  (parseBulk <$> DEFAULT_BULK_PRODUCTS)
                  (parseRetail <$> DEFAULT_RETAIL_PRODUCTS) in
  active 2%nat
  = Double.add
      (Double.mul (active (2 - 1)%nat)
         (Double.sub (Double.Fin 1)
            (Double.div (Double.Scenario.monthlyChurnPct scenario) (Double.Fin 100))))
      (Double.Scenario.newPartnersPerMonth scenario)
  /\ active 2%nat
     = Double.add (active (2 - 1)%nat) (Double.Scenario.newPartnersPerMonth scenario)
  /\ active 12%nat = Double.Fin (inject_Z (3 + Z.of_nat (12 - 1) * 2))
  /\ exists rec : Double.Month.t,
       Double.projectScenario scenario (parseTier <$> DEFAULT_TIERS)
         (parseBulk <$> DEFAULT_BULK_PRODUCTS)
         (parseRetail <$> DEFAULT_RETAIL_PRODUCTS) !! (12 - 1)%nat = Some rec
       /\ Double.Month.month rec = 12%nat
       /\ Double.Month.totalActive rec = Double.round2 (active 12%nat).
Proof.
  intros scenario active.
  destruct (C1_active_recurrence scenario (parseTier <$> DEFAULT_TIERS)
              (parseBulk <$> DEFAULT_BULK_PRODUCTS)
              (parseRetail <$> DEFAULT_RETAIL_PRODUCTS))
    as (_ & Hstep & Hplain & Hclosed & Hrec).
  split; [apply Hstep; lia|].
  split; [apply Hplain; [reflexivity | vm_compute; reflexivity | lia]|].
  split; [apply (Hclosed 3%Z 2%Z); [reflexivity | reflexivity | reflexivity | | ]; lia|].
  apply Hrec. lia.
Defined.

(** C1, the closed form as the specification words it, fails on doubles:
    a tenth added six times to 0 is 0.6, six tenths computed at once are
    0.6000000000000001, and neither is the rational 6/10. *)
Lemma C1_closed_form_not_exact :
  let scenario := parseScenario tenths in
  let active := Double.activeAt scenario [] [] [] in
  let start := Double.Scenario.startingPartners scenario in
  let new := Double.Scenario.newPartnersPerMonth scenario in
  Double.Scenario.monthlyChurnPct scenario = Double.Fin 0
  /\ active 7%nat = Double.round 0.6
  /\ Double.add start (Double.mul (Double.Fin 6) new)
     = Double.round 0.6000000000000001
  /\ active 7%nat <> Double.add start (Double.mul (Double.Fin 6) new)
  /\ ~ Double.value (active 7%nat) == Double.value start + 6 * Double.value new.
Proof.
  cbv zeta. split; [reflexivity|]. split; [vm_compute; reflexivity|].
  split; [vm_compute; reflexivity|].
  split; vm_compute; discriminate.
Qed.

(** The base case on doubles: the loop holds the doubles 2.98 and 4.9204
    in months 2 and 3, and the records report 2.98 and 4.92. *)
Lemma base_case_active_on_doubles :
  let active := Double.activeAt (parseScenario BaseCase) [] [] [] in
  active 2%nat = Double.round 2.98
  /\ active 3%nat = Double.round 4.9204
  /\ Double.round2 (active 2%nat) = Double.round 2.98
  /\ Double.round2 (active 3%nat) = Double.round 4.92.
Proof. cbv zeta. repeat split; vm_compute; reflexivity. Qed.

(** ** Cohort split *)

(** C4.  In every month the cohort counts are the products of
    [totalActive] with [pctSmall / 100], [pctMedium / 100] and
    [pctLarge / 100], the quotient taken first, as the source computes
    them; the monthly sums are built from these counts and the record
    reports each of them through [Math.round(... * 100) / 100].  Nothing
    is re-normalized, and there are percentages with which the three
    counts do not add up to [totalActive]. *)
Theorem C4_cohort_split (scenario : Double.Scenario.t) (tiers : list Double.Tier.t)
  (bulkProducts : list Double.Bulk.t) (retailProducts : list Double.Retail.t)
  (m : nat) :
  (1 <= m <= 12)%nat ->
  let totalActive := Double.activeAt scenario tiers bulkProducts retailProducts m in
  let counts := Double.countsOf scenario totalActive in
  counts small
  = Double.mul totalActive
      (Double.div (Double.Scenario.pctSmall scenario) (Double.Fin 100))
  /\ counts medium
     = Double.mul totalActive
         (Double.div (Double.Scenario.pctMedium scenario) (Double.Fin 100))
  /\ counts large
     = Double.mul totalActive
         (Double.div (Double.Scenario.pctLarge scenario) (Double.Fin 100))
  /\ Double.sumsAt scenario tiers bulkProducts retailProducts m
     = Double.monthSums (Double.tierMapOf tiers)
         (Double.tierEconOf tiers bulkProducts retailProducts) counts
         (Double.div (Double.Scenario.retailAttachPct scenario) (Double.Fin 100))
  /\ (exists rec : Double.Month.t,
       Double.projectScenario scenario tiers bulkProducts retailProducts
         !! (m - 1)%nat = Some rec
       /\ Double.Month.small rec = Double.round2 (counts small)
       /\ Double.Month.medium rec = Double.round2 (counts medium)
       /\ Double.Month.large rec = Double.round2 (counts large))
  /\ (exists misconfigured : Double.Scenario.t,
       let a := Double.Scenario.startingPartners misconfigured in
       Double.add
         (Double.add (Double.countsOf misconfigured a small)
                     (Double.countsOf misconfigured a medium))
         (Double.countsOf misconfigured a large) <> a).
Proof.
  intros Hm. cbv zeta.
  do 4 (split; [reflexivity|]).
  split.
  - eexists. split; [apply double_projectScenario_lookup; exact Hm|].
    repeat split; reflexivity.
  - exists (parseScenario short). vm_compute. discriminate.
Qed.

Lemma C4_cohort_split_witness :
  let scenario := parseScenario short in
  exists rec : Double.Month.t,
    Double.projectScenario scenario (parseTier <$> DEFAULT_TIERS)
      (parseBulk <$> DEFAULT_BULK_PRODUCTS) (parseRetail <$> DEFAULT_RETAIL_PRODUCTS)
      !! (1 - 1)%nat = Some rec
    /\ Double.Month.small rec = Double.Fin 5
    /\ Double.Month.medium rec = Double.Fin 3
    /\ Double.Month.large rec = Double.Fin 1.
Proof.
  intros scenario.
  destruct (C4_cohort_split scenario (parseTier <$> DEFAULT_TIERS)
              (parseBulk <$> DEFAULT_BULK_PRODUCTS)
              (parseRetail <$> DEFAULT_RETAIL_PRODUCTS) 1 ltac:(lia))
    as (_ & _ & _ & _ & (rec & Hrec & Hs & Hm & Hl) & _).
  exists rec. split; [exact Hrec|].
  rewrite Hs, Hm, Hl. repeat split; vm_compute; reflexivity.
Defined.

(** On doubles the counts can miss [totalActive] even when the
    percentages add up to 100, and the grouping of the source matters. *)
Lemma cohort_counts_on_doubles :
  let scenario := parseScenario fourteen in
  let a := Double.Scenario.startingPartners scenario in
  Double.add
    (Double.add (Double.countsOf scenario a small) (Double.countsOf scenario a medium))
    (Double.countsOf scenario a large) = Double.round 13.999999999999998
  /\ Double.mul (Double.round 14.45) (Double.div (Double.Fin 35) (Double.Fin 100))
     <> Double.div (Double.mul (Double.round 14.45) (Double.Fin 35)) (Double.Fin 100).
Proof. cbv zeta. split; vm_compute; [reflexivity | discriminate]. Qed.

(** ** Product margins *)

(** The margin percentage at its edges: 0 whenever the wholesale price is
    not above 0 (zero, negative or NaN), so that nothing is divided by
    zero; for a finite wholesale price above 0 it is 1 when the cost is 0
    and 0 when the cost equals the price.  The badge of the product table
    is green when the percentage is above 0.5: never in the first case,
    always in the second. *)
Theorem bulk_margin_pct_edges (p : Double.Bulk.t) :
  let w := Double.Bulk.wholesale p in
  (Double.gt w (Double.Fin 0) = false ->
   Double.calcBulkMarginPct p = Double.Fin 0
   /\ Double.gt (Double.calcBulkMarginPct p) (Double.round 0.5) = false)
  /\ (Double.gt w (Double.Fin 0) = true -> Double.finite w = true ->
      Double.isDouble w ->
      (Double.Bulk.cogs p = Double.Fin 0 ->
       Double.calcBulkMarginPct p = Double.Fin 1
       /\ Double.gt (Double.calcBulkMarginPct p) (Double.round 0.5) = true)
      /\ (Double.Bulk.cogs p = w -> Double.calcBulkMarginPct p = Double.Fin 0)).
Proof.
  cbv zeta. unfold Double.calcBulkMarginPct. split.
  - intros ->. split; reflexivity.
  - intros Hgt Hfin Hd. rewrite Hgt.
    destruct (Double.Bulk.wholesale p) as [|s|q]; try discriminate.
    cbn [Double.isDouble] in Hd. cbn [Double.gt] in Hgt.
    assert (Qeq_bool q 0 = false) as Hq0.
    { destruct (Qeq_bool q 0) eqn:E; [|reflexivity].
      apply Qeq_bool_iff in E. apply negb_true_iff in Hgt.
      assert (Qle_bool q 0 = true) by (apply Qle_bool_iff; rewrite E; apply Qle_refl).
      congruence. }
    assert (~ q == 0) as Hq by (now apply Qeq_bool_neq).
    split.
    + intros ->. cbn [Double.sub].
      rewrite (Double_round_comp (q - 0) q) by ring. rewrite Hd.
      cbn [Double.div]. rewrite Hq0.
      rewrite (Double_round_comp (q / q) 1) by (field; exact Hq).
      split; reflexivity.
    + intros ->. cbn [Double.sub].
      rewrite (Double_round_comp (q - q) 0) by ring.
      change (Double.round 0) with (Double.Fin 0).
      cbn [Double.div]. rewrite Hq0.
      rewrite (Double_round_comp (0 / q) 0) by (field; exact Hq).
      reflexivity.
Qed.

Lemma bulk_margin_pct_edges_witness :
  Double.calcBulkMarginPct
    (parseBulk sampleBag) = Double.Fin 1
  /\ Double.calcBulkMarginPct (parseBulk negativeBagPrice) = Double.Fin 0.
Proof.
  destruct (bulk_margin_pct_edges (parseBulk sampleBag))
    as [_ H].
  destruct (H eq_refl eq_refl ltac:(vm_compute; reflexivity)) as [H1 _].
  destruct (bulk_margin_pct_edges (parseBulk negativeBagPrice)) as [H0 _].
  split; [apply H1; reflexivity | apply H0; reflexivity].
Defined.

(** ** Tier economics: the sums *)







(** The retail figures really are left as they come: three pouches sharing
    10 units give a [retailRev] of 6.666666666666667, which the rounding
    idiom would turn into 6.67. *)
Lemma retailRev_not_rounded :
  let e := Double.calcTierEconomics (parseTier pouchTier) []
             (parseRetail <$> threePouches) in
  Double.Econ.retailRev e = Double.round 6.666666666666667
  /\ Double.round2 (Double.Econ.retailRev e) = Double.round 6.67
  /\ Double.round2 (Double.Econ.retailRev e) <> Double.Econ.retailRev e.
Proof. cbv zeta. repeat split; vm_compute; try reflexivity. discriminate. Qed.

(** The worked example of the specification on doubles. *)
Example small_cafe_economics_on_doubles :
  let e := Double.calcTierEconomics (parseTier smallTier)
             (parseBulk <$> DEFAULT_BULK_PRODUCTS)
             (parseRetail <$> DEFAULT_RETAIL_PRODUCTS) in
  Double.Econ.servingsPerMonth e = Double.Fin 300
  /\ Double.Econ.bulkBreakdown e
     = [Double.Row.mk "Everyday Cafe Bag 1lb" (Double.round 1.67) (Double.round 133.33)]
  /\ Double.Econ.bulkRev e = Double.round 133.33
  /\ Double.Econ.bulkProfit e = Double.round 111.78
  /\ Double.Econ.retailRev e = Double.Fin 120
  /\ Double.Econ.retailProfit e = Double.Fin 80.
Proof. cbv zeta. repeat split; vm_compute; reflexivity. Qed.

(** Where exact arithmetic and doubles part: one drink of three teaspoons
    a day on the 1lb bag earns 33.535 a month exactly, which rounds to
    33.54; the doubles carry a sum just below the tie, and the code
    returns 33.53. *)
Example profit_just_below_a_tie :
  Econ.bulkProfit (calcTierEconomics teaspoons DEFAULT_BULK_PRODUCTS []) == 33.54
  /\ Double.Econ.bulkProfit
       (Double.calcTierEconomics (parseTier teaspoons)
          (parseBulk <$> DEFAULT_BULK_PRODUCTS) []) = Double.round 33.53.
Proof. split; [reflexivity | vm_compute; reflexivity]. Qed.

(** ** Rounding of the monthly and cumulative figures, on doubles *)

Lemma double_within_Fin (k : Z) (x : Double.t) :
  Double.within k x = true -> exists q, x = Double.Fin q /\ Qabs q <= 2 ^ k.
Proof.
  destruct x as [|s|q]; cbn [Double.within]; try discriminate.
  intros H. exists q. split; [reflexivity|]. now apply Qle_bool_iff.
Qed.

(** Rounding a sum of two amounts below [2^51] and summing their roundings
    differ by one unit at most. *)
Lemma double_Math_round_add (x y : Double.t) :
  Double.within 51 x = true -> Double.within 51 y = true ->
  exists a b c : Z,
    Double.Math_round x = Double.Fin (inject_Z a)
    /\ Double.Math_round y = Double.Fin (inject_Z b)
    /\ Double.Math_round (Double.add x y) = Double.Fin (inject_Z c)
    /\ (Z.abs (c - (a + b)) <= 1)%Z.
Proof.
  intros Hx Hy.
  apply double_within_Fin in Hx as (p & -> & Hp).
  apply double_within_Fin in Hy as (q & -> & Hq).
  cbn [Double.add].
  destruct (Double_round_error (p + q) 52) as (r & -> & Hr); [|lia|].
  { pose proof (Qabs_triangle p q) as Ht.
    assert (2 ^ 52 == 2 * 2 ^ 51) as -> by reflexivity. lra. }
  exists (Qfloor (p + (1 # 2))), (Qfloor (q + (1 # 2))), (Qfloor (r + (1 # 2))).
  do 3 (split; [reflexivity|]).
  change (2 ^ (52 - 53)) with (1 # 2) in Hr.
  apply Qabs_Qle_condition in Hr as [Hr1 Hr2].
  pose proof (Math_round_bounds p) as [Hp1 Hp2].
  pose proof (Math_round_bounds q) as [Hq1 Hq2].
  pose proof (Math_round_bounds r) as [Hc1 Hc2].
  unfold Math_round in *.
  set (A := Qfloor (p + (1 # 2))) in *.
  set (B := Qfloor (q + (1 # 2))) in *.
  set (C := Qfloor (r + (1 # 2))) in *. clearbody A B C.
  assert (inject_Z C < inject_Z (A + B + 2)) as H1.
  { rewrite !inject_Z_plus. change (inject_Z 2) with 2. lra. }
  assert (inject_Z (A + B) < inject_Z (C + 2)) as H2.
  { rewrite !inject_Z_plus. change (inject_Z 2) with 2. lra. }
  rewrite <- Zlt_Qlt in H1, H2. lia.
Qed.

(** C10, as the code has it.  In the record of month [m], [bulkRevenue],
    [retailRevenue] and [totalRevenue] are [Math.round] of the month's
    unrounded bulk revenue, retail revenue and of their sum, each on its
    own, and likewise the three profit fields.  When the two unrounded
    amounts are finite and at most [2^51] in magnitude the three fields
    are whole numbers and the total is within one unit of the sum of the
    other two. *)
Theorem C10_independent_rounding (scenario : Double.Scenario.t)
  (tiers : list Double.Tier.t) (bulkProducts : list Double.Bulk.t)
  (retailProducts : list Double.Retail.t) (m : nat) :
  (1 <= m <= 12)%nat ->
  let s := Double.sumsAt scenario tiers bulkProducts retailProducts m in
  exists rec : Double.Month.t,
    Double.projectScenario scenario tiers bulkProducts retailProducts !! (m - 1)%nat
    = Some rec
    /\ Double.Month.bulkRevenue rec = Double.Math_round (Double.Sums.bulkRev s)
    /\ Double.Month.retailRevenue rec = Double.Math_round (Double.Sums.retailRev s)
    /\ Double.Month.totalRevenue rec
       = Double.Math_round (Double.add (Double.Sums.bulkRev s)
                                       (Double.Sums.retailRev s))
    /\ Double.Month.bulkProfit rec = Double.Math_round (Double.Sums.bulkProfit s)
    /\ Double.Month.retailProfit rec
       = Double.Math_round (Double.Sums.retailProfit s)
    /\ Double.Month.totalProfit rec
       = Double.Math_round (Double.add (Double.Sums.bulkProfit s)
                                       (Double.Sums.retailProfit s))
    /\ (Double.within 51 (Double.Sums.bulkRev s) = true ->
        Double.within 51 (Double.Sums.retailRev s) = true ->
        exists bulk retail total : Z,
          Double.Month.bulkRevenue rec = Double.Fin (inject_Z bulk)
          /\ Double.Month.retailRevenue rec = Double.Fin (inject_Z retail)
          /\ Double.Month.totalRevenue rec = Double.Fin (inject_Z total)
          /\ (Z.abs (total - (bulk + retail)) <= 1)%Z)
    /\ (Double.within 51 (Double.Sums.bulkProfit s) = true ->
        Double.within 51 (Double.Sums.retailProfit s) = true ->
        exists bulk retail total : Z,
          Double.Month.bulkProfit rec = Double.Fin (inject_Z bulk)
          /\ Double.Month.retailProfit rec = Double.Fin (inject_Z retail)
          /\ Double.Month.totalProfit rec = Double.Fin (inject_Z total)
          /\ (Z.abs (total - (bulk + retail)) <= 1)%Z).
Proof.
  intros Hm. cbv zeta. eexists.
  split; [apply double_projectScenario_lookup; exact Hm|].
  cbn [Double.reportAt Double.monthRecord Double.Month.bulkRevenue
       Double.Month.retailRevenue Double.Month.totalRevenue Double.Month.bulkProfit
       Double.Month.retailProfit Double.Month.totalProfit].
  unfold Double.totalRevAt, Double.totalProfitAt.
  do 6 (split; [reflexivity|]).
  split; intros H1 H2;
    destruct (double_Math_round_add _ _ H1 H2) as (a & b & c & Ha & Hb & Hc & Habc);
    exists a, b, c; auto.
Qed.

Lemma C10_independent_rounding_witness :
  exists rec : Double.Month.t,
    Double.projectScenario (parseScenario BaseCase) (parseTier <$> DEFAULT_TIERS)
      (parseBulk <$> DEFAULT_BULK_PRODUCTS) (parseRetail <$> DEFAULT_RETAIL_PRODUCTS)
      !! (8 - 1)%nat = Some rec
    /\ Double.Month.bulkRevenue rec = Double.Fin 5453
    /\ Double.Month.retailRevenue rec = Double.Fin 1181
    /\ Double.Month.totalRevenue rec = Double.Fin 6633
    /\ exists bulk retail total : Z,
         Double.Month.bulkProfit rec = Double.Fin (inject_Z bulk)
         /\ Double.Month.retailProfit rec = Double.Fin (inject_Z retail)
         /\ Double.Month.totalProfit rec = Double.Fin (inject_Z total)
         /\ (Z.abs (total - (bulk + retail)) <= 1)%Z.
Proof.
  destruct (C10_independent_rounding (parseScenario BaseCase)
              (parseTier <$> DEFAULT_TIERS) (parseBulk <$> DEFAULT_BULK_PRODUCTS)
              (parseRetail <$> DEFAULT_RETAIL_PRODUCTS) 8 ltac:(lia))
    as (rec & Hrec & Hb & Hr & Ht & _ & _ & _ & _ & Hprofit).
  exists rec. split; [exact Hrec|].
  split; [rewrite Hb; vm_compute; reflexivity|].
  split; [rewrite Hr; vm_compute; reflexivity|].
  split; [rewrite Ht; vm_compute; reflexivity|].
  apply Hprofit; vm_compute; reflexivity.
Defined.

(** C10, as the specification words it, fails on doubles: with the 1lb
    bag priced at [2^52] the sixth month reports a total that is 3 below
    the sum of its parts. *)
Lemma C10_gap_of_three_units :
  exists rec : Double.Month.t,
    Double.projectScenario (parseScenario BaseCase) (parseTier <$> DEFAULT_TIERS)
      (parseBulk <$> pricedAt (2 ^ 52)) (parseRetail <$> DEFAULT_RETAIL_PRODUCTS)
      !! 5%nat = Some rec
    /\ Double.finite (Double.Month.totalRevenue rec) = true
    /\ Double.finite (Double.Month.bulkRevenue rec) = true
    /\ Double.finite (Double.Month.retailRevenue rec) = true
    /\ Double.value (Double.Month.totalRevenue rec)
       - (Double.value (Double.Month.bulkRevenue rec)
          + Double.value (Double.Month.retailRevenue rec)) == - 3.
Proof.
  eexists. split; [apply (double_projectScenario_lookup _ _ _ _ 6); lia|].
  repeat split; vm_compute; reflexivity.
Qed.

Lemma inject_nat_le (n k : nat) : (n <= k)%nat -> inject_Z (Z.of_nat n) <= inject_Z (Z.of_nat k).
Proof. intros H. rewrite <- Zle_Qle. lia. Qed.

Lemma inject_nat_S (n : nat) : inject_Z (Z.of_nat (S n)) == inject_Z (Z.of_nat n) + 1.
Proof. rewrite Nat2Z.inj_succ. unfold Z.succ. rewrite inject_Z_plus. reflexivity. Qed.

(** Adding up to twelve amounts below [2^44] from left to right, each
    addition rounding, ends within [12 * 2^-5] of the exact sum. *)
Lemma double_fold_add_error (ts : list Double.t) (n : nat) (c s : Q) :
  Forall (fun x => Double.within 44 x = true) ts ->
  (n + length ts <= 12)%nat ->
  Qabs (c - s) <= inject_Z (Z.of_nat n) * (1 # 32) ->
  Qabs s <= inject_Z (Z.of_nat n) * 2 ^ 44 ->
  exists r,
    fold_left Double.add ts (Double.Fin c) = Double.Fin r
    /\ Qabs (r - (s + sumQ (List.map Double.value ts)))
       <= inject_Z (Z.of_nat (n + length ts)) * (1 # 32).
Proof.
  revert n c s. induction ts as [|x ts IH]; intros n c s Hall Hlen Hc Hs.
  - exists c. split; [reflexivity|]. cbn [List.map length].
    rewrite Nat.add_0_r. unfold sumQ. cbn [fold_right].
    assert (c - (s + 0) == c - s) as -> by ring. exact Hc.
  - inversion Hall as [|? ? Hx Hts]; subst.
    apply double_within_Fin in Hx as (v & -> & Hv).
    cbn [fold_left Double.add length] in *.
    pose proof (inject_nat_le n 11 ltac:(lia)) as Hn.
    change (inject_Z (Z.of_nat 11)) with 11 in Hn.
    assert (0 <= inject_Z (Z.of_nat n)) as Hn0.
    { change 0 with (inject_Z 0). rewrite <- Zle_Qle. lia. }
    change (2 ^ 44) with 17592186044416 in *.
    apply Qabs_Qle_condition in Hc as [Hc1 Hc2].
    apply Qabs_Qle_condition in Hs as [Hs1 Hs2].
    apply Qabs_Qle_condition in Hv as [Hv1 Hv2].
    set (N := inject_Z (Z.of_nat n)) in *.
    destruct (Double_round_error (c + v) 48) as (r & Hr & Herr); [|lia|].
    { change (2 ^ 48) with 281474976710656.
      apply Qabs_Qle_condition. split; nra. }
    rewrite Hr. change (2 ^ (48 - 53)) with (1 # 32) in Herr.
    apply Qabs_Qle_condition in Herr as [He1 He2].
    destruct (IH (S n) r (s + v) Hts ltac:(lia)) as (r' & Hr' & Hfinal).
    + rewrite inject_nat_S. fold N. apply Qabs_Qle_condition. split; lra.
    + rewrite inject_nat_S. fold N. change (2 ^ 44) with 17592186044416.
      apply Qabs_Qle_condition. split; lra.
    + exists r'. split; [exact Hr'|].
      cbn [List.map Double.value]. rewrite sumQ_cons.
      replace (n + S (length ts))%nat with (S n + length ts)%nat by lia.
      assert (s + (v + sumQ (List.map Double.value ts))
              == s + v + sumQ (List.map Double.value ts)) as -> by ring.
      exact Hfinal.
Qed.

Lemma double_cumRevAt_fold (scenario : Double.Scenario.t) (tiers : list Double.Tier.t)
  (bulkProducts : list Double.Bulk.t) (retailProducts : list Double.Retail.t)
  (n : nat) :
  Double.cumRevAt scenario tiers bulkProducts retailProducts n
  = Double.sum (List.map (Double.totalRevAt scenario tiers bulkProducts retailProducts)
                         (seq 1 n)).
Proof.
  induction n as [|n IH]; [reflexivity|].
  rewrite double_cumRevAt_S, seq_S, List.map_app. unfold Double.sum in *.
  rewrite fold_left_app, <- IH. reflexivity.
Qed.

Lemma double_cumProfitAt_fold (scenario : Double.Scenario.t)
  (tiers : list Double.Tier.t) (bulkProducts : list Double.Bulk.t)
  (retailProducts : list Double.Retail.t) (n : nat) :
  Double.cumProfitAt scenario tiers bulkProducts retailProducts n
  = Double.sum (List.map (Double.totalProfitAt scenario tiers bulkProducts
                                                retailProducts) (seq 1 n)).
Proof.
  induction n as [|n IH]; [reflexivity|].
  rewrite double_cumProfitAt_S, seq_S, List.map_app. unfold Double.sum in *.
  rewrite fold_left_app, <- IH. reflexivity.
Qed.

(** Twelve roundings against one, the single one made on a sum that is
    off by less than half a unit: the results are within 6 of each
    other. *)
Lemma round_drift_12 (vs : list Q) (r : Q) :
  length vs = 12%nat ->
  Qabs (r - sumQ vs) <= 3 # 8 ->
  Qabs (Math_round r - sumQ (List.map Math_round vs)) <= 6.
Proof.
  intros Hlen Hr.
  destruct (sumQ_round_bounds vs) as [Hlo Hhi].
  assert (len vs == 12) as Hl by (unfold len; rewrite Hlen; reflexivity).
  rewrite Hl in Hlo, Hhi.
  apply Qabs_Qle_condition in Hr as [Hr1 Hr2].
  destruct (Math_round_bounds r) as [Hc1 Hc2].
  destruct (sumQ_round_integer vs) as [z Hz].
  rewrite Hz in *. unfold Math_round in *.
  set (c := Qfloor (r + (1 # 2))) in *. clearbody c.
  assert (inject_Z c < inject_Z (z + 7)) as H1
    by (rewrite inject_Z_plus; change (inject_Z 7) with 7; lra).
  assert (inject_Z z < inject_Z (c + 7)) as H2
    by (rewrite inject_Z_plus; change (inject_Z 7) with 7; lra).
  rewrite <- Zlt_Qlt in H1, H2.
  assert (c <= z + 6 /\ z <= c + 6)%Z as [H3 H4] by lia.
  rewrite Zle_Qle in H3, H4. rewrite inject_Z_plus in H3, H4.
  change (inject_Z 6) with 6 in H3, H4.
  apply Qabs_Qle_condition. split; lra.
Qed.

(** Twelve amounts below [2^44], summed on doubles and rounded once,
    against their roundings summed: the cumulative figures and the year
    totals both rest on this. *)
Lemma double_sum_drift (ts : list Double.t) :
  length ts = 12%nat ->
  Forall (fun x => Double.within 44 x = true) ts ->
  exists c : Z,
    Double.Math_round (Double.sum ts) = Double.Fin (inject_Z c)
    /\ Forall (fun x => Double.finite (Double.Math_round x) = true) ts
    /\ Qabs (inject_Z c
             - sumQ (List.map (fun x => Double.value (Double.Math_round x)) ts))
       <= 6.
Proof.
  intros Hlen Hall.
  destruct (double_fold_add_error ts 0 0 0 Hall) as (r & Hr & Herr).
  { rewrite Hlen. lia. }
  { cbn. unfold Qle. cbn. lia. }
  { cbn. unfold Qle. cbn. lia. }
  unfold Double.sum. change (Double.Fin 0) with (Double.Fin 0) in *.
  rewrite Hr. exists (Qfloor (r + (1 # 2))). split; [reflexivity|]. split.
  - clear -Hall. induction Hall as [|x l Hx _ IH]; constructor; [|exact IH].
    apply double_within_Fin in Hx as (v & -> & _). reflexivity.
  - assert (List.map (fun x => Double.value (Double.Math_round x)) ts
            = List.map Math_round (List.map Double.value ts)) as ->.
    { rewrite List.map_map. clear -Hall.
      induction Hall as [|x l Hx _ IH]; [reflexivity|].
      cbn [List.map]. rewrite IH. f_equal.
      apply double_within_Fin in Hx as (v & -> & _). reflexivity. }
    apply (round_drift_12 _ r); [rewrite List.length_map; exact Hlen|].
    rewrite Hlen in Herr. cbn [Nat.add] in Herr.
    change (inject_Z (Z.of_nat 12) * (1 # 32)) with (12 * (1 # 32)) in Herr.
    assert (r - (0 + sumQ (List.map Double.value ts))
            == r - sumQ (List.map Double.value ts)) as E by ring.
    rewrite E in Herr. apply Qabs_Qle_condition in Herr as [H1 H2].
    apply Qabs_Qle_condition. split; lra.
Qed.

(** C3, as the code has it.  [cumulativeRev] is accumulated from the
    unrounded monthly totals and rounded once, when the record is built;
    each monthly [totalRevenue] is rounded on its own.  When the twelve
    unrounded monthly totals are finite and at most [2^44] in magnitude,
    the value reported in month 12 is a whole number within 6 units (half
    a unit for each of the twelve months) of the sum of the twelve
    reported [totalRevenue] fields. *)
Theorem C3_cumulative_revenue (scenario : Double.Scenario.t)
  (tiers : list Double.Tier.t) (bulkProducts : list Double.Bulk.t)
  (retailProducts : list Double.Retail.t) :
  let months := Double.projectScenario scenario tiers bulkProducts retailProducts in
  let totalRev := Double.totalRevAt scenario tiers bulkProducts retailProducts in
  exists last : Double.Month.t,
    months !! 11%nat = Some last
    /\ Double.Month.cumulativeRev last
       = Double.Math_round (Double.sum (List.map totalRev (seq 1 12)))
    /\ List.map Double.Month.totalRevenue months
       = List.map (fun m => Double.Math_round (totalRev m)) (seq 1 12)
    /\ ((forall m : nat, (1 <= m <= 12)%nat -> Double.within 44 (totalRev m) = true) ->
        exists c : Z,
          Double.Month.cumulativeRev last = Double.Fin (inject_Z c)
          /\ Forall (fun rec => Double.finite (Double.Month.totalRevenue rec) = true)
                    months
          /\ Qabs (inject_Z c
                   - sumQ (List.map (fun rec =>
                                       Double.value (Double.Month.totalRevenue rec))
                                    months)) <= 6).
Proof.
  cbv zeta.
  exists (Double.reportAt scenario tiers bulkProducts retailProducts 12).
  split; [apply (double_projectScenario_lookup _ _ _ _ 12); lia|].
  assert (List.map Double.Month.totalRevenue
            (Double.projectScenario scenario tiers bulkProducts retailProducts)
          = List.map Double.Math_round
              (List.map (Double.totalRevAt scenario tiers bulkProducts retailProducts)
                        (seq 1 12))) as Hmap.
  { rewrite double_projectScenario_eq, !List.map_map. reflexivity. }
  split.
  { cbn [Double.reportAt Double.monthRecord Double.Month.cumulativeRev].
    now rewrite double_cumRevAt_fold. }
  split; [rewrite Hmap, List.map_map; reflexivity|].
  intros Hb.
  set (ts := List.map (Double.totalRevAt scenario tiers bulkProducts retailProducts)
                      (seq 1 12)) in *.
  destruct (double_sum_drift ts) as (c & Hc & Hfin & Hdrift).
  { unfold ts. rewrite List.length_map, length_seq. reflexivity. }
  { unfold ts. apply List.Forall_forall. intros x Hx.
    apply in_map_iff in Hx as (m & <- & Hm). apply in_seq in Hm. apply Hb. lia. }
  exists c. split.
  { cbn [Double.reportAt Double.monthRecord Double.Month.cumulativeRev].
    rewrite double_cumRevAt_fold. exact Hc. }
  assert (forall {A} (f : Double.t -> A),
            List.map (fun rec => f (Double.Month.totalRevenue rec))
              (Double.projectScenario scenario tiers bulkProducts retailProducts)
            = List.map (fun x => f (Double.Math_round x)) ts) as Hf.
  { intros A f. rewrite <- (List.map_map Double.Month.totalRevenue f), Hmap.
    rewrite List.map_map. reflexivity. }
  split.
  - apply List.Forall_forall. intros rec Hrec.
    rewrite List.Forall_forall in Hfin.
    assert (In (Double.Month.totalRevenue rec) (List.map Double.Math_round ts)) as Hin.
    { rewrite <- Hmap. apply in_map. exact Hrec. }
    apply in_map_iff in Hin as (x & <- & Hx). apply Hfin. exact Hx.
  - rewrite Hf. exact Hdrift.
Qed.

Lemma C3_cumulative_revenue_witness :
  exists (last : Double.Month.t) (c : Z),
    Double.projectScenario (parseScenario BaseCase) (parseTier <$> DEFAULT_TIERS)
      (parseBulk <$> DEFAULT_BULK_PRODUCTS) (parseRetail <$> DEFAULT_RETAIL_PRODUCTS)
      !! 11%nat = Some last
    /\ Double.Month.cumulativeRev last = Double.Fin (inject_Z c)
    /\ Qabs (inject_Z c - sumQ (List.map (fun rec =>
                                   Double.value (Double.Month.totalRevenue rec))
                         (Double.projectScenario (parseScenario BaseCase)
                            (parseTier <$> DEFAULT_TIERS)
                            (parseBulk <$> DEFAULT_BULK_PRODUCTS)
                            (parseRetail <$> DEFAULT_RETAIL_PRODUCTS)))) <= 6.
Proof.
  destruct (C3_cumulative_revenue (parseScenario BaseCase)
              (parseTier <$> DEFAULT_TIERS) (parseBulk <$> DEFAULT_BULK_PRODUCTS)
              (parseRetail <$> DEFAULT_RETAIL_PRODUCTS))
    as (last & Hlast & _ & _ & Hbound).
  destruct Hbound as (c & Hc & _ & Hdrift).
  { intros m Hm.
    do 13 (destruct m as [|m]; [try lia; vm_compute; reflexivity|]). lia. }
  exists last, c. auto.
Defined.

(** C3, as the specification words it, fails: with half a unit of revenue
    every month the twelve reported totals add up to 12 while the reported
    cumulative revenue is 6. *)
Lemma C3_drift_exceeds_one_unit :
  let months := Double.projectScenario (parseScenario steady) [parseTier halfTier]
                  [parseBulk halfBag] [] in
  exists last : Double.Month.t,
    months !! 11%nat = Some last
    /\ Double.Month.cumulativeRev last = Double.Fin 6
    /\ List.map Double.Month.totalRevenue months = repeat (Double.Fin 1) 12
    /\ Double.sum (List.map Double.Month.totalRevenue months) = Double.Fin 12
    /\ ~ Qabs (Double.value (Double.Month.cumulativeRev last)
               - sumQ (List.map (fun rec =>
                                   Double.value (Double.Month.totalRevenue rec))
                                months)) <= 1.
Proof.
  cbv zeta. eexists.
  split; [apply (double_projectScenario_lookup _ _ _ _ 12); lia|].
  do 3 (split; [vm_compute; reflexivity|]).
  intros H. vm_compute in H. apply H. reflexivity.
Qed.

(** Beyond [2^44] a month the bound of 6 is lost: with the 1lb bag priced
    at [2^50] the reported cumulative revenue is 7 above the sum of the
    twelve reported totals. *)
Lemma cumulative_drift_of_seven :
  let months := Double.projectScenario (parseScenario BaseCase)
                  (parseTier <$> DEFAULT_TIERS) (parseBulk <$> pricedAt (2 ^ 50))
                  (parseRetail <$> DEFAULT_RETAIL_PRODUCTS) in
  exists last : Double.Month.t,
    months !! 11%nat = Some last
    /\ Double.value (Double.Month.cumulativeRev last)
       - sumQ (List.map (fun rec => Double.value (Double.Month.totalRevenue rec))
                        months) == 7.
Proof.
  cbv zeta. eexists.
  split; [apply (double_projectScenario_lookup _ _ _ _ 12); lia|].
  vm_compute. reflexivity.
Qed.

(** ** Year totals against cumulative figures *)

(** Whole numbers add up exactly on doubles as long as the partial sums
    stay within [2^53]. *)
Lemma double_fold_add_Z (zs : list Z) (a : Z) :
  (Z.abs a + fold_right Z.add 0%Z (List.map Z.abs zs) <= 2 ^ 53)%Z ->
  fold_left Double.add (List.map (fun z => Double.Fin (inject_Z z)) zs)
            (Double.Fin (inject_Z a))
  = Double.Fin (inject_Z (a + fold_right Z.add 0%Z zs)).
Proof.
  revert a. induction zs as [|z zs IH]; intros a Hb; cbn [List.map fold_left fold_right] in *.
  - do 2 f_equal. lia.
  - assert (0 <= fold_right Z.add 0%Z (List.map Z.abs zs))%Z as Hpos.
    { clear. induction zs as [|y zs IH]; cbn [List.map fold_right]; lia. }
    rewrite double_add_Z by lia. rewrite IH by lia. do 2 f_equal. lia.
Qed.

Lemma Math_round_magnitude (v : Q) (b : Z) :
  Qabs v <= inject_Z b -> (Z.abs (Qfloor (v + (1 # 2))) <= b + 1)%Z.
Proof.
  intros Hv. apply Qabs_Qle_condition in Hv as [H1 H2].
  pose proof (Qfloor_le (v + (1 # 2))) as Hle.
  pose proof (Qlt_floor (v + (1 # 2))) as Hlt.
  rewrite inject_Z_plus in Hlt. change (inject_Z 1) with 1 in Hlt.
  set (k := Qfloor (v + (1 # 2))) in *. clearbody k.
  assert (inject_Z k < inject_Z (b + 1)) as Ha
    by (rewrite inject_Z_plus; change (inject_Z 1) with 1; lra).
  assert (inject_Z 0 < inject_Z (k + b + 2)) as Hb.
  { rewrite !inject_Z_plus. change (inject_Z 2) with 2. change (inject_Z 0) with 0.
    lra. }
  rewrite <- Zlt_Qlt in Ha, Hb. lia.
Qed.

(** Twelve amounts below [2^44]: their roundings, added up on doubles as
    [reduce] does, against the rounding of their sum on doubles. *)
Lemma double_year_total (ts : list Double.t) :
  length ts = 12%nat ->
  Forall (fun x => Double.within 44 x = true) ts ->
  exists y c : Z,
    Double.sum (List.map Double.Math_round ts) = Double.Fin (inject_Z y)
    /\ Double.Math_round (Double.sum ts) = Double.Fin (inject_Z c)
    /\ (Z.abs (c - y) <= 6)%Z.
Proof.
  intros Hlen Hall.
  destruct (double_sum_drift ts Hlen Hall) as (c & Hc & _ & Hdrift).
  set (zs := List.map (fun x => Qfloor (Double.value x + (1 # 2))) ts).
  assert (List.map Double.Math_round ts
          = List.map (fun z => Double.Fin (inject_Z z)) zs) as Hmap.
  { unfold zs. rewrite List.map_map. clear -Hall.
    induction Hall as [|x l Hx _ IH]; [reflexivity|].
    cbn [List.map]. rewrite IH. f_equal.
    apply double_within_Fin in Hx as (v & -> & _). reflexivity. }
  assert (fold_right Z.add 0%Z (List.map Z.abs zs)
          <= Z.of_nat (length ts) * (2 ^ 44 + 1))%Z as Hmag.
  { unfold zs. clear -Hall.
    induction Hall as [|x l Hx _ IH]; [cbn; lia|].
    cbn [List.map fold_right length]. rewrite Nat2Z.inj_succ.
    apply double_within_Fin in Hx as (v & -> & Hv). cbn [Double.value].
    pose proof (Math_round_magnitude v (2 ^ 44)) as Hm.
    rewrite <- pow2_Z in Hm by lia. specialize (Hm Hv). lia. }
  rewrite Hlen in Hmag.
  assert (sumQ (List.map (fun x => Double.value (Double.Math_round x)) ts)
          == inject_Z (fold_right Z.add 0%Z zs)) as Hsum.
  { unfold zs. clear -Hall.
    induction Hall as [|x l Hx _ IH]; [reflexivity|].
    cbn [List.map fold_right]. rewrite sumQ_cons, IH, inject_Z_plus.
    apply double_within_Fin in Hx as (v & -> & _). reflexivity. }
  exists (fold_right Z.add 0%Z zs), c.
  split; [|split; [exact Hc|]].
  - unfold Double.sum. rewrite Hmap.
    change (Double.Fin 0) with (Double.Fin (inject_Z 0)).
    rewrite double_fold_add_Z; [reflexivity|].
    change (Z.abs 0) with 0%Z. change (Z.of_nat 12) with 12%Z in Hmag.
    assert (12 * (2 ^ 44 + 1) <= 2 ^ 53)%Z by (vm_compute; discriminate). lia.
  - rewrite Hsum in Hdrift. apply Qabs_Qle_condition in Hdrift as [H1 H2].
    set (y := fold_right Z.add 0%Z zs) in *. clearbody y.
    assert (inject_Z c < inject_Z (y + 7)) as Ha
      by (rewrite inject_Z_plus; change (inject_Z 7) with 7; lra).
    assert (inject_Z y < inject_Z (c + 7)) as Hb
      by (rewrite inject_Z_plus; change (inject_Z 7) with 7; lra).
    rewrite <- Zlt_Qlt in Ha, Hb. lia.
Qed.

Lemma double_yearRevenue_eq (scenario : Double.Scenario.t)
  (tiers : list Double.Tier.t) (bulkProducts : list Double.Bulk.t)
  (retailProducts : list Double.Retail.t) :
  Double.yearRevenue
    (Double.projectScenario scenario tiers bulkProducts retailProducts)
  = Double.sum
      (List.map Double.Math_round
         (List.map (Double.totalRevAt scenario tiers bulkProducts retailProducts)
                   (seq 1 12)))
  /\ Double.yearProfit
       (Double.projectScenario scenario tiers bulkProducts retailProducts)
     = Double.sum
         (List.map Double.Math_round
            (List.map (Double.totalProfitAt scenario tiers bulkProducts
                                            retailProducts) (seq 1 12))).
Proof.
  unfold Double.yearRevenue, Double.yearProfit, Double.sum.
  rewrite double_projectScenario_eq. split; reflexivity.
Qed.

(** The year totals of the KPI card and of the summary table are sums,
    made by [reduce] on doubles, of the twelve rounded monthly figures.
    When the unrounded monthly totals are finite and at most [2^44] in
    magnitude these sums are exact, and each is within 6 units of the
    cumulative figure the record of month 12 reports. *)
Theorem year_totals_near_cumulative (scenario : Double.Scenario.t)
  (tiers : list Double.Tier.t) (bulkProducts : list Double.Bulk.t)
  (retailProducts : list Double.Retail.t) :
  (forall m : nat, (1 <= m <= 12)%nat ->
     Double.within 44 (Double.totalRevAt scenario tiers bulkProducts
                                         retailProducts m) = true) ->
  (forall m : nat, (1 <= m <= 12)%nat ->
     Double.within 44 (Double.totalProfitAt scenario tiers bulkProducts
                                            retailProducts m) = true) ->
  let months := Double.projectScenario scenario tiers bulkProducts retailProducts in
  exists (last : Double.Month.t) (yearRev cumRev yearProfit cumProfit : Z),
    months !! 11%nat = Some last
    /\ Double.yearRevenue months = Double.Fin (inject_Z yearRev)
    /\ Double.Month.cumulativeRev last = Double.Fin (inject_Z cumRev)
    /\ (Z.abs (cumRev - yearRev) <= 6)%Z
    /\ Double.yearProfit months = Double.Fin (inject_Z yearProfit)
    /\ Double.Month.cumulativeProfit last = Double.Fin (inject_Z cumProfit)
    /\ (Z.abs (cumProfit - yearProfit) <= 6)%Z.
Proof.
  intros Hrev Hprofit. cbv zeta.
  destruct (double_yearRevenue_eq scenario tiers bulkProducts retailProducts)
    as [-> ->].
  destruct (double_year_total
              (List.map (Double.totalRevAt scenario tiers bulkProducts retailProducts)
                        (seq 1 12))) as (yr & cr & Hyr & Hcr & Hr).
  { rewrite List.length_map, length_seq. reflexivity. }
  { apply List.Forall_forall. intros x Hx.
    apply in_map_iff in Hx as (m & <- & Hm). apply in_seq in Hm. apply Hrev. lia. }
  destruct (double_year_total
              (List.map (Double.totalProfitAt scenario tiers bulkProducts
                                              retailProducts)
                        (seq 1 12))) as (yp & cp & Hyp & Hcp & Hp).
  { rewrite List.length_map, length_seq. reflexivity. }
  { apply List.Forall_forall. intros x Hx.
    apply in_map_iff in Hx as (m & <- & Hm). apply in_seq in Hm. apply Hprofit. lia. }
  exists (Double.reportAt scenario tiers bulkProducts retailProducts 12),
         yr, cr, yp, cp.
  split; [apply (double_projectScenario_lookup _ _ _ _ 12); lia|].
  cbn [Double.reportAt Double.monthRecord Double.Month.cumulativeRev
       Double.Month.cumulativeProfit].
  rewrite double_cumRevAt_fold, double_cumProfitAt_fold.
  repeat split; assumption.
Qed.

Lemma year_totals_near_cumulative_witness :
  exists (last : Double.Month.t) (cumRev : Z),
    Double.projectScenario (parseScenario BaseCase) (parseTier <$> DEFAULT_TIERS)
      (parseBulk <$> DEFAULT_BULK_PRODUCTS) (parseRetail <$> DEFAULT_RETAIL_PRODUCTS)
      !! 11%nat = Some last
    /\ Double.yearRevenue
         (Double.projectScenario (parseScenario BaseCase) (parseTier <$> DEFAULT_TIERS)
            (parseBulk <$> DEFAULT_BULK_PRODUCTS)
            (parseRetail <$> DEFAULT_RETAIL_PRODUCTS)) = Double.Fin 63400
    /\ Double.Month.cumulativeRev last = Double.Fin (inject_Z cumRev)
    /\ (Z.abs (cumRev - 63400) <= 6)%Z.
Proof.
  destruct (year_totals_near_cumulative (parseScenario BaseCase)
              (parseTier <$> DEFAULT_TIERS) (parseBulk <$> DEFAULT_BULK_PRODUCTS)
              (parseRetail <$> DEFAULT_RETAIL_PRODUCTS))
    as (last & yr & cr & _ & _ & Hlast & Hyr & Hcr & Hr & _).
  { intros m Hm.
    do 13 (destruct m as [|m]; [try lia; vm_compute; reflexivity|]). lia. }
  { intros m Hm.
    do 13 (destruct m as [|m]; [try lia; vm_compute; reflexivity|]). lia. }
  exists last, cr. split; [exact Hlast|].
  assert (Double.yearRevenue
            (Double.projectScenario (parseScenario BaseCase)
               (parseTier <$> DEFAULT_TIERS) (parseBulk <$> DEFAULT_BULK_PRODUCTS)
               (parseRetail <$> DEFAULT_RETAIL_PRODUCTS)) = Double.Fin 63400) as E
    by (vm_compute; reflexivity).
  split; [exact E|]. split; [exact Hcr|].
  rewrite E in Hyr. inversion Hyr. lia.
Defined.

(** ** The warning on the tier mix *)

Lemma double_sub_Z (a b : Z) :
  (Z.abs (a - b) <= 2 ^ 53)%Z ->
  Double.sub (Double.Fin (inject_Z a)) (Double.Fin (inject_Z b))
  = Double.Fin (inject_Z (a - b)).
Proof.
  intros Hz. cbn [Double.sub]. apply Double_round_Z; [|exact Hz].
  unfold Z.sub. rewrite inject_Z_plus, inject_Z_opp. reflexivity.
Qed.

(** With whole-number percentages, as the sliders give them, the warning
    shows exactly when they add up to less than 99 or to more than 101:
    the sums are exact on doubles. *)
Theorem tier_mix_warning_whole_percentages (s : Double.Scenario.t) (a b c : Z) :
  Double.Scenario.pctSmall s = Double.Fin (inject_Z a) ->
  Double.Scenario.pctMedium s = Double.Fin (inject_Z b) ->
  Double.Scenario.pctLarge s = Double.Fin (inject_Z c) ->
  (Z.abs a <= 2 ^ 50)%Z -> (Z.abs b <= 2 ^ 50)%Z -> (Z.abs c <= 2 ^ 50)%Z ->
  Double.tierMixWarning s = true <-> (a + b + c < 99 \/ 101 < a + b + c)%Z.
Proof.
  intros Ha Hb Hc Ba Bb Bc. unfold Double.tierMixWarning.
  rewrite Ha, Hb, Hc.
  assert (2 ^ 50 = 1125899906842624)%Z as E50 by reflexivity.
  assert (2 ^ 53 = 9007199254740992)%Z as E53 by reflexivity.
  rewrite double_add_Z by lia. rewrite double_add_Z by lia.
  change (Double.Fin 100) with (Double.Fin (inject_Z 100)).
  rewrite double_sub_Z by lia.
  cbn [Double.abs Double.gt].
  assert (Qabs (inject_Z (a + b + c - 100)) = inject_Z (Z.abs (a + b + c - 100)))
    as -> by reflexivity.
  change 1 with (inject_Z 1).
  rewrite negb_true_iff. split.
  - intros H. destruct (Z.le_gt_cases (Z.abs (a + b + c - 100)) 1) as [Hle|Hgt]; [|lia].
    rewrite Zle_Qle in Hle. apply Qle_bool_iff in Hle. congruence.
  - intros H. destruct (Qle_bool _ _) eqn:E; [|reflexivity].
    apply Qle_bool_iff in E. rewrite <- Zle_Qle in E. lia.
Qed.

Lemma tier_mix_warning_whole_percentages_witness :
  Double.tierMixWarning (parseScenario BaseCase) = false
  /\ Double.tierMixWarning (parseScenario short) = true.
Proof.
  destruct (tier_mix_warning_whole_percentages (parseScenario BaseCase) 50 35 15
              eq_refl eq_refl eq_refl ltac:(vm_compute; discriminate)
              ltac:(vm_compute; discriminate) ltac:(vm_compute; discriminate))
    as [H1 _].
  destruct (tier_mix_warning_whole_percentages (parseScenario short) 50 30 10
              eq_refl eq_refl eq_refl ltac:(vm_compute; discriminate)
              ltac:(vm_compute; discriminate) ltac:(vm_compute; discriminate))
    as [_ H2].
  split; [|apply H2; lia].
  destruct (Double.tierMixWarning (parseScenario BaseCase)); [|reflexivity].
  specialize (H1 eq_refl). lia.
Defined.
